(** * EV battery health monitor: the simulation engine, embedded and verified

    A shallow embedding of the Python simulation engine under
    [backend/simulation/] and proofs (or refutations) of the properties its
    specification states.

    Conventions of the embedding.
    - A Python [float] is an exact rational ([Q]).  Source literals are kept
      as written ([0.7], [1.0], [45]).  Rounding error, infinities and NaN
      are outside the model; a division whose divisor is zero is an
      exceptional outcome ([ZeroDivisionError]).
    - [int(x / y)] truncates the exact quotient here and the rounded one in
      Python, which can come to one more or one less ([int(33 / 1.1)] is 29).
      The theorems on sampled profiles therefore count the samples by the
      lists returned, or take the count or the indices as parameters.
    - A [datetime] is a count of microseconds and a sum of times is a sum of
      integers.  Python represents the years 1 to 9999 only and raises
      OverflowError beyond; [world.representable] states that range where a
      theorem depends on it.
    - A Python [int] is a [Z]; a [list] is a [list]; a [dict] keyed by
      strings is a [gmap string _].
    - A method that mutates [self] takes the object and returns the new
      object next to its result.
    - A raised exception is the left injection of a sum.
    - The global random generators and the wall clock are explicit state
      ([Env]): every draw and every [datetime.now()] consumes one element of
      a stream. *)

From Stdlib Require Import QArith Qminmax Qabs Qround Lqa Lia ZArith.
From stdpp Require Import gmap strings list pretty.

Open Scope Q_scope.

(** ** Python primitives *)

Module Py.

(** Comparison of floats, as the boolean tests of the source. *)
Definition Qleb (x y : Q) : bool := Qle_bool x y.
Definition Qltb (x y : Q) : bool := negb (Qle_bool y x).
Definition Qeqb (x y : Q) : bool := Qeq_bool x y.

(** Built-in [max(a, b)] and [min(a, b)]: the first argument unless the
    second one is strictly larger (smaller). *)
Definition max (a b : Q) : Q := if Qltb a b then b else a.
Definition min (a b : Q) : Q := if Qltb b a then b else a.

(** [np.clip(x, lo, hi)] is [minimum(maximum(x, lo), hi)]. *)
Definition clip (x lo hi : Q) : Q :=
  let y := if Qltb x lo then lo else x in
  if Qltb hi y then hi else y.

Inductive Exception : Set :=
| IndexError | KeyError | ValueError | TypeError
| ZeroDivisionError | UnboundLocalError.

(** Outcome of a call that may raise. *)
Definition Res (A : Type) : Type := Exception + A.

Definition ret {A} (a : A) : Res A := inr a.
Definition raise {A} (e : Exception) : Res A := inl e.
Definition bind {A B} (m : Res A) (k : A -> Res B) : Res B :=
  match m with
  | inl e => inl e
  | inr a => k a
  end.

(** [int(x)] of a float: truncation towards zero. *)
Definition int_of_float (x : Q) : Z :=
  if Qltb x 0 then Qceiling x else Qfloor x.

(** True division [a / b]. *)
Definition div (a b : Q) : Res Q :=
  if Qeqb b 0 then raise ZeroDivisionError else ret (a / b).

(** Two outcomes agree: the same exception, or results related by [R]. *)
Definition same_outcome {A} (R : A -> A -> Prop) (x y : Res A) : Prop :=
  match x, y with
  | inr a, inr b => R a b
  | inl e1, inl e2 => e1 = e2
  | _, _ => False
  end.

(** [x % y] on floats: the remainder has the sign of the divisor. *)
Definition fmod (x y : Q) : Res Q :=
  if Qeqb y 0 then raise ZeroDivisionError
  else ret (x - y * inject_Z (Qfloor (x / y))).

End Py.

Notation "x <=? y" := (Py.Qleb x y) : Q_scope.
Notation "x <? y" := (Py.Qltb x y) : Q_scope.
Notation "x >=? y" := (Py.Qleb y x) : Q_scope.
Notation "x >? y" := (Py.Qltb y x) : Q_scope.
Notation "x ==? y" := (Py.Qeqb x y) (at level 70) : Q_scope.

Notation "'let*' x ':=' m 'in' k" := (Py.bind m (fun x => k))
  (at level 10, x pattern, m at level 200, k at level 200).

(** ** The random generators ([random], [numpy.random]) *)

Module rng.

(** One element of a generator's output: the raw integer, from which the
    uniform variates are derived, and the standard normal deviate derived
    from it. *)
Record Draw := {
  bits : Z;
  gauss : Q
}.

(** A generator is the stream of its future output and a cursor in it.
    Every call below consumes one element. *)
Record Generator := {
  algorithm : Z -> nat -> Draw;
  stream : nat -> Draw;
  position : nat
}.

Definition next (g : Generator) : Draw * Generator :=
  (stream g (position g),
   {| algorithm := algorithm g; stream := stream g; position := S (position g) |}).

(** [seed(s)]: the stream restarts as the generator's algorithm derives it
    from the seed. *)
Definition seed (s : Z) (g : Generator) : Generator :=
  {| algorithm := algorithm g; stream := algorithm g s; position := 0 |}.

(** [random()]: a float in [0, 1) with 53 random bits. *)
Definition random (g : Generator) : Q * Generator :=
  let '(d, g) := next g in
  (inject_Z (bits d mod 2 ^ 53) / inject_Z (2 ^ 53), g).

(** [uniform(a, b)] is [a + (b - a) * random()]. *)
Definition uniform (a b : Q) (g : Generator) : Q * Generator :=
  let '(u, g) := random g in
  (a + (b - a) * u, g).

(** [normal(loc, scale)] is [loc + scale * standard_normal()]. *)
Definition normal (loc scale : Q) (g : Generator) : Q * Generator :=
  let '(d, g) := next g in
  (loc + scale * gauss d, g).

(** An integer below [n], as [random] and numpy derive it from the raw
    integer. *)
Definition randbelow (n : Z) (g : Generator) : Z * Generator :=
  let '(d, g) := next g in
  ((bits d mod n)%Z, g).

(** [random.randint(a, b)]: an integer of [a .. b]; an empty range is an
    error. *)
Definition randint (a b : Z) (g : Generator) : Py.Res (Z * Generator) :=
  if (b <? a)%Z then Py.raise Py.ValueError
  else let '(k, g) := randbelow (b - a + 1) g in Py.ret ((a + k)%Z, g).

(** [random.choice(xs)]. *)
Definition choice {A} (xs : list A) (g : Generator) : Py.Res (A * Generator) :=
  match xs with
  | [] => Py.raise Py.IndexError
  | x0 :: _ =>
      let '(k, g) := randbelow (Z.of_nat (length xs)) g in
      Py.ret (nth (Z.to_nat k) xs x0, g)
  end.

(** [bisect(cum_weights, x, 0, hi)]: the first position below [hi] whose
    cumulative weight exceeds [x], else [hi]. *)
Fixpoint bisect (cum_weights : list Q) (x : Q) (hi : nat) : nat :=
  match hi, cum_weights with
  | S hi, w :: ws => if x <? w then 0%nat else S (bisect ws x hi)
  | _, _ => 0%nat
  end.

Fixpoint accumulate (acc : Q) (weights : list Q) : list Q :=
  match weights with
  | [] => []
  | w :: ws => (acc + w) :: accumulate (acc + w) ws
  end.

(** [random.choices(population, weights=weights)[0]]. *)
Definition choices {A} (population : list A) (weights : list Q) (g : Generator)
    : Py.Res (A * Generator) :=
  match population with
  | [] => Py.raise Py.IndexError
  | x0 :: _ =>
      let cum_weights := accumulate 0 weights in
      let total := default 0 (last cum_weights) in
      if negb (length weights =? length population)%nat then Py.raise Py.ValueError
      else if total <=? 0 then Py.raise Py.ValueError
      else
        let '(u, g) := random g in
        Py.ret (nth (bisect cum_weights (u * total) (length population - 1)) population x0, g)
  end.

(** A generator that repeats one draw for ever, whatever its seed. *)
Definition constant (d : Draw) : Generator :=
  {| algorithm := fun _ _ => d; stream := fun _ => d; position := 0 |}.

End rng.

(** ** The environment of a run: generators and wall clock *)

Module world.

(** A [datetime] (naive local time) and a [timedelta], in microseconds. *)
Definition datetime : Type := Z.
Definition timedelta : Type := Z.

Definition seconds (n : Z) : timedelta := (n * 1000000)%Z.

(** [datetime.time(hour, minute)]. *)
Record time := {
  hour : Z;
  minute : Z
}.

Definition day_us : Z := 86400000000.
Definition hour_us : Z := 3600000000.

(** [t.replace(hour=0, minute=0, second=0, microsecond=0)]. *)
Definition midnight (t : datetime) : datetime := (t - t mod day_us)%Z.

(** [t.weekday()]: Monday is 0; the epoch was a Thursday. *)
Definition weekday (t : datetime) : Z := ((t / day_us + 3) mod 7)%Z.

(** [t.hour]. *)
Definition hour_of (t : datetime) : Z := ((t mod day_us) / hour_us)%Z.

(** Rounding to the nearest integer, ties to even: [round] and the
    microsecond resolution of [timedelta]. *)
Definition round_half_even (x : Q) : Z :=
  let f := Qfloor x in
  let r := x - inject_Z f in
  if r <? 0.5 then f
  else if r >? 0.5 then (f + 1)%Z
  else if Z.even f then f else (f + 1)%Z.

(** [round(x, ndigits)] for [ndigits] 1 and 2. *)
Definition round1 (x : Q) : Q := inject_Z (round_half_even (x * 10)) / 10.
Definition round2 (x : Q) : Q := inject_Z (round_half_even (x * 100)) / 100.

(** [f"{x:.1f}"] and [f"{n}"]. *)
Definition format_1f (x : Q) : string :=
  let n := Z.abs (round_half_even (x * 10)) in
  (if x <? 0 then "-" else "") ++ pretty (n / 10)%Z ++ "." ++ pretty (n mod 10)%Z.
Definition format_int (n : Z) : string := pretty n.

(** [timedelta(days=n)], [timedelta(hours=h)], [timedelta(seconds=s)] and
    [d.total_seconds()]. *)
Definition days (n : Z) : timedelta := (n * day_us)%Z.
Definition hours (h : Q) : timedelta := round_half_even (h * inject_Z hour_us).
Definition float_seconds (x : Q) : timedelta := round_half_even (x * 1000000).
Definition total_seconds (d : timedelta) : Q := inject_Z d / 1000000.

(** The wall clock: the readings that successive [datetime.now()] calls will
    return, and how many have been taken. *)
Record Clock := {
  readings : nat -> datetime;
  reads : nat
}.

Record Env := {
  np_random : rng.Generator;
  py_random : rng.Generator;
  clock : Clock
}.

(** A computation that may draw, read the clock, or raise. *)
Definition M (A : Type) : Type := Env -> Py.Res (A * Env).

Definition ret {A} (a : A) : M A := fun env => inr (a, env).
Definition bind {A B} (m : M A) (k : A -> M B) : M B :=
  fun env =>
    match m env with
    | inl e => inl e
    | inr (a, env) => k a env
    end.
Definition raise {A} (e : Py.Exception) : M A := fun _ => inl e.
Definition lift {A} (r : Py.Res A) : M A :=
  fun env =>
    match r with
    | inl e => inl e
    | inr a => inr (a, env)
    end.

(** The reading that the [k]-th next [datetime.now()] call will return,
    counting from 0. *)
Definition reading (env : Env) (k : nat) : datetime :=
  readings (clock env) (reads (clock env) + k).

(** The datetimes that Python represents: from 0001-01-01 00:00:00 to
    9999-12-31 23:59:59.999999.  A sum of a [datetime] and a [timedelta]
    outside them raises OverflowError in Python; the sums of this model are
    sums of integers and go on. *)
Definition datetime_min : datetime := (-719162 * day_us)%Z.
Definition datetime_max : datetime := (2932897 * day_us - 1)%Z.
Definition representable (t : datetime) : Prop :=
  (datetime_min <= t <= datetime_max)%Z.

(** [datetime.now()]. *)
Definition now : M datetime :=
  fun env =>
    let c := clock env in
    inr (readings c (reads c),
         {| np_random := np_random env; py_random := py_random env;
            clock := {| readings := readings c; reads := S (reads c) |} |}).

(** A draw from [numpy.random], and one from [random]. *)
Definition np {A} (f : rng.Generator -> A * rng.Generator) : M A :=
  fun env =>
    let '(a, g) := f (np_random env) in
    inr (a, {| np_random := g; py_random := py_random env; clock := clock env |}).
Definition py {A} (f : rng.Generator -> A * rng.Generator) : M A :=
  fun env =>
    let '(a, g) := f (py_random env) in
    inr (a, {| np_random := np_random env; py_random := g; clock := clock env |}).

(** [random.randint], [random.choice] and [random.choices]. *)
Definition py_res {A} (f : rng.Generator -> Py.Res (A * rng.Generator)) : M A :=
  fun env =>
    match f (py_random env) with
    | inl e => inl e
    | inr (a, g) =>
        inr (a, {| np_random := np_random env; py_random := g; clock := clock env |})
    end.

(** [np.random.choice]. *)
Definition np_res {A} (f : rng.Generator -> Py.Res (A * rng.Generator)) : M A :=
  fun env =>
    match f (np_random env) with
    | inl e => inl e
    | inr (a, g) =>
        inr (a, {| np_random := g; py_random := py_random env; clock := clock env |})
    end.

(** [np.random.seed(s)]: numpy accepts seeds of [0 .. 2^32 - 1] only. *)
Definition np_seed (s : Z) : M unit :=
  fun env =>
    if ((s <? 0) || (2 ^ 32 <=? s))%Z then inl Py.ValueError
    else inr (tt, {| np_random := rng.seed s (np_random env);
                     py_random := py_random env; clock := clock env |}).

(** [random.seed(s)]: an integer seed counts by its absolute value. *)
Definition py_seed (s : Z) : M unit :=
  fun env =>
    inr (tt, {| np_random := np_random env;
                py_random := rng.seed (Z.abs s) (py_random env); clock := clock env |}).

(** The truth value of an [Optional[int]] seed: [None] and 0 are false. *)
Definition truthy (seed : option Z) : option Z :=
  match seed with
  | Some s => if (s =? 0)%Z then None else Some s
  | None => None
  end.

(** [np.random.normal(loc, scale)] with a computed scale: numpy rejects a
    negative one. *)
Definition np_normal (loc scale : Q) : M Q :=
  if scale <? 0 then raise Py.ValueError else np (rng.normal loc scale).

(** Total correctness of a computation: from every environment that
    satisfies [P] it returns, with a value and an environment that satisfy
    [Q]. *)
Definition returns {A} (P : Env -> Prop) (m : M A) (Q : A -> Env -> Prop) : Prop :=
  forall env, P env -> exists a env', m env = inr (a, env') /\ Q a env'.

(** The future output of [random] is the stream [f]. *)
Definition py_stream_is (f : nat -> rng.Draw) (env : Env) : Prop :=
  rng.stream (py_random env) = f.

End world.

Notation "'let!' x ':=' m 'in' k" := (world.bind m (fun x => k))
  (at level 10, x pattern, m at level 200, k at level 200).

Module Pylist.

(** [range(n)]. *)
Definition range (n : Z) : list Z := map Z.of_nat (seq 0 (Z.to_nat n)).

(** [for x in xs: state = body(x, state)]. *)
Fixpoint for_each {A S} (xs : list A) (body : A -> S -> world.M S) (s : S) : world.M S :=
  match xs with
  | [] => world.ret s
  | x :: xs => let! s := body x s in for_each xs body s
  end.

(** The position that index [i] of a list of length [n] denotes: negative
    indices count from the end. *)
Definition position (n : nat) (i : Z) : Py.Res nat :=
  let j := if (i <? 0)%Z then (i + Z.of_nat n)%Z else i in
  if ((j <? 0) || (Z.of_nat n <=? j))%Z then Py.raise Py.IndexError
  else Py.ret (Z.to_nat j).

(** [xs[i]]. *)
Definition getitem {A} (xs : list A) (i : Z) : Py.Res A :=
  let* j := position (length xs) i in
  match xs !! j with
  | Some x => Py.ret x
  | None => Py.raise Py.IndexError
  end.

(** [xs[i] = x]. *)
Definition setitem {A} (xs : list A) (i : Z) (x : A) : Py.Res (list A) :=
  let* j := position (length xs) i in
  Py.ret (<[j := x]> xs).

(** [xs[:n]]. *)
Definition slice_to {A} (xs : list A) (n : Z) : list A :=
  if (n <? 0)%Z then take (length xs - Z.to_nat (- n)) xs else take (Z.to_nat n) xs.

(** [range(a, b)]. *)
Definition range_from (a b : Z) : list Z :=
  map (fun k => (a + Z.of_nat k)%Z) (seq 0 (Z.to_nat (b - a))).

(** [for x in xs: state = body(x, state)] for a body that neither draws
    nor reads the clock. *)
Fixpoint for_each_res {A S} (xs : list A) (body : A -> S -> Py.Res S) (s : S)
    : Py.Res S :=
  match xs with
  | [] => Py.ret s
  | x :: xs => let* s := body x s in for_each_res xs body s
  end.

End Pylist.

(** ** simulation/thermal_safety.py *)

Module thermal_safety.

Inductive ThermalStatus : Set := NORMAL | WARNING | CRITICAL | SHUTDOWN.

Record ThermalThresholds := {
  warning_temp : Q;
  critical_temp : Q;
  shutdown_temp : Q;
  recovery_temp : Q
}.

(** The dataclass defaults. *)
Definition default_thresholds : ThermalThresholds := {|
  warning_temp := 50.0;
  critical_temp := 55.0;
  shutdown_temp := 60.0;
  recovery_temp := 45.0
|}.

(** One entry of [event_history].  The entry's message text and timestamp
    are presentation data and are not modelled. *)
Record ThermalEvent := {
  event_type : string;
  event_temperature : Q
}.

Record ThermalSafetyManager := {
  vehicle_id : string;
  thresholds : ThermalThresholds;
  current_status : ThermalStatus;
  shutdown_active : bool;
  warning_count : Z;
  event_history : list ThermalEvent
}.

(** [ThermalSafetyManager.__init__] with the default thresholds. *)
Definition init (vid : string) : ThermalSafetyManager := {|
  vehicle_id := vid;
  thresholds := default_thresholds;
  current_status := NORMAL;
  shutdown_active := false;
  warning_count := 0;
  event_history := []
|}.

Definition set_current_status (s : ThermalStatus) (self : ThermalSafetyManager) :=
  {| vehicle_id := vehicle_id self; thresholds := thresholds self;
     current_status := s; shutdown_active := shutdown_active self;
     warning_count := warning_count self; event_history := event_history self |}.

Definition set_shutdown_active (b : bool) (self : ThermalSafetyManager) :=
  {| vehicle_id := vehicle_id self; thresholds := thresholds self;
     current_status := current_status self; shutdown_active := b;
     warning_count := warning_count self; event_history := event_history self |}.

Definition set_warning_count (n : Z) (self : ThermalSafetyManager) :=
  {| vehicle_id := vehicle_id self; thresholds := thresholds self;
     current_status := current_status self; shutdown_active := shutdown_active self;
     warning_count := n; event_history := event_history self |}.

Definition set_event_history (h : list ThermalEvent) (self : ThermalSafetyManager) :=
  {| vehicle_id := vehicle_id self; thresholds := thresholds self;
     current_status := current_status self; shutdown_active := shutdown_active self;
     warning_count := warning_count self; event_history := h |}.

(** [_log_event]: append, then keep the last 1000 entries. *)
Definition _log_event (ty : string) (temperature : Q)
    (self : ThermalSafetyManager) : ThermalSafetyManager :=
  let h := event_history self ++ [{| event_type := ty; event_temperature := temperature |}] in
  if (1000 <? length h)%nat
  then set_event_history (drop (length h - 1000) h) self
  else set_event_history h self.

(** The dictionary returned by [check_temperature] (without its message
    and timestamp entries). *)
Record CheckResult := {
  temperature : Q;
  status : ThermalStatus;
  action_required : bool;
  power_limit : Q
}.

Definition status_eqb (a b : ThermalStatus) : bool :=
  match a, b with
  | NORMAL, NORMAL | WARNING, WARNING | CRITICAL, CRITICAL | SHUTDOWN, SHUTDOWN => true
  | _, _ => false
  end.

(** The [if self.shutdown_active:] block at the top of [check_temperature]:
    [inl r] is its early [return result]; [inr self'] falls through to the
    threshold ladder. *)
Definition shutdown_recovery (self : ThermalSafetyManager) (current_temp : Q)
    : CheckResult + ThermalSafetyManager :=
  if shutdown_active self then
    if current_temp <=? recovery_temp (thresholds self) then
      inr (_log_event "recovery" current_temp
             (set_current_status NORMAL (set_shutdown_active false self)))
    else
      inl {| temperature := current_temp; status := SHUTDOWN;
             action_required := true; power_limit := 0.0 |}
  else inr self.

(** The [if / elif / elif / else] ladder that determines the status. *)
Definition determine_status (previous_status : ThermalStatus)
    (self : ThermalSafetyManager) (current_temp : Q)
    : CheckResult * ThermalSafetyManager :=
  let th := thresholds self in
  if current_temp >=? shutdown_temp th then
    ({| temperature := current_temp; status := SHUTDOWN;
        action_required := true; power_limit := 0.0 |},
     _log_event "shutdown" current_temp
       (set_shutdown_active true (set_current_status SHUTDOWN self)))
  else if current_temp >=? critical_temp th then
    ({| temperature := current_temp; status := CRITICAL;
        action_required := true; power_limit := 0.3 |},
     _log_event "critical" current_temp (set_current_status CRITICAL self))
  else if current_temp >=? warning_temp th then
    ({| temperature := current_temp; status := WARNING;
        action_required := false; power_limit := 0.7 |},
     _log_event "warning" current_temp
       (set_warning_count (warning_count self + 1)%Z (set_current_status WARNING self)))
  else
    ({| temperature := current_temp; status := NORMAL;
        action_required := false; power_limit := 1.0 |},
     let self1 := set_current_status NORMAL self in
     if negb (status_eqb previous_status NORMAL)
     then set_warning_count 0%Z self1
     else self1).

Definition check_temperature (self : ThermalSafetyManager) (current_temp : Q)
    : CheckResult * ThermalSafetyManager :=
  let previous_status := current_status self in
  match shutdown_recovery self current_temp with
  | inl result => (result, self)
  | inr self1 => determine_status previous_status self1 current_temp
  end.

(** A sequence of [check_temperature] calls on one manager: the results in
    call order, and the manager after the last call. *)
Fixpoint check_temperatures (self : ThermalSafetyManager) (temps : list Q)
    : list CheckResult * ThermalSafetyManager :=
  match temps with
  | [] => ([], self)
  | t :: rest =>
      let '(r, self1) := check_temperature self t in
      let '(rs, self2) := check_temperatures self1 rest in
      (r :: rs, self2)
  end.

(** The step function of the specification. *)
Definition limit_of_status (s : ThermalStatus) : Q :=
  match s with
  | NORMAL => 1.0
  | WARNING => 0.7
  | CRITICAL => 0.3
  | SHUTDOWN => 0.0
  end.

(** Escalation order of the status levels. *)
Definition severity (s : ThermalStatus) : nat :=
  match s with
  | NORMAL => 0
  | WARNING => 1
  | CRITICAL => 2
  | SHUTDOWN => 3
  end.

(** The reasons that [should_allow_charging] gives; two of them also quote
    the temperature. *)
Inductive ChargingReason : Set :=
| shutdown_active_reason
| temperature_too_high
| slow_charging_only
| normal_charging_allowed.

Definition should_allow_charging (self : ThermalSafetyManager) (current_temp : Q)
    : bool * ChargingReason :=
  if shutdown_active self then (false, shutdown_active_reason)
  else if current_temp >=? critical_temp (thresholds self) then
    (false, temperature_too_high)
  else if current_temp >=? warning_temp (thresholds self) then
    (true, slow_charging_only)
  else (true, normal_charging_allowed).

Definition reset (self : ThermalSafetyManager) : ThermalSafetyManager :=
  set_event_history []
    (set_warning_count 0%Z (set_shutdown_active false (set_current_status NORMAL self))).

(** [status.value]. *)
Definition value (s : ThermalStatus) : string :=
  match s with
  | NORMAL => "normal"
  | WARNING => "warning"
  | CRITICAL => "critical"
  | SHUTDOWN => "shutdown"
  end.

(** The dictionary returned by [get_thermal_report]. *)
Record ThermalReport := {
  report_vehicle_id : string;
  report_current_status : string;
  report_shutdown_active : bool;
  report_warning_count : Z;
  report_thresholds : ThermalThresholds;
  recent_events : list ThermalEvent;
  total_events : nat
}.

Definition get_thermal_report (self : ThermalSafetyManager) : ThermalReport :=
  let recent_events :=
    match event_history self with
    | [] => []
    | _ => drop (length (event_history self) - 10) (event_history self)
    end in
  {| report_vehicle_id := vehicle_id self;
     report_current_status := value (current_status self);
     report_shutdown_active := shutdown_active self;
     report_warning_count := warning_count self;
     report_thresholds := thresholds self;
     recent_events := recent_events;
     total_events := length (event_history self) |}.

(** The fields of a manager agree with each other: the shutdown flag is set
    exactly in the shutdown status, the warning counter is zero in the
    normal status and never negative. *)
Definition consistent (m : ThermalSafetyManager) : Prop :=
  (shutdown_active m = true <-> current_status m = SHUTDOWN) /\
  (current_status m = NORMAL -> warning_count m = 0%Z) /\
  (0 <= warning_count m)%Z.

End thermal_safety.

(** ** simulation/battery_model.py *)

Module battery_model.

Import thermal_safety.

Record BatterySpecs := {
  vehicle_id : string;
  make : string;
  model : string;
  nominal_capacity_kwh : Q;
  nominal_voltage : Q;
  max_voltage : Q;
  min_voltage : Q;
  max_charge_current : Q;
  max_discharge_current : Q;
  cell_configuration : string;
  thermal_mass : Q;
  internal_resistance : Q
}.

Definition VEH001 : BatterySpecs := {|
  vehicle_id := "VEH001";
  make := "Tesla";
  model := "Model 3";
  nominal_capacity_kwh := 82.0;
  nominal_voltage := 350.0;
  max_voltage := 420.0;
  min_voltage := 300.0;
  max_charge_current := 200.0;
  max_discharge_current := -250.0;
  cell_configuration := "96s46p";
  thermal_mass := 400.0;
  internal_resistance := 0.05
|}.

Definition VEH002 : BatterySpecs := {|
  vehicle_id := "VEH002";
  make := "Nissan";
  model := "Leaf";
  nominal_capacity_kwh := 62.0;
  nominal_voltage := 350.0;
  max_voltage := 403.0;
  min_voltage := 300.0;
  max_charge_current := 100.0;
  max_discharge_current := -150.0;
  cell_configuration := "96s2p";
  thermal_mass := 300.0;
  internal_resistance := 0.08
|}.

Definition VEHICLE_SPECS : gmap string BatterySpecs :=
  <["VEH001" := VEH001]> (<["VEH002" := VEH002]> ∅).

Record BatteryModel := {
  specs : BatterySpecs;
  soc : Q;
  soh : Q;
  temperature : Q;
  voltage : Q;
  current : Q;
  ambient_temp : Q;
  effective_capacity_kwh : Q;
  thermal_safety : ThermalSafetyManager
}.

Definition _calculate_voltage (sp : BatterySpecs) (soc : Q) : Q :=
  let soc_norm := soc / 100.0 in
  let voltage_norm :=
    if soc_norm <? 0.1 then 0.0 + (soc_norm / 0.1) * 0.2
    else if soc_norm <? 0.9 then 0.2 + ((soc_norm - 0.1) / 0.8) * 0.6
    else 0.8 + ((soc_norm - 0.9) / 0.1) * 0.2 in
  let voltage_range := max_voltage sp - min_voltage sp in
  min_voltage sp + (voltage_norm * voltage_range).

(** [BatteryModel.__init__]. *)
Definition init (sp : BatterySpecs) (initial_soc initial_temp soh0 : Q) : BatteryModel := {|
  specs := sp;
  soc := initial_soc;
  soh := soh0;
  temperature := initial_temp;
  voltage := _calculate_voltage sp initial_soc;
  current := 0.0;
  ambient_temp := 20.0;
  effective_capacity_kwh := nominal_capacity_kwh sp * (soh0 / 100.0);
  thermal_safety := thermal_safety.init (vehicle_id sp)
|}.

Definition set_soc (x : Q) (self : BatteryModel) :=
  {| specs := specs self; soc := x; soh := soh self; temperature := temperature self;
     voltage := voltage self; current := current self; ambient_temp := ambient_temp self;
     effective_capacity_kwh := effective_capacity_kwh self;
     thermal_safety := thermal_safety self |}.

Definition set_temperature (x : Q) (self : BatteryModel) :=
  {| specs := specs self; soc := soc self; soh := soh self; temperature := x;
     voltage := voltage self; current := current self; ambient_temp := ambient_temp self;
     effective_capacity_kwh := effective_capacity_kwh self;
     thermal_safety := thermal_safety self |}.

Definition set_voltage (x : Q) (self : BatteryModel) :=
  {| specs := specs self; soc := soc self; soh := soh self; temperature := temperature self;
     voltage := x; current := current self; ambient_temp := ambient_temp self;
     effective_capacity_kwh := effective_capacity_kwh self;
     thermal_safety := thermal_safety self |}.

Definition set_current (x : Q) (self : BatteryModel) :=
  {| specs := specs self; soc := soc self; soh := soh self; temperature := temperature self;
     voltage := voltage self; current := x; ambient_temp := ambient_temp self;
     effective_capacity_kwh := effective_capacity_kwh self;
     thermal_safety := thermal_safety self |}.

Definition set_ambient_temp (x : Q) (self : BatteryModel) :=
  {| specs := specs self; soc := soc self; soh := soh self; temperature := temperature self;
     voltage := voltage self; current := current self; ambient_temp := x;
     effective_capacity_kwh := effective_capacity_kwh self;
     thermal_safety := thermal_safety self |}.

Definition set_effective_capacity_kwh (x : Q) (self : BatteryModel) :=
  {| specs := specs self; soc := soc self; soh := soh self; temperature := temperature self;
     voltage := voltage self; current := current self; ambient_temp := ambient_temp self;
     effective_capacity_kwh := x;
     thermal_safety := thermal_safety self |}.

Definition set_thermal_safety (m : ThermalSafetyManager) (self : BatteryModel) :=
  {| specs := specs self; soc := soc self; soh := soh self; temperature := temperature self;
     voltage := voltage self; current := current self; ambient_temp := ambient_temp self;
     effective_capacity_kwh := effective_capacity_kwh self;
     thermal_safety := m |}.

Definition _calculate_voltage_under_load (self : BatteryModel) (i : Q) : Q :=
  let ocv := _calculate_voltage (specs self) (soc self) in
  let voltage_drop := i * internal_resistance (specs self) in
  let terminal_voltage := ocv - voltage_drop in
  Py.clip terminal_voltage (min_voltage (specs self)) (max_voltage (specs self)).

Definition update_thermal (self : BatteryModel) (dt power : Q) : Py.Res (Q * BatteryModel) :=
  let heat_generated := Qabs (current self) ^ 2 * internal_resistance (specs self) in
  let heat_generated :=
    if power >? 0 then
      let charging_inefficiency := 0.05 in
      heat_generated + Qabs power * charging_inefficiency
    else heat_generated in
  let cooling_coefficient := 0.001 in
  let heat_removed := cooling_coefficient * (temperature self - ambient_temp self) in
  let specific_heat := 1000 in
  let* temp_change := Py.div ((heat_generated - heat_removed) * dt)
                           (thermal_mass (specs self) * specific_heat) in
  let self := set_temperature (temperature self + temp_change) self in
  let '(thermal_check, mgr) := check_temperature (thermal_safety self) (temperature self) in
  let self := set_thermal_safety mgr self in
  let self :=
    if temperature self <? 0 then
      set_effective_capacity_kwh
        (nominal_capacity_kwh (specs self) * (soh self / 100.0) * 0.8) self
    else self in
  Py.ret (temperature self, self).

Definition update_soc (self : BatteryModel) (i dt : Q) : Py.Res (Q * BatteryModel) :=
  let voltage := _calculate_voltage_under_load self i in
  let power := voltage * i in
  let energy_change := power * dt / 3600.0 in
  let* ratio := Py.div energy_change (effective_capacity_kwh self * 1000) in
  let soc_change := ratio * 100 in
  let self := set_soc (Py.clip (soc self + soc_change) 0.0 100.0) self in
  Py.ret (soc self, self).

Definition apply_current (self : BatteryModel) (requested_current dt : Q)
    : Py.Res ((Q * Q * Q) * BatteryModel) :=
  let '(thermal_check, mgr) := check_temperature (thermal_safety self) (temperature self) in
  let self := set_thermal_safety mgr self in
  let thermal_power_limit := power_limit thermal_check in
  let temp_derate :=
    if temperature self >? 45 then Py.max 0.5 (1.0 - (temperature self - 45) / 20)
    else if temperature self <? 0 then Py.max 0.3 (1.0 + temperature self / 20)
    else 1.0 in
  let power_limit := Py.min temp_derate thermal_power_limit in
  let max_current :=
    if requested_current >? 0 then
      let max_current := max_charge_current (specs self) * power_limit in
      if soc self >? 80 then
        let taper_factor := 1.0 - (soc self - 80) / 20 in
        max_current * Py.max 0.1 taper_factor
      else max_current
    else max_discharge_current (specs self) * power_limit in
  let self :=
    if requested_current >? 0
    then set_current (Py.min requested_current max_current) self
    else set_current (Py.max requested_current max_current) self in
  let self := set_voltage (_calculate_voltage_under_load self (current self)) self in
  let power := voltage self * current self in
  let* (_, self) := update_soc self (current self) dt in
  let* (_, self) := update_thermal self dt power in
  Py.ret ((current self, voltage self, power), self).

(** The dictionary returned by [get_state]. *)
Record State := {
  state_soc_percent : Q;
  state_voltage : Q;
  state_current : Q;
  state_temperature : Q;
  state_power : Q;
  state_energy_kwh : Q;
  state_soh_percent : Q;
  state_estimated_range_km : Q;
  state_thermal_status : ThermalStatus;
  state_thermal_shutdown : bool
}.

Definition _estimate_range (self : BatteryModel) : Q :=
  let consumption_wh_per_km :=
    if String.eqb (make (specs self)) "Tesla" then 180 else 150 in
  let remaining_energy_wh := effective_capacity_kwh self * 1000 * (soc self / 100) in
  remaining_energy_wh / consumption_wh_per_km.

Definition get_state (self : BatteryModel) : State := {|
  state_soc_percent := world.round1 (soc self);
  state_voltage := world.round1 (voltage self);
  state_current := world.round1 (current self);
  state_temperature := world.round1 (temperature self);
  state_power := world.round1 (voltage self * current self);
  state_energy_kwh := world.round2 (effective_capacity_kwh self * soc self / 100);
  state_soh_percent := world.round1 (soh self);
  state_estimated_range_km := world.round1 (_estimate_range self);
  state_thermal_status := current_status (thermal_safety self);
  state_thermal_shutdown := shutdown_active (thermal_safety self)
|}.

(** A sequence of [apply_current] calls on one battery: the battery after
    each call, in call order. *)
Fixpoint apply_currents (self : BatteryModel) (calls : list (Q * Q))
    : Py.Res (list BatteryModel) :=
  match calls with
  | [] => Py.ret []
  | (requested_current, dt) :: rest =>
      let* (_, self1) := apply_current self requested_current dt in
      let* trace := apply_currents self1 rest in
      Py.ret (self1 :: trace)
  end.

(** Capacity of a healthy-temperature pack and of a cold pack. *)
Definition rated_capacity (self : BatteryModel) : Q :=
  nominal_capacity_kwh (specs self) * (soh self / 100.0).
Definition cold_capacity (self : BatteryModel) : Q :=
  nominal_capacity_kwh (specs self) * (soh self / 100.0) * 0.8.

(** The divisors of [apply_current] are not zero, now or after a cold
    step. *)
Definition well_formed (self : BatteryModel) : Prop :=
  ~ effective_capacity_kwh self == 0 /\
  ~ thermal_mass (specs self) == 0 /\
  ~ nominal_capacity_kwh (specs self) == 0 /\
  ~ soh self == 0.

(** The limiting factors as the specification words them: the temperature
    derate, the thermal-safety limit combined with it, and the CC-CV taper. *)
Definition temperature_derate (t : Q) : Q :=
  if t >? 45 then Py.max 0.5 (1.0 - (t - 45) / 20)
  else if t <? 0 then Py.max 0.3 (1.0 + t / 20)
  else 1.0.

Definition combined_limit (self : BatteryModel) : Q :=
  Py.min (temperature_derate (temperature self))
         (power_limit (fst (check_temperature (thermal_safety self) (temperature self)))).

Definition cc_cv_taper (soc : Q) : Q :=
  if soc >? 80 then Py.max 0.1 (1 - (soc - 80) / 20) else 1.

End battery_model.

(** ** simulation/charging_patterns.py *)

Module charging_patterns.

Inductive ChargingType : Set := AC_L1 | AC_L2 | DC_FAST | SUPERCHARGER.

Record ChargingSpec := {
  max_power_kw : Q;
  efficiency : Q;
  voltage : Z;
  phases : option Z
}.

Definition CHARGING_SPECS (t : ChargingType) : ChargingSpec :=
  match t with
  | AC_L1 => {| max_power_kw := 1.4; efficiency := 0.85; voltage := 240; phases := Some 1%Z |}
  | AC_L2 => {| max_power_kw := 11.0; efficiency := 0.90; voltage := 240; phases := Some 2%Z |}
  | DC_FAST => {| max_power_kw := 50.0; efficiency := 0.95; voltage := 400; phases := None |}
  | SUPERCHARGER => {| max_power_kw := 150.0; efficiency := 0.97; voltage := 400; phases := None |}
  end.

Record ChargingPatternGenerator := {
  battery_voltage : Q
}.

(** The variables of the sampling loop of [generate_cc_cv_profile], with the
    state of numpy's generator. *)
Record Loop := {
  current_soc : Q;
  completed : bool;
  current_profile : list Q;
  soc_profile : list Q;
  np_random : rng.Generator
}.

Section generate_cc_cv_profile.

(** [np.exp], a parameter of the embedding. *)
Variable np_exp : Q -> Q.

Variable self : ChargingPatternGenerator.
Variable charging_type : ChargingType.
Variables target_soc battery_capacity_kwh dt : Q.

(** The nominal current of sample [i], and the value of [completed] after
    the [if / elif / else] that computes it. *)
Definition nominal_current (max_current cv_transition_soc : Q) (i : Z) (st : Loop)
    : Py.Res (Q * bool) :=
  if current_soc st >=? target_soc then
    Py.ret (0, true)
  else if current_soc st <? cv_transition_soc then
    let current :=
      match charging_type with
      | SUPERCHARGER =>
          let power_factor :=
            if current_soc st <? 20 then 1.0
            else if current_soc st <? 50 then 0.9
            else 0.8 - (current_soc st - 50) * 0.005 in
          max_current * power_factor
      | _ => max_current
      end in
    let* ramp_end := Py.div 10 dt in
    if inject_Z i <? ramp_end then
      let ramp_factor := (inject_Z i * dt) / 10 in
      Py.ret (current * ramp_factor, completed st)
    else Py.ret (current, completed st)
  else
    let soc_above_cv := current_soc st - cv_transition_soc in
    let taper_factor := np_exp (- soc_above_cv / 10) in
    Py.ret (max_current * taper_factor * 0.5, completed st).

(** The "realistic variations": applied to a positive current only. *)
Definition add_variations (current : Q) (g : rng.Generator) : Q * rng.Generator :=
  if current >? 0 then
    let '(n, g) := rng.normal 0 0.01 g in
    let current := current * (1 + n) in
    let '(u, g) := rng.random g in
    if u <? 0.02 then
      let '(f, g) := rng.uniform 0.7 0.9 g in
      (current * f, g)
    else (current, g)
  else (current, g).

(** One iteration of [for i in range(samples)]. *)
Definition sample (max_current cv_transition_soc : Q) (i : Z) (st : Loop)
    : Py.Res Loop :=
  let specs := CHARGING_SPECS charging_type in
  let* (current, completed) := nominal_current max_current cv_transition_soc i st in
  let effective_current := current * efficiency specs in
  let power := effective_current * battery_voltage self in
  let energy_delivered := power * dt / 3600 in
  let* ratio := Py.div energy_delivered (battery_capacity_kwh * 1000) in
  let soc_increment := ratio * 100 in
  let current_soc := Py.min (current_soc st + soc_increment) 100.0 in
  let '(current, g) := add_variations current (np_random st) in
  Py.ret {| current_soc := current_soc;
            completed := completed;
            current_profile := current_profile st ++ [current];
            soc_profile := soc_profile st ++ [current_soc];
            np_random := g |}.

(** Iterations [i], [i + 1], ..., [i + n - 1]. *)
Fixpoint samples_from (max_current cv_transition_soc : Q) (n : nat) (i : Z) (st : Loop)
    : Py.Res Loop :=
  match n with
  | O => Py.ret st
  | S n =>
      let* st := sample max_current cv_transition_soc i st in
      samples_from max_current cv_transition_soc n (i + 1)%Z st
  end.

Definition generate_cc_cv_profile (initial_soc : Q) (duration_seconds : Z)
    (g : rng.Generator) : Py.Res (list Q * list Q * bool * rng.Generator) :=
  let specs := CHARGING_SPECS charging_type in
  let* q := Py.div (inject_Z duration_seconds) dt in
  let samples := Py.int_of_float q in
  let max_power := max_power_kw specs * 1000 in
  let* max_current := Py.div max_power (battery_voltage self) in
  let cv_transition_soc :=
    match charging_type with
    | DC_FAST | SUPERCHARGER => 80.0
    | _ => 85.0
    end in
  let* st := samples_from max_current cv_transition_soc (Z.to_nat samples) 0%Z
               {| current_soc := initial_soc; completed := false;
                  current_profile := []; soc_profile := [];
                  np_random := g |} in
  Py.ret (current_profile st, soc_profile st, completed st, np_random st).

End generate_cc_cv_profile.

(** Two loop states that differ at most in the noise: generator and
    reported currents. *)
Definition same_charge (a b : Loop) : Prop :=
  current_soc a = current_soc b /\ completed a = completed b /\
  soc_profile a = soc_profile b /\
  length (current_profile a) = length (current_profile b).

(** The completion property as the specification words it: the flag is set
    exactly when the recorded SoC reaches the target at some sample, and
    every sample at or after such a sample reports current 0. *)
Definition completion_as_specified (target_soc : Q) (currents socs : list Q)
    (completed : bool) : Prop :=
  (completed = true <-> exists i s, socs !! i = Some s /\ target_soc <= s) /\
  (forall j i s, socs !! j = Some s -> target_soc <= s ->
                 (j <= i)%nat -> (i < length currents)%nat -> currents !! i = Some 0).

(** A rational stand-in for [np.exp], to run examples: the Taylor polynomial
    of degree 3. *)
Definition exp_taylor (x : Q) : Q := 1 + x + x * x / 2 + x * x * x / 6.

(** The two loops of one interruption of [generate_interrupted_charging],
    from [start_idx] and [end_idx] on: the current is zeroed from [start_idx]
    up to [end_idx], and the SoC after [start_idx] is overwritten with the
    SoC at [start_idx]. *)
Definition interrupt_between (start_idx end_idx : Z) (profiles : list Q * list Q)
    : Py.Res (list Q * list Q) :=
  let '(current_profile, soc_profile) := profiles in
  let* current_profile :=
    Pylist.for_each_res
      (Pylist.range_from start_idx (Z.min end_idx (Z.of_nat (length current_profile))))
      (fun idx current_profile =>
         if (idx <? Z.of_nat (length current_profile))%Z
         then Pylist.setitem current_profile idx 0
         else Py.ret current_profile)
      current_profile in
  let* soc_profile :=
    if (start_idx <? Z.of_nat (length soc_profile))%Z then
      let* interrupted_soc := Pylist.getitem soc_profile start_idx in
      Pylist.for_each_res
        (Pylist.range_from (start_idx + 1) (Z.min end_idx (Z.of_nat (length soc_profile))))
        (fun idx soc_profile =>
           if (idx <? Z.of_nat (length soc_profile))%Z
           then Pylist.setitem soc_profile idx interrupted_soc
           else Py.ret soc_profile)
        soc_profile
    else Py.ret soc_profile in
  Py.ret (current_profile, soc_profile).

(** One interruption: the two indices, then the two loops. *)
Definition interrupt (dt : Q) (interruption : Z * Z) (profiles : list Q * list Q)
    : Py.Res (list Q * list Q) :=
  let '(start_time, interrupt_duration) := interruption in
  let* q := Py.div (inject_Z start_time) dt in
  let start_idx := Py.int_of_float q in
  let* q := Py.div (inject_Z (start_time + interrupt_duration)) dt in
  let end_idx := Py.int_of_float q in
  interrupt_between start_idx end_idx profiles.

Definition generate_interrupted_charging (np_exp : Q -> Q)
    (self : ChargingPatternGenerator) (charging_type : ChargingType) (initial_soc : Q)
    (interruption_times : list (Z * Z)) (battery_capacity_kwh : Q)
    (duration_seconds : Z) (dt : Q) (g : rng.Generator)
    : Py.Res (list Q * list Q * rng.Generator) :=
  let* (current_profile, soc_profile, _, g) :=
    generate_cc_cv_profile np_exp self charging_type 100.0 battery_capacity_kwh dt
      initial_soc duration_seconds g in
  let* (current_profile, soc_profile) :=
    Pylist.for_each_res interruption_times (interrupt dt) (current_profile, soc_profile) in
  Py.ret (current_profile, soc_profile, g).

(** The default time-of-use price of sample [i] in [generate_smart_charging]. *)
Definition default_price (dt : Q) (i : Z) : Py.Res Q :=
  let* hour := Py.fmod (inject_Z i * dt / 3600) 24 in
  if (23 <=? hour) || (hour <? 6) then Py.ret 0.10
  else if (17 <=? hour) && (hour <? 21) then Py.ret 0.30
  else Py.ret 0.15.

(** The variables of the sampling loop of [generate_smart_charging]. *)
Record Smart := {
  smart_soc : Q;
  smart_current_profile : list Q;
  smart_soc_profile : list Q
}.

(** One iteration of [for i in range(samples)]. *)
Definition smart_sample (self : ChargingPatternGenerator)
    (target_soc battery_capacity_kwh dt : Q) (electricity_prices : list Q)
    (max_current : Q) (i : Z) (st : Smart) : Py.Res Smart :=
  let specs := CHARGING_SPECS AC_L2 in
  let* current :=
    if smart_soc st >=? target_soc then Py.ret 0
    else
      let* price := Pylist.getitem electricity_prices i in
      if price <? 0.12 then Py.ret max_current
      else if price <? 0.20 then Py.ret (max_current * 0.5)
      else Py.ret (if smart_soc st <? 20 then max_current * 0.1 else 0) in
  let* current_soc :=
    if current >? 0 then
      let power := current * battery_voltage self * efficiency specs in
      let energy_delivered := power * dt / 3600 in
      let* ratio := Py.div energy_delivered (battery_capacity_kwh * 1000) in
      let soc_increment := ratio * 100 in
      Py.ret (Py.min (smart_soc st + soc_increment) target_soc)
    else Py.ret (smart_soc st) in
  Py.ret {| smart_soc := current_soc;
            smart_current_profile := smart_current_profile st ++ [current];
            smart_soc_profile := smart_soc_profile st ++ [current_soc] |}.

(** The sampling part of [generate_smart_charging], from the choice of the
    charger on: [samples] iterations over the prices given or generated. *)
Definition smart_charging_samples (self : ChargingPatternGenerator)
    (initial_soc target_soc battery_capacity_kwh dt : Q)
    (electricity_prices : list Q) (samples : Z) : Py.Res (list Q * list Q) :=
  let specs := CHARGING_SPECS AC_L2 in
  let* max_current := Py.div (max_power_kw specs * 1000) (battery_voltage self) in
  let* st :=
    Pylist.for_each_res (Pylist.range samples)
      (smart_sample self target_soc battery_capacity_kwh dt electricity_prices max_current)
      {| smart_soc := initial_soc; smart_current_profile := [];
         smart_soc_profile := [] |} in
  Py.ret (smart_current_profile st, smart_soc_profile st).

Definition generate_smart_charging (self : ChargingPatternGenerator)
    (initial_soc target_soc battery_capacity_kwh : Q) (duration_seconds : Z)
    (electricity_prices : option (list Q)) (dt : Q) : Py.Res (list Q * list Q) :=
  let* q := Py.div (inject_Z duration_seconds) dt in
  let samples := Py.int_of_float q in
  let* electricity_prices :=
    match electricity_prices with
    | Some prices => Py.ret prices
    | None =>
        Pylist.for_each_res (Pylist.range samples)
          (fun i prices => let* price := default_price dt i in Py.ret (prices ++ [price]))
          []
    end in
  smart_charging_samples self initial_soc target_soc battery_capacity_kwh dt
    electricity_prices samples.

End charging_patterns.

(** ** simulation/user_profiles_v2.py *)

Module user_profiles_v2.

Inductive UserProfile : Set := COMMON_DRIVER.

Record UserBehavior := {
  profile_type : UserProfile;
  wake_time_range : world.time * world.time;
  sleep_time_range : world.time * world.time;
  peak_activity_hours : list Z;
  preferred_driving_mode : string;
  avg_daily_distance_miles : Q * Q;
  weekend_distance_multiplier : Q;
  preferred_soc_min : Q;
  preferred_soc_target : Q;
  charging_anxiety_factor : Q;
  base_charges_per_week : Q;
  night_charging_probability : Q;
  opportunity_charging_probability : Q;
  spontaneity_factor : Q;
  planning_factor : Q;
  eco_consciousness : Q;
  performance_preference : Q
}.

Definition USER_PROFILES_V2 (p : UserProfile) : UserBehavior :=
  match p with
  | COMMON_DRIVER => {|
      profile_type := COMMON_DRIVER;
      wake_time_range := (world.Build_time 6 30, world.Build_time 7 30);
      sleep_time_range := (world.Build_time 22 0, world.Build_time 23 0);
      peak_activity_hours := [8; 9; 10; 11; 14; 15; 16; 17]%Z;
      preferred_driving_mode := "normal";
      avg_daily_distance_miles := (28, 40);
      weekend_distance_multiplier := 1.2;
      preferred_soc_min := 25.0;
      preferred_soc_target := 85.0;
      charging_anxiety_factor := 1.0;
      base_charges_per_week := 4.5;
      night_charging_probability := 0.80;
      opportunity_charging_probability := 0.35;
      spontaneity_factor := 0.5;
      planning_factor := 0.7;
      eco_consciousness := 0.6;
      performance_preference := 0.4
    |}
  end.

Record UserBehaviorSimulator := {
  profile : UserProfile;
  behavior : UserBehavior;
  _charges_this_week : Z;
  _days_since_last_charge : Z
}.

Definition set_charges_this_week (n : Z) (self : UserBehaviorSimulator) :=
  {| profile := profile self; behavior := behavior self;
     _charges_this_week := n;
     _days_since_last_charge := _days_since_last_charge self |}.

Definition set_days_since_last_charge (n : Z) (self : UserBehaviorSimulator) :=
  {| profile := profile self; behavior := behavior self;
     _charges_this_week := _charges_this_week self;
     _days_since_last_charge := n |}.

(** The two assignments that record a charge. *)
Definition count_charge (self : UserBehaviorSimulator) : UserBehaviorSimulator :=
  set_days_since_last_charge 0 (set_charges_this_week (_charges_this_week self + 1) self).

(** The "opportunity charging" block: [inl] is one of its [return]
    statements, [inr] falls through to the code after it. *)
Definition opportunity_charging (self : UserBehaviorSimulator) (current_soc : Q)
    (hour : Z) (g : rng.Generator)
    : (bool * Q * UserBehaviorSimulator + UserBehaviorSimulator) * rng.Generator :=
  let b := behavior self in
  if inject_Z (_charges_this_week self) <? base_charges_per_week b then
    if ((22 <=? hour) || (hour <=? 6))%Z then
      if current_soc <? preferred_soc_target b * 0.9 then
        let '(u, g) := rng.random g in
        if u <? night_charging_probability b
        then (inl (true, preferred_soc_target b, count_charge self), g)
        else (inr self, g)
      else (inr self, g)
    else if current_soc <? preferred_soc_target b * 0.7 then
      let '(u, g) := rng.random g in
      if u <? opportunity_charging_probability b then
        let '(target, g) := rng.uniform (current_soc + 15) (preferred_soc_target b) g in
        (inl (true, Py.min target 95.0, count_charge self), g)
      else (inr self, g)
    else (inr self, g)
  else (inr self, g).

(** [should_charge]: the decision, the simulator with its counters
    updated, and the state of the [random] generator. *)
Definition should_charge (self : UserBehaviorSimulator) (current_soc : Q)
    (hour day_of_week : Z) (g : rng.Generator)
    : (bool * Q) * UserBehaviorSimulator * rng.Generator :=
  let self := if (day_of_week =? 6)%Z then set_charges_this_week 0 self else self in
  let b := behavior self in
  if current_soc <? 15.0 then
    ((true, preferred_soc_target b), self, g)
  else
    let below_minimum : option (bool * Q * UserBehaviorSimulator) :=
      if current_soc <=? preferred_soc_min b then
        if inject_Z (_charges_this_week self) <? base_charges_per_week b then
          Some (true, preferred_soc_target b, count_charge self)
        else if current_soc <? 20.0 then
          Some (true, preferred_soc_target b, self)
        else None
      else None in
    match below_minimum with
    | Some (d, target, self) => ((d, target), self, g)
    | None =>
        match opportunity_charging self current_soc hour g with
        | (inl (d, target, self), g) => ((d, target), self, g)
        | (inr self, g) =>
            let self :=
              set_days_since_last_charge (_days_since_last_charge self + 1) self in
            if ((_days_since_last_charge self >=? 4)%Z && (current_soc <? 40.0))%bool then
              ((true, preferred_soc_target b), count_charge self, g)
            else ((false, 0), self, g)
        end
    end.

Definition init (p : UserProfile) : UserBehaviorSimulator := {|
  profile := p;
  behavior := USER_PROFILES_V2 p;
  _charges_this_week := 0;
  _days_since_last_charge := 0
|}.

(** The anti-stranding guarantee as the specification words it. *)
Definition forced_charge_as_specified (self : UserBehaviorSimulator) (current_soc : Q)
    (hour day_of_week : Z) (g : rng.Generator) : Prop :=
  (4 <= _days_since_last_charge self)%Z -> current_soc < 40 ->
  fst (fst (should_charge self current_soc hour day_of_week g))
  = (true, preferred_soc_target (behavior self)).

End user_profiles_v2.

(** ** simulation/user_profiles.py *)

Module user_profiles.

Inductive UserProfile : Set :=
| NIGHT_OWL | EARLY_BIRD | SPONTANEOUS | CAUTIOUS
| COMMUTER | WEEKEND_WARRIOR | ECO_CONSCIOUS | PERFORMANCE_ENTHUSIAST.

(** [list(UserProfile)], in definition order. *)
Definition all_profiles : list UserProfile :=
  [NIGHT_OWL; EARLY_BIRD; SPONTANEOUS; CAUTIOUS;
   COMMUTER; WEEKEND_WARRIOR; ECO_CONSCIOUS; PERFORMANCE_ENTHUSIAST].

Definition profile_eqb (a b : UserProfile) : bool :=
  match a, b with
  | NIGHT_OWL, NIGHT_OWL | EARLY_BIRD, EARLY_BIRD | SPONTANEOUS, SPONTANEOUS
  | CAUTIOUS, CAUTIOUS | COMMUTER, COMMUTER | WEEKEND_WARRIOR, WEEKEND_WARRIOR
  | ECO_CONSCIOUS, ECO_CONSCIOUS
  | PERFORMANCE_ENTHUSIAST, PERFORMANCE_ENTHUSIAST => true
  | _, _ => false
  end.

Record UserBehavior := {
  profile_type : UserProfile;
  wake_time_range : world.time * world.time;
  sleep_time_range : world.time * world.time;
  peak_activity_hours : list Z;
  preferred_driving_mode : string;
  avg_daily_distance_km : Q * Q;
  weekend_distance_multiplier : Q;
  preferred_soc_min : Q;
  preferred_soc_target : Q;
  charging_anxiety_factor : Q;
  night_charging_probability : Q;
  opportunity_charging_probability : Q;
  spontaneity_factor : Q;
  planning_factor : Q;
  eco_consciousness : Q;
  performance_preference : Q
}.

Definition USER_PROFILES (p : UserProfile) : UserBehavior :=
  match p with
  | NIGHT_OWL => {|
      profile_type := NIGHT_OWL;
      wake_time_range := (world.Build_time 10 0, world.Build_time 12 0);
      sleep_time_range := (world.Build_time 2 0, world.Build_time 4 0);
      peak_activity_hours := [14; 15; 16; 20; 21; 22; 23; 0; 1]%Z;
      preferred_driving_mode := "normal";
      avg_daily_distance_km := (30, 80);
      weekend_distance_multiplier := 1.5;
      preferred_soc_min := 20.0;
      preferred_soc_target := 80.0;
      charging_anxiety_factor := 0.7;
      night_charging_probability := 0.3;
      opportunity_charging_probability := 0.4;
      spontaneity_factor := 0.8;
      planning_factor := 0.3;
      eco_consciousness := 0.4;
      performance_preference := 0.6
    |}
  | EARLY_BIRD => {|
      profile_type := EARLY_BIRD;
      wake_time_range := (world.Build_time 5 0, world.Build_time 6 30);
      sleep_time_range := (world.Build_time 21 0, world.Build_time 22 30);
      peak_activity_hours := [6; 7; 8; 9; 10; 11]%Z;
      preferred_driving_mode := "eco";
      avg_daily_distance_km := (40, 100);
      weekend_distance_multiplier := 0.8;
      preferred_soc_min := 40.0;
      preferred_soc_target := 90.0;
      charging_anxiety_factor := 1.3;
      night_charging_probability := 0.9;
      opportunity_charging_probability := 0.2;
      spontaneity_factor := 0.2;
      planning_factor := 0.9;
      eco_consciousness := 0.7;
      performance_preference := 0.3
    |}
  | SPONTANEOUS => {|
      profile_type := SPONTANEOUS;
      wake_time_range := (world.Build_time 7 0, world.Build_time 11 0);
      sleep_time_range := (world.Build_time 22 0, world.Build_time 2 0);
      peak_activity_hours := [10; 11; 12; 13; 14; 15; 16; 17; 18; 19; 20; 21]%Z;
      preferred_driving_mode := "mixed";
      avg_daily_distance_km := (20, 150);
      weekend_distance_multiplier := 1.2;
      preferred_soc_min := 15.0;
      preferred_soc_target := 70.0;
      charging_anxiety_factor := 0.5;
      night_charging_probability := 0.5;
      opportunity_charging_probability := 0.6;
      spontaneity_factor := 0.95;
      planning_factor := 0.1;
      eco_consciousness := 0.5;
      performance_preference := 0.7
    |}
  | CAUTIOUS => {|
      profile_type := CAUTIOUS;
      wake_time_range := (world.Build_time 6 30, world.Build_time 7 30);
      sleep_time_range := (world.Build_time 22 0, world.Build_time 23 0);
      peak_activity_hours := [8; 9; 10; 14; 15; 16; 17]%Z;
      preferred_driving_mode := "eco";
      avg_daily_distance_km := (30, 60);
      weekend_distance_multiplier := 0.9;
      preferred_soc_min := 50.0;
      preferred_soc_target := 95.0;
      charging_anxiety_factor := 1.5;
      night_charging_probability := 0.95;
      opportunity_charging_probability := 0.7;
      spontaneity_factor := 0.1;
      planning_factor := 0.95;
      eco_consciousness := 0.8;
      performance_preference := 0.1
    |}
  | COMMUTER => {|
      profile_type := COMMUTER;
      wake_time_range := (world.Build_time 6 0, world.Build_time 7 0);
      sleep_time_range := (world.Build_time 22 30, world.Build_time 23 30);
      peak_activity_hours := [7; 8; 17; 18]%Z;
      preferred_driving_mode := "normal";
      avg_daily_distance_km := (60, 120);
      weekend_distance_multiplier := 0.4;
      preferred_soc_min := 30.0;
      preferred_soc_target := 85.0;
      charging_anxiety_factor := 1.1;
      night_charging_probability := 0.8;
      opportunity_charging_probability := 0.3;
      spontaneity_factor := 0.3;
      planning_factor := 0.7;
      eco_consciousness := 0.6;
      performance_preference := 0.4
    |}
  | WEEKEND_WARRIOR => {|
      profile_type := WEEKEND_WARRIOR;
      wake_time_range := (world.Build_time 7 0, world.Build_time 8 0);
      sleep_time_range := (world.Build_time 23 0, world.Build_time 0 0);
      peak_activity_hours := [9; 10; 11; 14; 15; 16]%Z;
      preferred_driving_mode := "mixed";
      avg_daily_distance_km := (20, 40);
      weekend_distance_multiplier := 4.0;
      preferred_soc_min := 25.0;
      preferred_soc_target := 90.0;
      charging_anxiety_factor := 1.0;
      night_charging_probability := 0.6;
      opportunity_charging_probability := 0.5;
      spontaneity_factor := 0.6;
      planning_factor := 0.6;
      eco_consciousness := 0.4;
      performance_preference := 0.8
    |}
  | ECO_CONSCIOUS => {|
      profile_type := ECO_CONSCIOUS;
      wake_time_range := (world.Build_time 6 30, world.Build_time 7 30);
      sleep_time_range := (world.Build_time 22 0, world.Build_time 23 0);
      peak_activity_hours := [8; 9; 10; 11; 14; 15; 16; 17]%Z;
      preferred_driving_mode := "eco";
      avg_daily_distance_km := (40, 80);
      weekend_distance_multiplier := 1.1;
      preferred_soc_min := 20.0;
      preferred_soc_target := 80.0;
      charging_anxiety_factor := 0.9;
      night_charging_probability := 0.9;
      opportunity_charging_probability := 0.4;
      spontaneity_factor := 0.4;
      planning_factor := 0.8;
      eco_consciousness := 0.95;
      performance_preference := 0.1
    |}
  | PERFORMANCE_ENTHUSIAST => {|
      profile_type := PERFORMANCE_ENTHUSIAST;
      wake_time_range := (world.Build_time 7 0, world.Build_time 8 30);
      sleep_time_range := (world.Build_time 23 0, world.Build_time 1 0);
      peak_activity_hours := [9; 10; 17; 18; 19; 20]%Z;
      preferred_driving_mode := "aggressive";
      avg_daily_distance_km := (50, 120);
      weekend_distance_multiplier := 1.5;
      preferred_soc_min := 30.0;
      preferred_soc_target := 90.0;
      charging_anxiety_factor := 1.0;
      night_charging_probability := 0.7;
      opportunity_charging_probability := 0.6;
      spontaneity_factor := 0.7;
      planning_factor := 0.5;
      eco_consciousness := 0.2;
      performance_preference := 0.95
    |}
  end.

Record UserBehaviorSimulator := {
  profile : UserProfile;
  behavior : UserBehavior
}.

(** [UserBehaviorSimulator.__init__]: a true seed reseeds [random], then
    numpy. *)
Definition init (p : UserProfile) (seed : option Z) : world.M UserBehaviorSimulator :=
  let self := {| profile := p; behavior := USER_PROFILES p |} in
  match world.truthy seed with
  | Some s =>
      let! _ := world.py_seed s in
      let! _ := world.np_seed s in
      world.ret self
  | None => world.ret self
  end.

(** [hour in hours]. *)
Definition hour_in (hour : Z) (hours : list Z) : bool :=
  existsb (Z.eqb hour) hours.

Definition get_wake_time (self : UserBehaviorSimulator) (is_weekend : bool)
    : world.M world.time :=
  let '(start, end_) := wake_time_range (behavior self) in
  let start_minutes := (world.hour start * 60 + world.minute start)%Z in
  let end_minutes := (world.hour end_ * 60 + world.minute end_)%Z in
  let '(start_minutes, end_minutes) :=
    if is_weekend && negb (profile_eqb (profile self) EARLY_BIRD)
    then ((start_minutes + 60)%Z, (end_minutes + 90)%Z)
    else (start_minutes, end_minutes) in
  let variance :=
    Py.int_of_float
      (inject_Z (end_minutes - start_minutes) * spontaneity_factor (behavior self)) in
  let! wake_minutes :=
    world.py_res (rng.randint start_minutes (start_minutes + variance)) in
  world.ret (world.Build_time ((wake_minutes / 60) mod 24) (wake_minutes mod 60)).

Definition should_drive_now (self : UserBehaviorSimulator) (hour : Z) (is_weekend : bool)
    : world.M bool :=
  let base_probability :=
    if hour_in hour (peak_activity_hours (behavior self)) then 0.6 else 0.2 in
  let base_probability :=
    if profile_eqb (profile self) COMMUTER && negb is_weekend then
      if hour_in hour [7; 8; 17; 18]%Z then 0.9 else base_probability
    else if profile_eqb (profile self) WEEKEND_WARRIOR && is_weekend then
      base_probability * 2
    else base_probability in
  let probability :=
    base_probability + (spontaneity_factor (behavior self) - 0.5) * 0.2 in
  let! u := world.py rng.random in
  world.ret (u <? probability).

Definition get_trip_distance (self : UserBehaviorSimulator) (is_weekend : bool)
    : world.M Q :=
  let '(min_dist, max_dist) := avg_daily_distance_km (behavior self) in
  let '(min_dist, max_dist) :=
    if is_weekend
    then (min_dist * weekend_distance_multiplier (behavior self),
          max_dist * weekend_distance_multiplier (behavior self))
    else (min_dist, max_dist) in
  if spontaneity_factor (behavior self) >? 0.7
  then world.py (rng.uniform (min_dist * 0.5) (max_dist * 1.5))
  else world.py (rng.uniform (min_dist * 0.8) (max_dist * 1.1)).

Definition should_charge (self : UserBehaviorSimulator) (current_soc : Q) (hour : Z)
    : world.M (bool * Q) :=
  let b := behavior self in
  let threshold := preferred_soc_min b * charging_anxiety_factor b in
  if current_soc <? threshold then world.ret (true, preferred_soc_target b)
  else if current_soc <? preferred_soc_target b * 0.8 then
    if ((22 <=? hour) || (hour <=? 6))%Z then
      let! u := world.py rng.random in
      if u <? night_charging_probability b
      then world.ret (true, preferred_soc_target b)
      else world.ret (false, 0)
    else
      let! u := world.py rng.random in
      if u <? opportunity_charging_probability b then
        let! target := world.py (rng.uniform (current_soc + 20) (preferred_soc_target b)) in
        world.ret (true, Py.min target 100)
      else world.ret (false, 0)
  else world.ret (false, 0).

Definition get_driving_style (self : UserBehaviorSimulator) (trip_purpose : string)
    : world.M string :=
  let b := behavior self in
  let weighted :=
    world.py_res
      (rng.choices ["eco"; "normal"; "aggressive"]
         [eco_consciousness b;
          1 - Qabs (performance_preference b - 0.5);
          performance_preference b]) in
  if String.eqb trip_purpose "commute" then
    let! u := world.py rng.random in
    if u <? 0.7
    then world.ret (if eco_consciousness b >? 0.5 then "eco" else "normal")
    else weighted
  else weighted.

Definition get_charging_type_preference (self : UserBehaviorSimulator) (urgency : Q)
    : world.M string :=
  let b := behavior self in
  if (urgency >? 0.8) || (spontaneity_factor b >? 0.7) then
    let! u := world.py rng.random in
    world.ret (if u >? 0.3 then "DC_FAST" else "SUPERCHARGER")
  else if eco_consciousness b >? 0.7 then
    let! u := world.py rng.random in
    world.ret (if u >? 0.2 then "AC_L2" else "AC_L1")
  else world.ret "AC_L2".

End user_profiles.

(** ** simulation/driving_patterns.py *)

Module driving_patterns.

Inductive DrivingMode : Set := CITY | HIGHWAY | AGGRESSIVE | ECO | MIXED.

(** [DrivingPatternGenerator.__init__]: a true seed reseeds numpy, then
    [random]. *)
Definition init (seed : option Z) : world.M unit :=
  match world.truthy seed with
  | Some s =>
      let! _ := world.np_seed s in
      world.py_seed s
  | None => world.ret tt
  end.

Inductive CityState : Set := stopped | accelerating | cruising | braking | coasting.

(** The variables of the loop of [generate_city_driving]. *)
Record City := {
  state : CityState;
  state_timer : Q;
  speed_mph : Q;
  city_profile : list Q
}.

Definition city_sample (dt : Q) (st : City) : world.M City :=
  let! (current, state, state_timer, speed_mph) :=
    match state st with
    | stopped =>
        let current := 0 in
        let state_timer := state_timer st + dt in
        let! u := world.np (rng.uniform 30 90) in
        if state_timer >? u
        then world.ret (current, accelerating, 0, speed_mph st)
        else world.ret (current, stopped, state_timer, speed_mph st)
    | accelerating =>
        let! acceleration_power := world.np (rng.uniform 30 60) in
        let! n := world.np (rng.normal 0 0.1) in
        let acceleration_power := acceleration_power * (1 + n) in
        let current := - acceleration_power * 1000 / 350 in
        let speed_mph := speed_mph st + 3 * dt in
        let! u := world.np (rng.uniform 25 37) in
        if speed_mph >=? u
        then world.ret (current, cruising, 0, speed_mph)
        else world.ret (current, accelerating, state_timer st, speed_mph)
    | cruising =>
        let cruise_power := 10 + speed_mph st * 0.5 in
        let current := - cruise_power * 1000 / 350 in
        let! n := world.np (rng.normal 0 0.05) in
        let current := current * (1 + n) in
        let state_timer := state_timer st + dt in
        let! u := world.np (rng.uniform 10 30) in
        if state_timer >? u then
          let! v := world.py rng.random in
          world.ret (current, (if v >? 0.3 then braking else coasting), 0, speed_mph st)
        else world.ret (current, cruising, state_timer, speed_mph st)
    | braking =>
        let! regen_power := world.np (rng.uniform 10 30) in
        let current := regen_power * 1000 / 350 in
        let speed_mph := speed_mph st - 6 * dt in
        if speed_mph <=? 0
        then world.ret (current, stopped, 0, 0)
        else world.ret (current, braking, state_timer st, speed_mph)
    | coasting =>
        let current := - 2 * 1000 / 350 in
        let speed_mph := speed_mph st - 1.2 * dt in
        let state_timer := state_timer st + dt in
        let! u := world.np (rng.uniform 5 15) in
        if (state_timer >? u) || (speed_mph <=? 12)
        then world.ret (current, braking, 0, speed_mph)
        else world.ret (current, coasting, state_timer, speed_mph)
    end in
  world.ret {| state := state; state_timer := state_timer; speed_mph := speed_mph;
               city_profile := city_profile st ++ [current] |}.

Definition generate_city_driving (duration_seconds : Z) (dt : Q) : world.M (list Q) :=
  let! q := world.lift (Py.div (inject_Z duration_seconds) dt) in
  let samples := Py.int_of_float q in
  let! st := Pylist.for_each (Pylist.range samples) (fun _ => city_sample dt)
               {| state := stopped; state_timer := 0; speed_mph := 0;
                  city_profile := [] |} in
  world.ret (city_profile st).

Definition generate_highway_driving (duration_seconds : Z) (dt : Q) : world.M (list Q) :=
  let! q := world.lift (Py.div (inject_Z duration_seconds) dt) in
  let samples := Py.int_of_float q in
  let! current_profile :=
    Pylist.for_each (Pylist.range (Z.min 30 samples))
      (fun i current_profile =>
         let acceleration_power := inject_Z (80 - i * 2) in
         let current := - acceleration_power * 1000 / 350 in
         world.ret (current_profile ++ [current]))
      [] in
  let! cruise_speed := world.np (rng.uniform 56 68) in
  let base_power := 15 + cruise_speed * 0.4 in
  Pylist.for_each (Pylist.range_from 30 samples)
    (fun i current_profile =>
       let! u := world.py rng.random in
       let! current :=
         if u <? 0.05 then world.ret (- 80 * 1000 / 350)
         else
           let! v := world.py rng.random in
           if v <? 0.02 then
             let! hill_factor := world.np (rng.uniform 1.3 1.8) in
             world.ret (- base_power * hill_factor * 1000 / 350)
           else
             let! n := world.np (rng.normal 0 0.03) in
             let variation := 1 + n in
             world.ret (- base_power * variation * 1000 / 350) in
       world.ret (current_profile ++ [current]))
    current_profile.

(** The variables of the loop of [generate_eco_driving]. *)
Record Eco := {
  eco_speed_mph : Q;
  target_speed : Q;
  eco_profile : list Q
}.

Definition eco_sample (dt : Q) (i : Z) (st : Eco) : world.M Eco :=
  let! target_speed :=
    if (i mod 300 =? 0)%Z
    then world.np_res (rng.choice [0; 50; 70; 90])
    else world.ret (target_speed st) in
  let speed_diff := target_speed - eco_speed_mph st in
  let '(current, speed_mph) :=
    if Qabs speed_diff >? 1 then
      if speed_diff >? 0 then
        let acceleration_power := Py.min 30 (speed_diff * 2) in
        (- acceleration_power * 1000 / 350, eco_speed_mph st + 2 * dt)
      else
        let regen_power := Py.min 25 (Qabs speed_diff * 1.5) in
        (regen_power * 1000 / 350, eco_speed_mph st - 5 * dt)
    else if eco_speed_mph st >? 0 then
      let power := 5 + eco_speed_mph st * 0.25 in
      (- power * 1000 / 350, eco_speed_mph st)
    else (0, eco_speed_mph st) in
  world.ret {| eco_speed_mph := speed_mph; target_speed := target_speed;
               eco_profile := eco_profile st ++ [current] |}.

Definition generate_eco_driving (duration_seconds : Z) (dt : Q) : world.M (list Q) :=
  let! q := world.lift (Py.div (inject_Z duration_seconds) dt) in
  let samples := Py.int_of_float q in
  let! st := Pylist.for_each (Pylist.range samples) (eco_sample dt)
               {| eco_speed_mph := 0; target_speed := 0; eco_profile := [] |} in
  world.ret (eco_profile st).

Definition generate_mixed_driving (duration_seconds : Z) (dt : Q) : world.M (list Q) :=
  let! q := world.lift (Py.div (inject_Z duration_seconds) dt) in
  let samples := Py.int_of_float q in
  let segments :=
    [("city", Py.int_of_float (inject_Z samples * 0.3));
     ("highway", Py.int_of_float (inject_Z samples * 0.4));
     ("city", Py.int_of_float (inject_Z samples * 0.2));
     ("eco", Py.int_of_float (inject_Z samples * 0.1))] in
  let! current_profile :=
    Pylist.for_each segments
      (fun '(mode_name, segment_samples) current_profile =>
         let length := Py.int_of_float (inject_Z segment_samples * dt) in
         let! segment :=
           if String.eqb mode_name "city" then generate_city_driving length dt
           else if String.eqb mode_name "highway" then generate_highway_driving length dt
           else generate_eco_driving length dt in
         world.ret (current_profile ++ Pylist.slice_to segment segment_samples))
      [] in
  world.ret (Pylist.slice_to current_profile samples).

End driving_patterns.

(** ** simulation/anomaly_generator.py *)

Module anomaly_generator.

(** A value of the [parameters] dictionary of an event. *)
Inductive Value : Type :=
| VFloat (q : Q)
| VStr (s : string).

Record AnomalyEvent := {
  event_type : string;
  start_time : world.datetime;
  end_time : world.datetime;
  severity : string;
  description : string;
  affected_metrics : list string;
  parameters : list (string * Value)
}.

(** [AnomalyGenerator.__init__]: a true seed reseeds numpy, then [random]. *)
Definition init (seed : option Z) : world.M unit :=
  match world.truthy seed with
  | Some s =>
      let! _ := world.np_seed s in
      world.py_seed s
  | None => world.ret tt
  end.

Section generators.

(** [np.exp], a parameter of the embedding. *)
Variable np_exp : Q -> Q.

(** The [severity_params] table: rise rate, its text in the description, and
    peak temperature. *)
Definition severity_params (normal_temp : Q) (severity : string)
    : Py.Res (Q * string * Q) :=
  if String.eqb severity "low" then Py.ret (0.5, "0.5", normal_temp + 10)
  else if String.eqb severity "medium" then Py.ret (1.0, "1.0", normal_temp + 20)
  else if String.eqb severity "high" then Py.ret (2.0, "2.0", normal_temp + 30)
  else if String.eqb severity "critical" then Py.ret (3.0, "3.0", normal_temp + 40)
  else Py.raise Py.KeyError.

Definition generate_thermal_event (normal_temp : Q) (duration_seconds : Z)
    (severity : string) : world.M (list Q * AnomalyEvent) :=
  let! (rate, rate_text, peak) := world.lift (severity_params normal_temp severity) in
  let rise_duration := (duration_seconds / 2)%Z in
  let! temp_profile :=
    Pylist.for_each (Pylist.range rise_duration)
      (fun t temp_profile =>
         let temp_rise := rate * inject_Z t / 60 in
         let! n := world.np (rng.normal 0 0.05) in
         let temp := normal_temp + temp_rise * (1 + n) in
         let temp := Py.min temp peak in
         world.ret (temp_profile ++ [temp]))
      [] in
  let fall_duration := (duration_seconds - rise_duration)%Z in
  let! peak_temp := world.lift (Pylist.getitem temp_profile (-1)) in
  let! temp_profile :=
    Pylist.for_each (Pylist.range fall_duration)
      (fun t temp_profile =>
         (* inside the loop [fall_duration] is at least 1 *)
         let temp_fall :=
           (peak_temp - normal_temp) * np_exp (- inject_Z t / (inject_Z fall_duration / 3)) in
         let! n := world.np (rng.normal 0 1) in
         let temp := normal_temp + temp_fall + n in
         world.ret (temp_profile ++ [temp]))
      temp_profile in
  let! t0 := world.now in
  let! t1 := world.now in
  let event := {|
    event_type := "thermal_event";
    start_time := t0;
    end_time := (t1 + world.seconds duration_seconds)%Z;
    severity := severity;
    description :=
      "Cooling system failure - temperature rose at " ++ rate_text ++ "°C/min";
    affected_metrics := ["temperature"; "max_cell_temp"; "min_cell_temp"];
    parameters := [("peak_temperature", VFloat peak); ("rise_rate", VFloat rate);
                   ("normal_temp", VFloat normal_temp)]
  |} in
  world.ret (temp_profile, event).

(** [max(abs(v - normal_value) for v in values)]. *)
Definition max_deviation (normal_value : Q) (values : list Q) : Py.Res Q :=
  match values with
  | [] => Py.raise Py.ValueError
  | v :: vs =>
      Py.ret (fold_left (fun m v => Py.max m (Qabs (v - normal_value))) vs
                        (Qabs (v - normal_value)))
  end.

Definition generate_sensor_glitch (normal_value : Q) (glitch_type : string)
    (duration_samples : Z) : world.M (list Q * AnomalyEvent) :=
  let! glitched_values :=
    if String.eqb glitch_type "spike" then
      let! u := world.np (rng.uniform 5 10) in
      let spike_magnitude := normal_value * u in
      Pylist.for_each (Pylist.range duration_samples)
        (fun i glitched_values =>
           if (i =? 0)%Z then world.ret (glitched_values ++ [spike_magnitude])
           else
             (* inside the loop [duration_samples] is at least 1 *)
             let decay := np_exp (- inject_Z i / (inject_Z duration_samples / 3)) in
             world.ret (glitched_values
                        ++ [normal_value + (spike_magnitude - normal_value) * decay]))
        []
    else if String.eqb glitch_type "dropout" then
      Pylist.for_each (Pylist.range duration_samples)
        (fun i glitched_values =>
           let! u := world.np (rng.uniform 0 (normal_value * 0.1)) in
           world.ret (glitched_values ++ [u]))
        []
    else if String.eqb glitch_type "noise" then
      Pylist.for_each (Pylist.range duration_samples)
        (fun i glitched_values =>
           let! noise := world.np_normal 0 (normal_value * 0.5) in
           world.ret (glitched_values ++ [normal_value + noise]))
        []
    else world.ret [] in
  let! t0 := world.now in
  let! t1 := world.now in
  let! deviation := world.lift (max_deviation normal_value glitched_values) in
  let event := {|
    event_type := "sensor_glitch";
    start_time := t0;
    end_time := (t1 + world.seconds duration_samples)%Z;
    severity := "low";
    description := "Sensor " ++ glitch_type ++ " - unrealistic data readings";
    affected_metrics := ["voltage"; "current"];
    parameters := [("glitch_type", VStr glitch_type); ("normal_value", VFloat normal_value);
                   ("max_deviation", VFloat deviation)]
  |} in
  world.ret (glitched_values, event).

(** The [params] dictionary of one request, by the keys that are read. *)
Record Params := {
  duration : option Z;
  severity_param : option string;
  glitch_type_param : option string
}.

(** [base_data[key]]. *)
Definition series (data : gmap string (list Q)) (key : string) : Py.Res (list Q) :=
  match data !! key with
  | Some xs => Py.ret xs
  | None => Py.raise Py.KeyError
  end.

(** [for i, v in enumerate(values): if start_idx + i < len(data[key]):
    data[key][start_idx + i] = v]. *)
Fixpoint overlay (key : string) (start_idx : Z) (i : Z) (values : list Q)
    (data : gmap string (list Q)) : Py.Res (gmap string (list Q)) :=
  match values with
  | [] => Py.ret data
  | v :: values =>
      let* xs := series data key in
      let* data :=
        if (start_idx + i <? Z.of_nat (length xs))%Z then
          let* xs := Pylist.setitem xs (start_idx + i) v in
          Py.ret (<[key := xs]> data)
        else Py.ret data in
      overlay key start_idx (i + 1) values data
  end.

(** The variables of the loop of [inject_anomalies]; [event] is unbound
    until a request has produced one. *)
Record Injection := {
  modified_data : gmap string (list Q);
  events : list AnomalyEvent;
  event : option AnomalyEvent
}.

(** One iteration of [for anomaly_type, start_idx, params in anomaly_events]. *)
Definition inject_one (base_data : gmap string (list Q))
    (request : string * Z * Params) (st : Injection) : world.M Injection :=
  let '(anomaly_type, start_idx, params) := request in
  let! (data, event) :=
    if String.eqb anomaly_type "thermal" then
      let! xs := world.lift (series base_data "temperature") in
      let! normal_temp := world.lift (Pylist.getitem xs start_idx) in
      let! (temp_profile, event) :=
        generate_thermal_event normal_temp
          (default 300%Z (duration params))
          (default "medium" (severity_param params)) in
      let! data := world.lift (overlay "temperature" start_idx 0 temp_profile
                                       (modified_data st)) in
      world.ret (data, Some event)
    else if String.eqb anomaly_type "sensor_glitch" then
      let! xs := world.lift (series base_data "voltage") in
      let! normal_value := world.lift (Pylist.getitem xs start_idx) in
      let! (glitch_values, event) :=
        generate_sensor_glitch normal_value
          (default "spike" (glitch_type_param params))
          (default 1%Z (duration params)) in
      let! data := world.lift (overlay "voltage" start_idx 0 glitch_values
                                       (modified_data st)) in
      world.ret (data, Some event)
    else world.ret (modified_data st, event st) in
  match event with
  | None => world.raise Py.UnboundLocalError
  | Some e =>
      world.ret {| modified_data := data; events := events st ++ [e]; event := event |}
  end.

Definition inject_anomalies (base_data : gmap string (list Q))
    (anomaly_events : list (string * Z * Params)) (dt : Q)
    : world.M (gmap string (list Q) * list AnomalyEvent) :=
  let! st := Pylist.for_each anomaly_events (inject_one base_data)
               {| modified_data := base_data; events := []; event := None |} in
  world.ret (modified_data st, events st).

End generators.

Definition generate_capacity_fade (initial_soh : Q) (days : Z) (degradation_rate : Q)
    : world.M (list Q * AnomalyEvent) :=
  let daily_rate := degradation_rate / 365 in
  let! (current_soh, soh_profile) :=
    Pylist.for_each (Pylist.range days)
      (fun day (st : Q * list Q) =>
         let '(current_soh, soh_profile) := st in
         let! n := world.np (rng.normal 0 0.1) in
         let daily_degradation := daily_rate * (1 + n) in
         let! u := world.py rng.random in
         let daily_degradation :=
           if u <? 0.1 then daily_degradation * 2 else daily_degradation in
         let current_soh := current_soh - daily_degradation in
         world.ret (current_soh, soh_profile ++ [Py.max current_soh 70]))
      (initial_soh, []) in
  let! final_soh := world.lift (Pylist.getitem soh_profile (-1)) in
  let total_degradation := initial_soh - final_soh in
  let! t0 := world.now in
  let! t1 := world.now in
  let event := {|
    event_type := "capacity_fade";
    start_time := t0;
    end_time := (t1 + world.days days)%Z;
    severity := if total_degradation <? 5 then "low" else "medium";
    description :=
      "Battery degraded " ++ world.format_1f total_degradation ++ "% over "
      ++ world.format_int days ++ " days";
    affected_metrics := ["soh_percent"; "energy_kwh"; "estimated_range_km"];
    parameters := [("initial_soh", VFloat initial_soh); ("final_soh", VFloat final_soh);
                   ("degradation_rate", VFloat degradation_rate)]
  |} in
  world.ret (soh_profile, event).

(** The series from which a request of each kind reads its start sample. *)
Definition reads_series (kind key : string) : Prop :=
  (kind = "thermal" /\ key = "temperature") \/
  (kind = "sensor_glitch" /\ key = "voltage").

(** What the specification says of a request whose start index is at or
    beyond the length of its series: the call returns, with one event for
    the request and every series as it was. *)
Definition out_of_range_as_specified (np_exp : Q -> Q) (base_data : gmap string (list Q))
    (request : string * Z * Params) (dt : Q) (env : world.Env) : Prop :=
  exists e env',
    inject_anomalies np_exp base_data [request] dt env = inr ((base_data, [e]), env').

End anomaly_generator.

(** ** simulation/simulator.py *)

Module simulator.

Import user_profiles.

Record TelemetryRecord := {
  time : world.datetime;
  vehicle_id : string;
  soc_percent : Q;
  voltage : Q;
  current : Q;
  temperature : Q;
  energy_kwh : Q;
  soh_percent : Q;
  estimated_range_km : Q;
  is_charging : bool;
  is_driving : bool;
  speed_kmh : Q;
  ambient_temp : Q;
  data_quality : Z;
  location_lat : option Q;
  location_lon : option Q;
  max_cell_temp : Q;
  min_cell_temp : Q
}.

(** [record['is_driving'] = True; record['speed_kmh'] = v]. *)
Definition set_driving (v : Q) (r : TelemetryRecord) : TelemetryRecord :=
  {| time := time r; vehicle_id := vehicle_id r; soc_percent := soc_percent r;
     voltage := voltage r; current := current r; temperature := temperature r;
     energy_kwh := energy_kwh r; soh_percent := soh_percent r;
     estimated_range_km := estimated_range_km r; is_charging := is_charging r;
     is_driving := true; speed_kmh := v; ambient_temp := ambient_temp r;
     data_quality := data_quality r; location_lat := location_lat r;
     location_lon := location_lon r; max_cell_temp := max_cell_temp r;
     min_cell_temp := min_cell_temp r |}.

(** [record['is_charging'] = b]. *)
Definition set_is_charging (b : bool) (r : TelemetryRecord) : TelemetryRecord :=
  {| time := time r; vehicle_id := vehicle_id r; soc_percent := soc_percent r;
     voltage := voltage r; current := current r; temperature := temperature r;
     energy_kwh := energy_kwh r; soh_percent := soh_percent r;
     estimated_range_km := estimated_range_km r; is_charging := b;
     is_driving := is_driving r; speed_kmh := speed_kmh r; ambient_temp := ambient_temp r;
     data_quality := data_quality r; location_lat := location_lat r;
     location_lon := location_lon r; max_cell_temp := max_cell_temp r;
     min_cell_temp := min_cell_temp r |}.

(** [record['temperature'] = t; record['max_cell_temp'] = t + 2;
    record['min_cell_temp'] = t - 2]. *)
Definition set_thermal (t : Q) (r : TelemetryRecord) : TelemetryRecord :=
  {| time := time r; vehicle_id := vehicle_id r; soc_percent := soc_percent r;
     voltage := voltage r; current := current r; temperature := t;
     energy_kwh := energy_kwh r; soh_percent := soh_percent r;
     estimated_range_km := estimated_range_km r; is_charging := is_charging r;
     is_driving := is_driving r; speed_kmh := speed_kmh r; ambient_temp := ambient_temp r;
     data_quality := data_quality r; location_lat := location_lat r;
     location_lon := location_lon r; max_cell_temp := t + 2;
     min_cell_temp := t - 2 |}.

(** [record['voltage'] = v]. *)
Definition set_voltage (v : Q) (r : TelemetryRecord) : TelemetryRecord :=
  {| time := time r; vehicle_id := vehicle_id r; soc_percent := soc_percent r;
     voltage := v; current := current r; temperature := temperature r;
     energy_kwh := energy_kwh r; soh_percent := soh_percent r;
     estimated_range_km := estimated_range_km r; is_charging := is_charging r;
     is_driving := is_driving r; speed_kmh := speed_kmh r; ambient_temp := ambient_temp r;
     data_quality := data_quality r; location_lat := location_lat r;
     location_lon := location_lon r; max_cell_temp := max_cell_temp r;
     min_cell_temp := min_cell_temp r |}.

(** A row of the events frame ([_anomaly_to_dict]). *)
Record EventRow := {
  row_vehicle_id : string;
  row_event_type : string;
  row_start_time : world.datetime;
  row_end_time : world.datetime;
  row_severity : string;
  row_description : string;
  row_affected_metrics : string
}.

Inductive ActivityType : Set := idle | driving | charging.

(** An entry of the daily schedule; the optional keys are [None] when the
    dictionary does not have them. *)
Record Activity := {
  type : ActivityType;
  duration : world.timedelta;
  mode : option driving_patterns.DrivingMode;
  purpose : option string;
  charging_type : option charging_patterns.ChargingType;
  target_soc : option Q
}.

Definition idle_for (d : world.timedelta) : Activity :=
  {| type := idle; duration := d; mode := None; purpose := None;
     charging_type := None; target_soc := None |}.

Definition driving_for (d : world.timedelta) (m : driving_patterns.DrivingMode)
    (why : option string) : Activity :=
  {| type := driving; duration := d; mode := Some m; purpose := why;
     charging_type := None; target_soc := None |}.

(** The attributes of [EVBatterySimulator] that the run reads.  The two
    generators without state ([driving_gen], [anomaly_gen]) are the global
    generators of the environment. *)
Record EVBatterySimulator := {
  sim_vehicle_id : string;
  specs : battery_model.BatterySpecs;
  battery : battery_model.BatteryModel;
  user_profile : UserProfile;
  user_behavior : UserBehaviorSimulator;
  charging_gen : charging_patterns.ChargingPatternGenerator;
  current_time : world.datetime
}.

Definition set_battery (b : battery_model.BatteryModel) (self : EVBatterySimulator) :=
  {| sim_vehicle_id := sim_vehicle_id self; specs := specs self; battery := b;
     user_profile := user_profile self; user_behavior := user_behavior self;
     charging_gen := charging_gen self; current_time := current_time self |}.

(** [if seed: np.random.seed(seed); random.seed(seed)]. *)
Definition set_random_seeds (seed : option Z) : world.M unit :=
  match world.truthy seed with
  | Some s =>
      let! _ := world.np_seed s in
      world.py_seed s
  | None => world.ret tt
  end.

(** [EVBatterySimulator.__init__]. *)
Definition init (vehicle_id : string) (user_profile : option UserProfile)
    (seed : option Z) : world.M EVBatterySimulator :=
  match battery_model.VEHICLE_SPECS !! vehicle_id with
  | None => world.raise Py.ValueError
  | Some specs =>
      let battery := battery_model.init specs 80.0 25.0 100.0 in
      let! user_profile :=
        match user_profile with
        | None => world.py_res (rng.choice all_profiles)
        | Some p => world.ret p
        end in
      let! user_behavior := user_profiles.init user_profile seed in
      let! _ := driving_patterns.init seed in
      let charging_gen :=
        {| charging_patterns.battery_voltage := battery_model.nominal_voltage specs |} in
      let! _ := anomaly_generator.init seed in
      let! current_time := world.now in
      let! _ := set_random_seeds seed in
      world.ret {| sim_vehicle_id := vehicle_id; specs := specs; battery := battery;
                   user_profile := user_profile; user_behavior := user_behavior;
                   charging_gen := charging_gen; current_time := current_time |}
  end.

Section simulate.

(** [np.exp], [np.sin] and [np.pi], parameters of the embedding. *)
Variable np_exp : Q -> Q.
Variable np_sin : Q -> Q.
Variable np_pi : Q.

(** The default ambient profile: [20 + 10 * np.sin((hours - 6) * np.pi / 12)]
    for [hours = np.arange(24)]. *)
Definition default_ambient_temp_profile : list Q :=
  map (fun h => 20 + 10 * np_sin (inject_Z (h - 6) * np_pi / 12)) (Pylist.range 24).

Definition _create_telemetry_record (self : EVBatterySimulator)
    (timestamp : world.datetime) : world.M TelemetryRecord :=
  let state := battery_model.get_state (battery self) in
  let! n := world.np_normal 0 (0.01 * Qabs (battery_model.state_voltage state)) in
  let voltage := battery_model.state_voltage state + n in
  let! n := world.np_normal 0 (0.01 * Qabs (battery_model.state_current state)) in
  let current := battery_model.state_current state + n in
  let! n := world.np_normal 0 (0.01 * Qabs (battery_model.state_temperature state)) in
  let temperature := battery_model.state_temperature state + n in
  let! temp_variation := world.np (rng.normal 0 2) in
  world.ret {|
    time := timestamp;
    vehicle_id := sim_vehicle_id self;
    soc_percent := battery_model.state_soc_percent state;
    voltage := voltage;
    current := current;
    temperature := temperature;
    energy_kwh := battery_model.state_energy_kwh state;
    soh_percent := battery_model.state_soh_percent state;
    estimated_range_km := battery_model.state_estimated_range_km state;
    is_charging := false;
    is_driving := false;
    speed_kmh := 0.0;
    ambient_temp := battery_model.ambient_temp (battery self);
    data_quality := 100;
    location_lat := None;
    location_lon := None;
    max_cell_temp := temperature + Qabs temp_variation;
    min_cell_temp := temperature - Qabs temp_variation
  |}.

Definition _generate_commuter_day (self : EVBatterySimulator) (start_hour : Z)
    : world.M (list Activity) :=
  let! distance := get_trip_distance (user_behavior self) false in
  let commute_distance := distance / 2 in
  let commute_time := commute_distance / 50 in
  world.ret [driving_for (world.hours commute_time) driving_patterns.MIXED (Some "commute");
             idle_for (world.hours 9);
             driving_for (world.hours commute_time) driving_patterns.MIXED (Some "commute")].

Definition _generate_weekend_warrior_day (self : EVBatterySimulator) (start_hour : Z)
    : world.M (list Activity) :=
  let! trip_distance := get_trip_distance (user_behavior self) true in
  let trip_time := trip_distance / 80 in
  world.ret [idle_for (world.hours 2);
             driving_for (world.hours (trip_time / 2)) driving_patterns.HIGHWAY
               (Some "recreation");
             idle_for (world.hours 3);
             driving_for (world.hours (trip_time / 2)) driving_patterns.HIGHWAY
               (Some "recreation")].

(** [style_map.get(driving_style, DrivingMode.MIXED)]. *)
Definition style_map (driving_style : string) : driving_patterns.DrivingMode :=
  if String.eqb driving_style "eco" then driving_patterns.ECO
  else if String.eqb driving_style "normal" then driving_patterns.CITY
  else if String.eqb driving_style "aggressive" then driving_patterns.AGGRESSIVE
  else driving_patterns.MIXED.

(** One iteration of the hour loop of [_generate_profile_based_day]; the
    boolean records that the loop has reached its [break]. *)
Definition profile_based_hour (self : EVBatterySimulator) (remaining_hours : Z)
    (is_weekend : bool) (hour : Z) (st : list Activity * Q * bool)
    : world.M (list Activity * Q * bool) :=
  let '(activities, hours_used, broken) := st in
  if broken then world.ret st
  else if hours_used >=? inject_Z (remaining_hours - 2) then
    world.ret (activities, hours_used, true)
  else
    let! drive := should_drive_now (user_behavior self) hour is_weekend in
    if drive then
      let! distance := get_trip_distance (user_behavior self) is_weekend in
      let trip_distance := distance / 4 in
      let trip_time := Py.max 0.25 (trip_distance / 40) in
      let! driving_style := get_driving_style (user_behavior self) "normal" in
      let activities :=
        activities ++ [driving_for (world.hours trip_time) (style_map driving_style) None] in
      let hours_used := hours_used + trip_time in
      let! idle_time := world.py (rng.uniform 0.5 2) in
      let activities := activities ++ [idle_for (world.hours idle_time)] in
      let hours_used := hours_used + idle_time in
      world.ret (activities, hours_used, false)
    else world.ret st.

Definition _generate_profile_based_day (self : EVBatterySimulator) (start_hour : Z)
    (is_weekend : bool) : world.M (list Activity) :=
  let remaining_hours := (24 - start_hour)%Z in
  let! (activities, _, _) :=
    Pylist.for_each (Pylist.range_from start_hour 24)
      (profile_based_hour self remaining_hours is_weekend)
      ([], 0, false) in
  world.ret activities.

(** [getattr(ChargingType, name)]. *)
Definition charging_type_named (name : string) : Py.Res charging_patterns.ChargingType :=
  if String.eqb name "AC_L1" then Py.ret charging_patterns.AC_L1
  else if String.eqb name "AC_L2" then Py.ret charging_patterns.AC_L2
  else if String.eqb name "DC_FAST" then Py.ret charging_patterns.DC_FAST
  else if String.eqb name "SUPERCHARGER" then Py.ret charging_patterns.SUPERCHARGER
  else Py.raise Py.KeyError.

Definition _generate_daily_schedule (self : EVBatterySimulator) (is_weekend : bool)
    : world.M (list Activity) :=
  let behavior := behavior (user_behavior self) in
  let! wake_time := get_wake_time (user_behavior self) is_weekend in
  let wake_hour := world.hour wake_time in
  let schedule := [idle_for (world.hours (inject_Z wake_hour))] in
  let current_hour := wake_hour in
  let! day :=
    if profile_eqb (user_profile self) COMMUTER && negb is_weekend
    then _generate_commuter_day self current_hour
    else if profile_eqb (user_profile self) WEEKEND_WARRIOR && is_weekend
    then _generate_weekend_warrior_day self current_hour
    else _generate_profile_based_day self current_hour is_weekend in
  let schedule := schedule ++ day in
  let! t := world.now in
  let soc := battery_model.soc (battery self) in
  let! (charge, target) := should_charge (user_behavior self) soc (world.hour_of t) in
  let! schedule :=
    if charge then
      let! ratio := world.lift (Py.div (preferred_soc_min behavior - soc)
                                       (preferred_soc_min behavior)) in
      let urgency := Py.max 0 ratio in
      let! charging_type_str := get_charging_type_preference (user_behavior self) urgency in
      let! charging_type := world.lift (charging_type_named charging_type_str) in
      let energy_needed :=
        battery_model.effective_capacity_kwh (battery self) * (target - soc) / 100 in
      let charging_power :=
        charging_patterns.max_power_kw (charging_patterns.CHARGING_SPECS charging_type) in
      let! hours_needed := world.lift (Py.div energy_needed (charging_power * 0.9)) in
      world.ret (schedule ++
                 [{| type := charging;
                     duration := world.hours (Py.min (hours_needed + 0.5) 8);
                     mode := None; purpose := None;
                     charging_type := Some charging_type;
                     target_soc := Some target |}])
    else world.ret schedule in
  let total_duration := fold_left (fun acc a => (acc + duration a)%Z) schedule 0%Z in
  if (total_duration <? world.hours 24)%Z
  then world.ret (schedule ++ [idle_for (world.hours 24 - total_duration)%Z])
  else world.ret schedule.

(** The variables of the activity loop of [simulate_day]. *)
Record Day := {
  sim : EVBatterySimulator;
  day_time : world.datetime;
  telemetry_records : list TelemetryRecord
}.

(** One sample of an activity: apply the current, stamp the record with the
    simulated time, finish it with [mark], advance the time. *)
Definition step (dt : Q) (requested_current : Q)
    (mark : TelemetryRecord -> TelemetryRecord) (st : Day) : world.M Day :=
  let! (_, b) :=
    world.lift (battery_model.apply_current (battery (sim st)) requested_current dt) in
  let self := set_battery b (sim st) in
  let! record := _create_telemetry_record self (day_time st) in
  world.ret {| sim := self;
               day_time := (day_time st + world.float_seconds dt)%Z;
               telemetry_records := telemetry_records st ++ [mark record] |}.

(** One iteration of [for activity in schedule]. *)
Definition run_activity (ambient_temp_profile : list Q) (dt : Q)
    (activity : Activity) (st : Day) : world.M Day :=
  let! q := world.lift (Py.div (world.total_seconds (duration activity)) dt) in
  let samples := Py.int_of_float q in
  let hour := world.hour_of (day_time st) in
  let! ambient := world.lift (Pylist.getitem ambient_temp_profile hour) in
  let st := {| sim := set_battery (battery_model.set_ambient_temp ambient (battery (sim st)))
                                  (sim st);
               day_time := day_time st;
               telemetry_records := telemetry_records st |} in
  match type activity with
  | idle =>
      Pylist.for_each (Pylist.range samples) (fun _ => step dt 0 (fun r => r)) st
  | driving =>
      let! current_profile :=
        driving_patterns.generate_mixed_driving
          (Py.int_of_float (world.total_seconds (duration activity))) dt in
      Pylist.for_each current_profile
        (fun current => step dt current (set_driving (Qabs current * 0.5))) st
  | charging =>
      let kind := default charging_patterns.AC_L2 (charging_type activity) in
      let target := default 80.0 (target_soc activity) in
      let! (current_profile, soc_profile, completed) :=
        fun env =>
          match charging_patterns.generate_cc_cv_profile np_exp (charging_gen (sim st))
                  kind target
                  (battery_model.effective_capacity_kwh (battery (sim st))) dt
                  (battery_model.soc (battery (sim st)))
                  (Py.int_of_float (world.total_seconds (duration activity)))
                  (world.np_random env) with
          | inl e => inl e
          | inr (currents, socs, flag, g) =>
              inr ((currents, socs, flag),
                   {| world.np_random := g; world.py_random := world.py_random env;
                      world.clock := world.clock env |})
          end in
      Pylist.for_each current_profile
        (fun current => step dt current (set_is_charging (current >? 0))) st
  end.

(** [_find_activity_periods(records, 'is_driving', True)]: the loop, with
    [start] the open period if any. *)
Fixpoint find_periods (i : Z) (records : list TelemetryRecord) (start : option Z)
    (periods : list (Z * Z)) : list (Z * Z) :=
  match records with
  | [] =>
      match start with
      | Some a => periods ++ [(a, i)]
      | None => periods
      end
  | r :: records =>
      if is_driving r then
        find_periods (i + 1) records (match start with Some a => Some a | None => Some i end)
                     periods
      else
        match start with
        | Some a => find_periods (i + 1) records None (periods ++ [(a, i)])
        | None => find_periods (i + 1) records None periods
        end
  end.

Definition _find_activity_periods (records : list TelemetryRecord) : list (Z * Z) :=
  find_periods 0 records None [].

(** [for i, v in enumerate(values): if idx + i < len(records):
    records[idx + i] = change v records[idx + i]]. *)
Fixpoint splice (change : Q -> TelemetryRecord -> TelemetryRecord) (idx i : Z)
    (values : list Q) (records : list TelemetryRecord) : Py.Res (list TelemetryRecord) :=
  match values with
  | [] => Py.ret records
  | v :: values =>
      let* records :=
        if (idx + i <? Z.of_nat (length records))%Z then
          let* r := Pylist.getitem records (idx + i) in
          Pylist.setitem records (idx + i) (change v r)
        else Py.ret records in
      splice change idx (i + 1) values records
  end.

Definition _inject_daily_anomalies (self : EVBatterySimulator)
    (telemetry_records : list TelemetryRecord) (date : world.datetime)
    : world.M (list TelemetryRecord * list anomaly_generator.AnomalyEvent) :=
  let! u := world.py rng.random in
  let! (telemetry_records, anomalies) :=
    if u <? 0.05 then
      let driving_periods := _find_activity_periods telemetry_records in
      match driving_periods with
      | [] => world.ret (telemetry_records, [])
      | _ =>
          let! (a, b) := world.py_res (rng.choice driving_periods) in
          let! k := world.py_res (rng.randint 0 (Z.max 0 (b - a - 300))) in
          let start_idx := (a + k)%Z in
          let! duration := world.py_res (rng.randint 180 600) in
          let! r := world.lift (Pylist.getitem telemetry_records start_idx) in
          let! severity := world.py_res (rng.choice ["low"; "medium"; "high"]) in
          let! (temp_profile, event) :=
            anomaly_generator.generate_thermal_event np_exp (temperature r) duration
              severity in
          let! telemetry_records :=
            world.lift (splice set_thermal start_idx 0 temp_profile telemetry_records) in
          world.ret (telemetry_records, [event])
      end
    else world.ret (telemetry_records, []) in
  let! u := world.py rng.random in
  if u <? 0.10 then
    let! glitch_idx :=
      world.py_res (rng.randint 0 (Z.of_nat (length telemetry_records) - 1)) in
    let! r := world.lift (Pylist.getitem telemetry_records glitch_idx) in
    let! glitch_type := world.py_res (rng.choice ["spike"; "dropout"; "noise"]) in
    let! duration_samples := world.py_res (rng.randint 1 5) in
    let! (glitch_values, event) :=
      anomaly_generator.generate_sensor_glitch np_exp (voltage r) glitch_type
        duration_samples in
    let! telemetry_records :=
      world.lift (splice set_voltage glitch_idx 0 glitch_values telemetry_records) in
    world.ret (telemetry_records, anomalies ++ [event])
  else world.ret (telemetry_records, anomalies).

(** [','.join(names)]. *)
Fixpoint join_commas (names : list string) : string :=
  match names with
  | [] => ""
  | [name] => name
  | name :: names => name ++ "," ++ join_commas names
  end.

Definition _anomaly_to_dict (self : EVBatterySimulator)
    (event : anomaly_generator.AnomalyEvent) : EventRow := {|
  row_vehicle_id := sim_vehicle_id self;
  row_event_type := anomaly_generator.event_type event;
  row_start_time := anomaly_generator.start_time event;
  row_end_time := anomaly_generator.end_time event;
  row_severity := anomaly_generator.severity event;
  row_description := anomaly_generator.description event;
  row_affected_metrics := join_commas (anomaly_generator.affected_metrics event)
|}.

(** [simulate_day] with the default ambient profile: the two frames, and
    the simulator with its battery as the day leaves it. *)
Definition simulate_day (self : EVBatterySimulator) (date : option world.datetime)
    (include_anomalies : bool) (dt : Q)
    : world.M (list TelemetryRecord * list EventRow * EVBatterySimulator) :=
  let! date :=
    match date with
    | Some d => world.ret d
    | None => let! t := world.now in world.ret (world.midnight t)
    end in
  let ambient_temp_profile := default_ambient_temp_profile in
  let is_weekend := (world.weekday date >=? 5)%Z in
  let! schedule := _generate_daily_schedule self is_weekend in
  let! st := Pylist.for_each schedule (run_activity ambient_temp_profile dt)
               {| sim := self; day_time := date; telemetry_records := [] |} in
  let! (telemetry_records, events) :=
    if include_anomalies && (0 <? length (telemetry_records st))%nat
    then _inject_daily_anomalies (sim st) (telemetry_records st) date
    else world.ret (telemetry_records st, []) in
  world.ret (telemetry_records, map (_anomaly_to_dict (sim st)) events, sim st).

(** The variables of the day loop of [run_simulation]. *)
Record Run := {
  run_sim : EVBatterySimulator;
  all_telemetry : list (list TelemetryRecord);
  all_events : list (list EventRow)
}.

(** [run_simulation]: the two combined frames.  Writing them to the
    database ([save_to_db]) does not change what is returned and is outside
    the model. *)
Definition run_simulation (vehicle_id : string) (days : Z)
    (user_profile : option UserProfile) (include_anomalies : bool) (seed : option Z)
    : world.M (list TelemetryRecord * list EventRow) :=
  let! simulator := init vehicle_id user_profile seed in
  let! t := world.now in
  let start_date := world.midnight t in
  let! st :=
    Pylist.for_each (Pylist.range days)
      (fun day st =>
         let current_date := (start_date + world.days day)%Z in
         let! (telemetry, events, simulator) :=
           simulate_day (run_sim st) (Some current_date) include_anomalies 1.0 in
         world.ret {| run_sim := simulator;
                      all_telemetry := all_telemetry st ++ [telemetry];
                      all_events :=
                        match events with
                        | [] => all_events st
                        | _ => all_events st ++ [events]
                        end |})
      {| run_sim := simulator; all_telemetry := []; all_events := [] |} in
  match all_telemetry st with
  | [] => world.raise Py.ValueError
  | _ => world.ret (concat (all_telemetry st), concat (all_events st))
  end.

End simulate.

(** Rational stand-ins for [np.sin] and [np.pi], to run examples. *)
Definition sin_taylor (x : Q) : Q := x - x * x * x / 6.
Definition pi_approx : Q := 3.14159.

(** Two environments for examples: the same generators, wall clocks one day
    apart (midnight of day 0 and of day 1). *)
Definition steady : rng.Generator :=
  rng.constant {| rng.bits := 2 ^ 52; rng.gauss := 0 |}.
Definition env_day0 : world.Env :=
  {| world.np_random := steady; world.py_random := steady;
     world.clock := {| world.readings := fun _ => 0%Z; world.reads := 0 |} |}.
Definition env_day1 : world.Env :=
  {| world.np_random := steady; world.py_random := steady;
     world.clock := {| world.readings := fun _ => world.day_us; world.reads := 0 |} |}.

(** The reproducibility property as the specification words it: the two
    executions, each in its own environment, return, and return the same
    frames. *)
Definition reproducible_as_specified (np_exp np_sin : Q -> Q) (np_pi : Q)
    (vehicle_id : string) (days : Z) (user_profile : UserProfile) (seed : Z)
    (env1 env2 : world.Env) : Prop :=
  exists frames env1' env2',
    run_simulation np_exp np_sin np_pi vehicle_id days (Some user_profile) true
                   (Some seed) env1 = inr (frames, env1') /\
    run_simulation np_exp np_sin np_pi vehicle_id days (Some user_profile) true
                   (Some seed) env2 = inr (frames, env2').

(** An example simulator: the object [__init__] builds for a vehicle of the
    given specifications and the commuter profile, without a seed, when the
    clock reads 0. *)
Definition commuter (vehicle_id : string) (specs : battery_model.BatterySpecs)
  : EVBatterySimulator :=
  {| sim_vehicle_id := vehicle_id; specs := specs;
     battery := battery_model.init specs 80.0 25.0 100.0;
     user_profile := COMMUTER;
     user_behavior := {| profile := COMMUTER; behavior := USER_PROFILES COMMUTER |};
     charging_gen :=
       {| charging_patterns.battery_voltage := battery_model.nominal_voltage specs |};
     current_time := 0%Z |}.

(** The state of the activity loop of a day that started at [date]: the
    records so far are stamped one time step apart from [date], the
    simulated time continues them, and each record has its cell temperatures
    on either side of its temperature. *)
Definition stamped (date : world.datetime) (dt : Q) (st : Day) : Prop :=
  day_time st
  = (date + Z.of_nat (length (telemetry_records st)) * world.float_seconds dt)%Z /\
  (forall k r, telemetry_records st !! k = Some r ->
     time r = (date + Z.of_nat k * world.float_seconds dt)%Z /\
     min_cell_temp r <= temperature r <= max_cell_temp r).

End simulator.

(** * Verified properties *)

(** ** Float comparisons and the Python primitives *)

Section PyFacts.

Lemma Qleb_le (x y : Q) : (x <=? y) = true <-> x <= y.
Proof. unfold Py.Qleb. apply Qle_bool_iff. Qed.

Lemma Qleb_gt (x y : Q) : (x <=? y) = false <-> y < x.
Proof.
  unfold Py.Qleb. split; intro H.
  - apply Qnot_le_lt. intro Hle. apply Qle_bool_iff in Hle. congruence.
  - destruct (Qle_bool x y) eqn:E; [|reflexivity].
    apply Qle_bool_iff in E. exfalso. apply (Qlt_not_le _ _ H E).
Qed.

Lemma Qltb_lt (x y : Q) : (x <? y) = true <-> x < y.
Proof.
  unfold Py.Qltb. rewrite negb_true_iff. apply (Qleb_gt y x).
Qed.

Lemma Qltb_ge (x y : Q) : (x <? y) = false <-> y <= x.
Proof.
  unfold Py.Qltb. rewrite negb_false_iff. apply (Qleb_le y x).
Qed.

Lemma Qeqb_eq (x y : Q) : (x ==? y) = true <-> x == y.
Proof. unfold Py.Qeqb. apply Qeq_bool_iff. Qed.

Lemma Qeqb_neq (x y : Q) : (x ==? y) = false <-> ~ x == y.
Proof.
  unfold Py.Qeqb. split; intro H.
  - apply Qeq_bool_neq, H.
  - destruct (Qeq_bool x y) eqn:E; [|reflexivity].
    apply Qeq_bool_iff in E. contradiction.
Qed.

Lemma max_cases (a b : Q) : (a < b /\ Py.max a b = b) \/ (b <= a /\ Py.max a b = a).
Proof.
  unfold Py.max. destruct (a <? b) eqn:E.
  - left. split; [apply Qltb_lt, E | reflexivity].
  - right. split; [apply Qltb_ge, E | reflexivity].
Qed.

Lemma min_cases (a b : Q) : (b < a /\ Py.min a b = b) \/ (a <= b /\ Py.min a b = a).
Proof.
  unfold Py.min. destruct (b <? a) eqn:E.
  - left. split; [apply Qltb_lt, E | reflexivity].
  - right. split; [apply Qltb_ge, E | reflexivity].
Qed.

Lemma clip_bounds (x lo hi : Q) : lo <= hi -> lo <= Py.clip x lo hi <= hi.
Proof.
  intro Hlh. unfold Py.clip.
  destruct (x <? lo) eqn:E1.
  - destruct (hi <? lo) eqn:E2.
    + apply Qltb_lt in E2. lra.
    + lra.
  - apply Qltb_ge in E1.
    destruct (hi <? x) eqn:E2.
    + lra.
    + apply Qltb_ge in E2. lra.
Qed.

Lemma div_nonzero (a b : Q) : ~ b == 0 -> Py.div a b = inr (a / b).
Proof.
  intro H. unfold Py.div. apply Qeqb_neq in H. rewrite H. reflexivity.
Qed.

End PyFacts.

(** ** Thermal safety manager *)

Section ThermalSafetyFacts.

Import thermal_safety.

Lemma log_event_fields ty t m :
  thresholds (_log_event ty t m) = thresholds m /\
  current_status (_log_event ty t m) = current_status m /\
  shutdown_active (_log_event ty t m) = shutdown_active m /\
  warning_count (_log_event ty t m) = warning_count m.
Proof.
  unfold _log_event. destruct (_ <? _)%nat; simpl; auto.
Qed.

Lemma check_temperature_thresholds m t :
  thresholds (snd (check_temperature m t)) = thresholds m.
Proof.
  unfold check_temperature, shutdown_recovery, determine_status.
  repeat match goal with
         | |- context [if ?c then _ else _] => destruct c
         end; simpl;
    rewrite ?(proj1 (log_event_fields _ _ _)); simpl;
    rewrite ?(proj1 (log_event_fields _ _ _)); reflexivity.
Qed.

Lemma power_limit_of_status m t :
  power_limit (fst (check_temperature m t))
  = limit_of_status (status (fst (check_temperature m t))).
Proof.
  unfold check_temperature, shutdown_recovery, determine_status.
  repeat match goal with
         | |- context [if ?c then _ else _] => destruct c
         end; reflexivity.
Qed.

(** C5.  Whatever the manager's state (thresholds, flag, history) and
    whatever the temperature, the power limit that [check_temperature]
    returns is the step function of the status it returns: Normal 1.0,
    Warning 0.7, Critical 0.3, Shutdown 0.0; and that step function does not
    increase as the status escalates Normal, Warning, Critical, Shutdown. *)
Theorem power_limit_is_step_of_status :
  (forall (m : ThermalSafetyManager) (t : Q),
      power_limit (fst (check_temperature m t))
      = limit_of_status (status (fst (check_temperature m t)))) /\
  limit_of_status NORMAL = 1.0 /\ limit_of_status WARNING = 0.7 /\
  limit_of_status CRITICAL = 0.3 /\ limit_of_status SHUTDOWN = 0.0 /\
  (forall s1 s2 : ThermalStatus,
      (severity s1 <= severity s2)%nat -> limit_of_status s2 <= limit_of_status s1).
Proof.
  split; [|repeat split].
  - exact power_limit_of_status.
  - intros s1 s2 H. destruct s1, s2; simpl in *; try lia; lra.
Qed.

Lemma check_temperatures_app m xs ys :
  check_temperatures m (xs ++ ys) =
  (fst (check_temperatures m xs) ++ fst (check_temperatures (snd (check_temperatures m xs)) ys),
   snd (check_temperatures (snd (check_temperatures m xs)) ys)).
Proof.
  revert m. induction xs as [|x xs IH]; intro m; simpl.
  - destruct (check_temperatures m ys); reflexivity.
  - destruct (check_temperature m x) as [r m1].
    rewrite IH.
    destruct (check_temperatures m1 xs) as [rs m2]; simpl.
    destruct (check_temperatures m2 ys) as [rs' m3]; reflexivity.
Qed.

Lemma check_temperatures_thresholds m ts :
  thresholds (snd (check_temperatures m ts)) = thresholds m.
Proof.
  revert m. induction ts as [|t ts IH]; intro m; simpl; [reflexivity|].
  pose proof (check_temperature_thresholds m t) as Ht.
  destruct (check_temperature m t) as [r m1]; simpl in Ht.
  specialize (IH m1). destruct (check_temperatures m1 ts) as [rs m2]; simpl in *.
  congruence.
Qed.

(** While the flag is set, a reading above the recovery threshold returns
    Shutdown with limit 0.0 and leaves the manager as it was. *)
Lemma shutdown_holds m u :
  shutdown_active m = true ->
  recovery_temp (thresholds m) < u ->
  check_temperature m u =
  ({| temperature := u; status := SHUTDOWN; action_required := true; power_limit := 0.0 |}, m).
Proof.
  intros Hact Hu. unfold check_temperature, shutdown_recovery. rewrite Hact.
  apply Qleb_gt in Hu. rewrite Hu. reflexivity.
Qed.

(** A reading at or above the shutdown threshold leaves the flag set. *)
Lemma shutdown_entered m t :
  recovery_temp (thresholds m) < shutdown_temp (thresholds m) ->
  shutdown_temp (thresholds m) <= t ->
  shutdown_active (snd (check_temperature m t)) = true.
Proof.
  intros Hth Ht. destruct (shutdown_active m) eqn:Hact.
  - rewrite shutdown_holds by (auto; lra). exact Hact.
  - unfold check_temperature, shutdown_recovery. rewrite Hact.
    unfold determine_status. apply Qleb_le in Ht. rewrite Ht. simpl.
    rewrite (proj1 (proj2 (proj2 (log_event_fields _ _ _)))). reflexivity.
Qed.

(** With the flag set, a reading at or below the recovery threshold clears
    it; under the default thresholds the call then reports Normal. *)
Lemma shutdown_recovers m u :
  thresholds m = default_thresholds ->
  shutdown_active m = true ->
  u <= 45 ->
  shutdown_active (snd (check_temperature m u)) = false /\
  status (fst (check_temperature m u)) = NORMAL /\
  power_limit (fst (check_temperature m u)) = 1.0 /\
  current_status (snd (check_temperature m u)) = NORMAL.
Proof.
  intros Hth Hact Hu. unfold check_temperature, shutdown_recovery.
  rewrite Hact, Hth. simpl recovery_temp.
  assert (E : (u <=? 45.0) = true) by (apply Qleb_le; lra). rewrite E.
  unfold determine_status.
  rewrite (proj1 (log_event_fields _ _ _)). simpl thresholds. rewrite Hth. simpl.
  assert (E1 : (60.0 <=? u) = false) by (apply Qleb_gt; lra).
  assert (E2 : (55.0 <=? u) = false) by (apply Qleb_gt; lra).
  assert (E3 : (50.0 <=? u) = false) by (apply Qleb_gt; lra).
  rewrite E1, E2, E3. simpl.
  destruct (negb _); simpl;
    rewrite ?(proj1 (proj2 (proj2 (log_event_fields _ _ _)))); simpl; auto.
Qed.

(** C2.  Default thresholds.  After any sequence of calls ending in one that
    reads 60 degrees or more, the shutdown flag is set; from there every
    call of an unbroken run of readings above 45 degrees returns Shutdown
    with power limit 0.0 and keeps the flag set; and a call made with the
    flag set clears it exactly when its reading is at most 45 degrees, in
    which case it reports Normal and stores Normal as the current status. *)
Theorem shutdown_hysteresis :
  forall (m : ThermalSafetyManager) (pre : list Q) (t : Q) (later : list Q),
    thresholds m = default_thresholds ->
    60 <= t ->
    let m1 := snd (check_temperatures m (pre ++ [t])) in
    shutdown_active m1 = true /\
    (Forall (fun u => 45 < u) later ->
     Forall (fun r => status r = SHUTDOWN /\ power_limit r = 0.0)
            (fst (check_temperatures m1 later)) /\
     shutdown_active (snd (check_temperatures m1 later)) = true) /\
    (forall (m2 : ThermalSafetyManager) (u : Q),
        thresholds m2 = default_thresholds ->
        shutdown_active m2 = true ->
        (shutdown_active (snd (check_temperature m2 u)) = false <-> u <= 45) /\
        (u <= 45 ->
         status (fst (check_temperature m2 u)) = NORMAL /\
         current_status (snd (check_temperature m2 u)) = NORMAL)).
Proof.
  intros m pre t later Hth Ht m1.
  assert (Hm1 : shutdown_active m1 = true).
  { subst m1. rewrite check_temperatures_app. simpl.
    pose proof (check_temperatures_thresholds m pre) as Hpre.
    set (m0 := snd (check_temperatures m pre)) in *.
    pose proof (shutdown_entered m0 t) as Hset.
    destruct (check_temperature m0 t) as [r mt]; simpl in *.
    apply Hset; rewrite Hpre, Hth; simpl; lra. }
  assert (Hthm1 : thresholds m1 = default_thresholds).
  { subst m1. rewrite check_temperatures_thresholds. exact Hth. }
  split; [exact Hm1|]. split.
  - clearbody m1. clear Ht Hth m pre t.
    intro Hall. revert m1 Hm1 Hthm1.
    induction Hall as [|u us Hu Hus IH]; intros m1 Hm1 Hthm1; simpl.
    + split; [constructor | exact Hm1].
    + rewrite shutdown_holds by (auto; rewrite Hthm1; simpl; lra).
      destruct (IH m1 Hm1 Hthm1) as [IH1 IH2].
      destruct (check_temperatures m1 us) as [rs m3]; simpl in *.
      split; [constructor; auto | exact IH2].
  - intros m2 u Hth2 Hact2. split; [split|].
    + intro Hclr. destruct (Qlt_le_dec 45 u) as [Hgt|Hle]; [|exact Hle].
      rewrite shutdown_holds in Hclr by (auto; rewrite Hth2; simpl; lra).
      simpl in Hclr. congruence.
    + intro Hle. apply (shutdown_recovers m2 u Hth2 Hact2 Hle).
    + intro Hle. destruct (shutdown_recovers m2 u Hth2 Hact2 Hle) as (_ & H1 & _ & H2).
      auto.
Qed.

Lemma shutdown_hysteresis_witness :
  let m1 := snd (check_temperatures (thermal_safety.init "VEH001") ([25; 52] ++ [61])) in
  shutdown_active m1 = true /\
  (Forall (fun u => 45 < u) [58; 50] ->
   Forall (fun r => status r = SHUTDOWN /\ power_limit r = 0.0)
          (fst (check_temperatures m1 [58; 50])) /\
   shutdown_active (snd (check_temperatures m1 [58; 50])) = true) /\
  (forall (m2 : ThermalSafetyManager) (u : Q),
      thresholds m2 = default_thresholds ->
      shutdown_active m2 = true ->
      (shutdown_active (snd (check_temperature m2 u)) = false <-> u <= 45) /\
      (u <= 45 ->
       status (fst (check_temperature m2 u)) = NORMAL /\
       current_status (snd (check_temperature m2 u)) = NORMAL)).
Proof.
  apply (shutdown_hysteresis (thermal_safety.init "VEH001") [25; 52] 61 [58; 50]).
  - reflexivity.
  - lra.
Defined.

End ThermalSafetyFacts.

(** ** Battery model *)

Section BatteryFacts.

Import thermal_safety battery_model.

Lemma scaled_nonzero (x k : Q) : ~ x == 0 -> ~ k == 0 -> ~ x * k == 0.
Proof.
  intros Hx Hk H. apply Qmult_integral in H. tauto.
Qed.

Lemma update_soc_ok self i dt :
  ~ effective_capacity_kwh self == 0 ->
  exists x, update_soc self i dt = inr (x, set_soc x self) /\ 0 <= x <= 100.
Proof.
  intro Hc. unfold update_soc.
  rewrite div_nonzero by (apply scaled_nonzero; [exact Hc | discriminate]).
  simpl. eexists. split; [reflexivity|].
  match goal with |- _ <= Py.clip ?x _ _ <= _ =>
    pose proof (clip_bounds x 0.0 100.0) as Hb end.
  assert (H0 : 0.0 <= 100.0) by lra. specialize (Hb H0). lra.
Qed.

Lemma update_thermal_ok self dt power :
  ~ thermal_mass (specs self) == 0 ->
  exists t mgr,
    update_thermal self dt power =
    inr (t, if t <? 0
            then set_effective_capacity_kwh (cold_capacity self)
                   (set_thermal_safety mgr (set_temperature t self))
            else set_thermal_safety mgr (set_temperature t self)).
Proof.
  intro Hm. unfold update_thermal.
  rewrite div_nonzero by (apply scaled_nonzero; [exact Hm | discriminate]).
  unfold Py.bind, Py.ret. cbv beta zeta.
  match goal with |- context [set_temperature ?t self] => set (t1 := t) end.
  change (temperature (set_temperature t1 self)) with t1.
  destruct (check_temperature _ t1) as [tc mgr].
  change (temperature (set_thermal_safety mgr (set_temperature t1 self))) with t1.
  exists t1, mgr. destruct (t1 <? 0); reflexivity.
Qed.

(** What one [apply_current] call does to the battery, field by field. *)
Lemma apply_current_ok self r dt :
  ~ effective_capacity_kwh self == 0 ->
  ~ thermal_mass (specs self) == 0 ->
  exists v p self',
    apply_current self r dt = inr ((current self', v, p), self') /\
    0 <= soc self' <= 100 /\
    specs self' = specs self /\
    soh self' = soh self /\
    effective_capacity_kwh self' =
      (if temperature self' <? 0 then cold_capacity self
       else effective_capacity_kwh self) /\
    current self' =
      (if r >? 0 then
         Py.min r (if soc self >? 80
                   then max_charge_current (specs self) * combined_limit self
                        * Py.max 0.1 (1.0 - (soc self - 80) / 20)
                   else max_charge_current (specs self) * combined_limit self)
       else Py.max r (max_discharge_current (specs self) * combined_limit self)).
Proof.
  intros Hc Hm. unfold apply_current, combined_limit, temperature_derate.
  destruct (check_temperature (thermal_safety self) (temperature self)) as [tc mgr].
  cbv zeta. destruct (r >? 0) eqn:Er;
    cbn [specs soc soh temperature thermal_safety fst
         set_thermal_safety set_current set_voltage current voltage];
    match goal with |- context [update_soc ?b ?i dt] =>
      destruct (update_soc_ok b i dt) as (x & Hx & Hxr); [exact Hc|];
      rewrite Hx; unfold Py.bind at 1; cbv beta iota
    end;
    match goal with |- context [update_thermal ?b dt ?p] =>
      destruct (update_thermal_ok b dt p) as (t & mgr' & Ht); [exact Hm|];
      rewrite Ht; unfold Py.bind, Py.ret; cbv beta iota
    end;
    do 3 eexists; (split; [reflexivity|]);
    destruct (t <? 0) eqn:Et; simpl; rewrite ?Et; repeat split;
      try reflexivity; tauto.
Qed.

Lemma cold_capacity_nonzero self :
  ~ nominal_capacity_kwh (specs self) == 0 -> ~ soh self == 0 ->
  ~ cold_capacity self == 0 /\ ~ cold_capacity self == rated_capacity self.
Proof.
  intros Hn Hs. unfold cold_capacity, rated_capacity.
  assert (Hr : ~ nominal_capacity_kwh (specs self) * (soh self / 100.0) == 0).
  { apply scaled_nonzero; [exact Hn|]. intro H. apply Hs.
    apply (Qmult_inj_r _ _ (/ 100.0)); [discriminate|]. rewrite H. reflexivity. }
  split.
  - apply scaled_nonzero; [exact Hr | discriminate].
  - intro H. apply Hr. lra.
Qed.

(** One call keeps the battery well formed. *)
Lemma apply_current_well_formed self r dt :
  well_formed self ->
  exists out self',
    apply_current self r dt = inr (out, self') /\
    well_formed self' /\
    0 <= soc self' <= 100 /\
    specs self' = specs self /\
    soh self' = soh self /\
    effective_capacity_kwh self' =
      (if temperature self' <? 0 then cold_capacity self
       else effective_capacity_kwh self).
Proof.
  intros (Hc & Hm & Hn & Hs).
  destruct (apply_current_ok self r dt Hc Hm)
    as (v & p & self' & Heq & Hsoc & Hsp & Hsoh & Heff & _).
  exists (current self', v, p), self'. split; [exact Heq|].
  repeat split; try tauto; unfold well_formed; rewrite ?Hsp, ?Hsoh; try tauto.
  rewrite Heff. destruct (temperature self' <? 0); [|exact Hc].
  apply cold_capacity_nonzero; assumption.
Qed.

(** A sequence of calls succeeds from a well-formed battery, and every
    battery state it passes through is in range and is either at the
    capacity it started with or at the cold capacity. *)
Lemma apply_currents_ok calls : forall self,
  well_formed self ->
  exists trace,
    apply_currents self calls = inr trace /\
    length trace = length calls /\
    Forall (fun b => 0 <= soc b <= 100 /\
                     specs b = specs self /\ soh b = soh self /\
                     (effective_capacity_kwh self = cold_capacity self ->
                      effective_capacity_kwh b = cold_capacity self)) trace.
Proof.
  induction calls as [|[r dt] calls IH]; intros self Hwf; simpl.
  - exists []. repeat split. constructor.
  - destruct (apply_current_well_formed self r dt Hwf)
      as (out & self1 & Heq & Hwf1 & Hsoc & Hsp & Hsoh & Heff).
    rewrite Heq. unfold Py.bind at 1. cbv beta iota.
    destruct (IH self1 Hwf1) as (trace & Htr & Hlen & Hall).
    rewrite Htr. unfold Py.bind, Py.ret. cbv beta iota.
    exists (self1 :: trace). split; [reflexivity|]. split; [simpl; lia|].
    assert (Hcold : cold_capacity self1 = cold_capacity self).
    { unfold cold_capacity. rewrite Hsp, Hsoh. reflexivity. }
    assert (Hkeep : effective_capacity_kwh self = cold_capacity self ->
                    effective_capacity_kwh self1 = cold_capacity self).
    { intro H. rewrite Heff. destruct (temperature self1 <? 0); auto. }
    constructor; [repeat split; tauto|].
    eapply Forall_impl; [exact Hall|]. simpl. intros b (Hb1 & Hb2 & Hb3 & Hb4).
    split; [exact Hb1|]. split; [congruence|]. split; [congruence|].
    intro H. rewrite <- Hcold. apply Hb4. rewrite Hcold. auto.
Qed.

(** C1.  From a battery whose divisors are not zero and whose SoC is in
    [0, 100], every finite sequence of [apply_current] calls with positive
    time steps runs to its end, and the SoC stored after each call is in
    [0, 100]. *)
Theorem soc_stays_in_range :
  forall (self : BatteryModel) (calls : list (Q * Q)),
    well_formed self ->
    0 <= soc self <= 100 ->
    Forall (fun call => 0 < snd call) calls ->
    exists trace,
      apply_currents self calls = inr trace /\
      length trace = length calls /\
      Forall (fun b => 0 <= soc b <= 100) trace.
Proof.
  intros self calls Hwf _ _.
  destruct (apply_currents_ok calls self Hwf) as (trace & Heq & Hlen & Hall).
  exists trace. repeat split; try assumption.
  eapply Forall_impl; [exact Hall|]. simpl. tauto.
Qed.

Lemma init_VEH001_well_formed (soc0 t0 : Q) :
  well_formed (battery_model.init VEH001 soc0 t0 100.0).
Proof.
  unfold well_formed; simpl. repeat split; intro H; discriminate H.
Qed.

Lemma soc_stays_in_range_witness :
  exists trace,
    apply_currents (battery_model.init VEH001 80.0 25.0 100.0)
                   [(150, 1.0); (-300, 1.0); (0, 1.0)] = inr trace /\
    length trace = 3%nat /\
    Forall (fun b => 0 <= soc b <= 100) trace.
Proof.
  apply (soc_stays_in_range (battery_model.init VEH001 80.0 25.0 100.0)
           [(150, 1.0); (-300, 1.0); (0, 1.0)]).
  - apply init_VEH001_well_formed.
  - simpl. lra.
  - repeat constructor.
Defined.

(** C9.  A call after which the battery temperature is below zero leaves
    the effective capacity at nominal capacity times SoH/100 times 0.8; from
    then on every further sequence of calls runs to its end with the
    effective capacity still at that value after each call, whatever the
    temperature has become, and so never back at nominal capacity times
    SoH/100. *)
Theorem cold_capacity_reduction_persists :
  forall (self : BatteryModel) (r dt : Q) (calls : list (Q * Q)),
    well_formed self ->
    exists out self1 trace,
      apply_current self r dt = inr (out, self1) /\
      apply_currents self1 calls = inr trace /\
      length trace = length calls /\
      (temperature self1 < 0 ->
       effective_capacity_kwh self1 = cold_capacity self1 /\
       Forall (fun b => effective_capacity_kwh b = cold_capacity b /\
                        ~ effective_capacity_kwh b == rated_capacity b) trace).
Proof.
  intros self r dt calls Hwf.
  destruct (apply_current_well_formed self r dt Hwf)
    as (out & self1 & Heq & Hwf1 & _ & Hsp & Hsoh & Heff).
  destruct (apply_currents_ok calls self1 Hwf1) as (trace & Htr & Hlen & Hall).
  exists out, self1, trace. repeat split; try assumption.
  - apply Qltb_lt in H. rewrite H in Heff. rewrite Heff.
    unfold cold_capacity. rewrite Hsp, Hsoh. reflexivity.
  - assert (Hc1 : effective_capacity_kwh self1 = cold_capacity self1).
    { apply Qltb_lt in H. rewrite H in Heff. rewrite Heff.
      unfold cold_capacity. rewrite Hsp, Hsoh. reflexivity. }
    eapply Forall_impl; [exact Hall|]. simpl. intros b (_ & Hb2 & Hb3 & Hb4).
    assert (Hcb : cold_capacity b = cold_capacity self1).
    { unfold cold_capacity. rewrite Hb2, Hb3. reflexivity. }
    split; [rewrite Hcb; auto|].
    rewrite (Hb4 Hc1), <- Hcb.
    destruct Hwf1 as (_ & _ & Hn & Hs).
    apply cold_capacity_nonzero; rewrite ?Hb2, ?Hb3; assumption.
Qed.

Lemma cold_capacity_reduction_persists_witness :
  exists out self1 trace,
    apply_current (battery_model.init VEH001 50.0 (-0.02) 100.0) 200 1.0 = inr (out, self1) /\
    apply_currents self1 [(200, 1.0)] = inr trace /\
    length trace = 1%nat /\
    (temperature self1 < 0 ->
     effective_capacity_kwh self1 = cold_capacity self1 /\
     Forall (fun b => effective_capacity_kwh b = cold_capacity b /\
                      ~ effective_capacity_kwh b == rated_capacity b) trace).
Proof.
  apply (cold_capacity_reduction_persists
           (battery_model.init VEH001 50.0 (-0.02) 100.0) 200 1.0 [(200, 1.0)]).
  apply init_VEH001_well_formed.
Defined.

(** A cold pack that warms up: after the first call the temperature is below
    zero, after the second it is above zero, and the capacity is still the
    cold one (65.6 kWh instead of 82 kWh). *)
Example cold_capacity_after_warm_up :
  exists b1 b2,
    apply_currents (battery_model.init VEH001 50.0 (-0.02) 100.0)
                   [(200, 1.0); (200, 1.0)] = inr [b1; b2] /\
    temperature b1 < 0 /\ 0 < temperature b2 /\
    effective_capacity_kwh b2 == 65.6 /\ rated_capacity b2 == 82.
Proof.
  vm_compute. do 2 eexists. split; [reflexivity|].
  vm_compute. repeat split.
Qed.

Lemma temperature_derate_pos t : 0 < temperature_derate t.
Proof.
  unfold temperature_derate.
  destruct (t >? 45).
  - destruct (max_cases 0.5 (1.0 - (t - 45) / 20)) as [[H ->]|[H ->]]; lra.
  - destruct (t <? 0).
    + destruct (max_cases 0.3 (1.0 + t / 20)) as [[H ->]|[H ->]]; lra.
    + lra.
Qed.

Lemma combined_limit_nonneg self : 0 <= combined_limit self.
Proof.
  unfold combined_limit.
  pose proof (temperature_derate_pos (temperature self)) as Hd.
  rewrite power_limit_of_status.
  set (tc := fst (check_temperature (thermal_safety self) (temperature self))).
  assert (Hl : 0 <= limit_of_status (status tc)) by (destruct (status tc); simpl; lra).
  destruct (min_cases (temperature_derate (temperature self))
                      (limit_of_status (status tc))) as [[_ ->]|[_ ->]]; lra.
Qed.

Lemma cc_cv_taper_charging soc0 :
  0 < cc_cv_taper soc0 /\
  cc_cv_taper soc0 ==
    (if soc0 >? 80 then Py.max 0.1 (1.0 - (soc0 - 80) / 20) else 1).
Proof.
  unfold cc_cv_taper. destruct (soc0 >? 80).
  - unfold Py.max.
    assert (E : (0.1 <? 1 - (soc0 - 80) / 20) = (0.1 <? 1.0 - (soc0 - 80) / 20)).
    { destruct (0.1 <? 1.0 - (soc0 - 80) / 20) eqn:E1.
      - apply Qltb_lt. apply Qltb_lt in E1. lra.
      - apply Qltb_ge. apply Qltb_ge in E1. lra. }
    rewrite E. destruct (0.1 <? 1.0 - (soc0 - 80) / 20) eqn:E1.
    + apply Qltb_lt in E1. split; lra.
    + split; lra.
  - split; lra.
Qed.

(** C6.  A call on a well-formed battery returns; when charging (requested
    current positive, charge limit of the vehicle not negative) the
    magnitude of the current it returns is at most limit x max charge
    current x taper, where the taper is 1 up to 80% SoC and
    max(0.1, 1 - (SoC - 80)/20) above; when discharging it is at most
    limit x |max discharge current|.  The limit is the smaller of the
    thermal-safety power limit and the temperature derate, the derate being
    linear above 45 degrees with floor 0.5 and linear below 0 degrees with
    floor 0.3.  The taper is 0.1 at 100% SoC. *)
Theorem actual_current_within_limits :
  forall (self : BatteryModel) (requested_current dt : Q),
    well_formed self ->
    0 <= max_charge_current (specs self) ->
    exists actual v p self',
      apply_current self requested_current dt = inr ((actual, v, p), self') /\
      (0 < requested_current ->
       Qabs actual <= combined_limit self * max_charge_current (specs self)
                      * cc_cv_taper (soc self)) /\
      (requested_current <= 0 ->
       Qabs actual <= combined_limit self * Qabs (max_discharge_current (specs self))) /\
      combined_limit self =
        Py.min (temperature_derate (temperature self))
               (power_limit (fst (check_temperature (thermal_safety self)
                                                    (temperature self)))) /\
      (forall t, 45 < t -> temperature_derate t = Py.max 0.5 (1.0 - (t - 45) / 20)) /\
      (forall t, t < 0 -> temperature_derate t = Py.max 0.3 (1.0 + t / 20)) /\
      (forall t, 0 <= t <= 45 -> temperature_derate t = 1.0) /\
      cc_cv_taper 100 == 0.1.
Proof.
  intros self r dt (Hc & Hm & _) Hmc.
  destruct (apply_current_ok self r dt Hc Hm)
    as (v & p & self' & Heq & _ & _ & _ & _ & Hcur).
  exists (current self'), v, p, self'. split; [exact Heq|].
  pose proof (combined_limit_nonneg self) as HL.
  set (L := combined_limit self) in *.
  set (mc := max_charge_current (specs self)) in *.
  set (md := max_discharge_current (specs self)) in *.
  split; [|split; [|split; [reflexivity|]]].
  - intro Hr. assert (Er : (r >? 0) = true) by (apply Qltb_lt; exact Hr).
    rewrite Er in Hcur.
    destruct (cc_cv_taper_charging (soc self)) as [Htp Hteq].
    set (tp := cc_cv_taper (soc self)) in *.
    assert (Hprod : 0 <= L * mc * tp).
    { apply Qmult_le_0_compat; [apply Qmult_le_0_compat; assumption | lra]. }
    assert (Hb : exists B, current self' = Py.min r B /\ B == L * mc * tp).
    { destruct (soc self >? 80); eexists; (split; [exact Hcur|]).
      - rewrite Hteq. ring.
      - rewrite Hteq. ring. }
    destruct Hb as (B & -> & HB).
    destruct (min_cases r B) as [[Hlt ->]|[Hle ->]].
    + rewrite Qabs_pos; lra.
    + rewrite Qabs_pos; lra.
  - intro Hr. assert (Er : (r >? 0) = false) by (apply Qltb_ge; exact Hr).
    rewrite Er in Hcur. rewrite Hcur.
    assert (Hm' : Qabs (md * L) == L * Qabs md).
    { rewrite Qabs_Qmult, (Qabs_pos L) by exact HL. ring. }
    destruct (max_cases r (md * L)) as [[Hlt ->]|[Hle ->]].
    + rewrite Hm'. lra.
    + rewrite <- Hm'. rewrite (Qabs_neg r) by exact Hr.
      pose proof (Qle_Qabs (- (md * L))) as H1. rewrite Qabs_opp in H1. lra.
  - repeat split.
    + intros t Ht. unfold temperature_derate.
      assert (E : (t >? 45) = true) by (apply Qltb_lt; exact Ht). rewrite E. reflexivity.
    + intros t Ht. unfold temperature_derate.
      assert (E1 : (t >? 45) = false) by (apply Qltb_ge; lra).
      assert (E2 : (t <? 0) = true) by (apply Qltb_lt; exact Ht).
      rewrite E1, E2. reflexivity.
    + intros t Ht. unfold temperature_derate.
      assert (E1 : (t >? 45) = false) by (apply Qltb_ge; lra).
      assert (E2 : (t <? 0) = false) by (apply Qltb_ge; lra).
      rewrite E1, E2. reflexivity.
Qed.

Lemma actual_current_within_limits_witness :
  let self := battery_model.init VEH001 90.0 50.0 100.0 in
  exists actual v p self',
    apply_current self 500 1.0 = inr ((actual, v, p), self') /\
    (0 < 500 ->
     Qabs actual <= combined_limit self * max_charge_current (specs self)
                    * cc_cv_taper (soc self)) /\
    (500 <= 0 ->
     Qabs actual <= combined_limit self * Qabs (max_discharge_current (specs self))) /\
    combined_limit self =
      Py.min (temperature_derate (temperature self))
             (power_limit (fst (check_temperature (thermal_safety self)
                                                  (temperature self)))) /\
    (forall t, 45 < t -> temperature_derate t = Py.max 0.5 (1.0 - (t - 45) / 20)) /\
    (forall t, t < 0 -> temperature_derate t = Py.max 0.3 (1.0 + t / 20)) /\
    (forall t, 0 <= t <= 45 -> temperature_derate t = 1.0) /\
    cc_cv_taper 100 == 0.1.
Proof.
  apply (actual_current_within_limits (battery_model.init VEH001 90.0 50.0 100.0) 500 1.0).
  - apply init_VEH001_well_formed.
  - simpl. lra.
Defined.

End BatteryFacts.

(** ** CC-CV charging profile *)

Section ChargingFacts.

Import charging_patterns.

Variable np_exp : Q -> Q.
Variable self : ChargingPatternGenerator.
Variable charging_type : ChargingType.
Variables target_soc battery_capacity_kwh dt : Q.

Local Abbreviation sample :=
  (sample np_exp self charging_type target_soc battery_capacity_kwh dt).
Local Abbreviation samples_from :=
  (samples_from np_exp self charging_type target_soc battery_capacity_kwh dt).
Local Abbreviation nominal_current := (nominal_current np_exp charging_type target_soc dt).

Lemma nominal_current_same mc cv i a b :
  current_soc a = current_soc b -> completed a = completed b ->
  nominal_current mc cv i a = nominal_current mc cv i b.
Proof.
  intros H1 H2. unfold charging_patterns.nominal_current. rewrite H1, H2. reflexivity.
Qed.

Lemma sample_same mc cv i a b :
  same_charge a b -> Py.same_outcome same_charge (sample mc cv i a) (sample mc cv i b).
Proof.
  intros (H1 & H2 & H3 & H4). unfold charging_patterns.sample.
  rewrite (nominal_current_same mc cv i a b H1 H2).
  destruct (nominal_current mc cv i b) as [e|[c f]]; simpl; [reflexivity|].
  destruct (Py.div _ _) as [e|ratio]; simpl; [reflexivity|].
  destruct (add_variations c (np_random a)) as [c1 g1].
  destruct (add_variations c (np_random b)) as [c2 g2].
  simpl. unfold same_charge; simpl. rewrite H1, H3, !length_app, H4. auto.
Qed.

Lemma samples_from_same mc cv n : forall i a b,
  same_charge a b ->
  Py.same_outcome same_charge (samples_from mc cv n i a) (samples_from mc cv n i b).
Proof.
  induction n as [|n IH]; intros i a b Hab; simpl.
  - exact Hab.
  - pose proof (sample_same mc cv i a b Hab) as Hs.
    destruct (sample mc cv i a) as [e1|a1], (sample mc cv i b) as [e2|b1];
      simpl in *; try contradiction; [exact Hs|].
    apply IH, Hs.
Qed.

Hypothesis dt_nonzero : ~ dt == 0.
Hypothesis capacity_nonzero : ~ battery_capacity_kwh == 0.

(** One iteration returns.  It raises the flag exactly when the SoC it
    starts from has reached the target, and then it reports current 0 and
    leaves the SoC where it was (or at 100). *)
Lemma sample_ok mc cv i st :
  exists c s g,
    sample mc cv i st =
      inr {| current_soc := s;
             completed := if current_soc st >=? target_soc then true else completed st;
             current_profile := current_profile st ++ [c];
             soc_profile := soc_profile st ++ [s];
             np_random := g |} /\
    (target_soc <= current_soc st -> c = 0) /\
    (target_soc <= current_soc st -> target_soc <= 100 -> target_soc <= s).
Proof.
  assert (Hcap : ~ battery_capacity_kwh * 1000 == 0).
  { intro H. apply capacity_nonzero. lra. }
  unfold charging_patterns.sample, charging_patterns.nominal_current.
  destruct (current_soc st >=? target_soc) eqn:Ereach.
  - unfold Py.ret, Py.bind at 1. cbv beta iota.
    rewrite (div_nonzero _ _ Hcap). unfold Py.bind. cbv beta iota zeta.
    unfold add_variations.
    assert (E0 : (0 >? 0) = false) by reflexivity. rewrite E0.
    do 3 eexists. split; [reflexivity|]. split; [reflexivity|].
    intros Hr H100.
    match goal with |- _ <= Py.min ?a ?b =>
      destruct (min_cases a b) as [[_ ->]|[_ ->]] end.
    + lra.
    + match goal with |- _ <= _ + ?x / ?y * 100 =>
        assert (Hz : x / y == 0) by (field; exact capacity_nonzero) end.
      rewrite Hz. lra.
  - apply Qleb_gt in Ereach.
    destruct (current_soc st <? cv) eqn:Ecv.
    + rewrite (div_nonzero _ _ dt_nonzero). unfold Py.bind at 2. cbv beta iota.
      destruct (inject_Z i <? 10 / dt); unfold Py.ret, Py.bind at 1; cbv beta iota;
        rewrite (div_nonzero _ _ Hcap); unfold Py.bind; cbv beta iota zeta;
        match goal with |- context [add_variations ?c ?g] =>
          destruct (add_variations c g) as [c1 g1] end;
        do 3 eexists; (split; [reflexivity|]); split; intros; lra.
    + unfold Py.ret, Py.bind at 1. cbv beta iota zeta.
      rewrite (div_nonzero _ _ Hcap). unfold Py.bind. cbv beta iota zeta.
      match goal with |- context [add_variations ?c ?g] =>
        destruct (add_variations c g) as [c1 g1] end.
      do 3 eexists. split; [reflexivity|]. split; intros; lra.
Qed.

(** The loop returns; the flag, the reported currents and the recorded SoC
    values are related as follows, where the SoC a sample starts from is the
    value recorded by the sample before it (the loop's initial SoC for the
    first). *)
Lemma samples_from_ok mc cv n : forall i st,
  exists st' cs ss,
    samples_from mc cv n i st = inr st' /\
    current_profile st' = current_profile st ++ cs /\
    soc_profile st' = soc_profile st ++ ss /\
    length cs = n /\ length ss = n /\
    (completed st' = true <->
     completed st = true \/
     exists k s, (k < n)%nat /\ (current_soc st :: ss) !! k = Some s /\ target_soc <= s) /\
    (forall k s, (k < n)%nat -> (current_soc st :: ss) !! k = Some s ->
                 target_soc <= s -> cs !! k = Some 0) /\
    (target_soc <= 100 ->
     forall k s s', (current_soc st :: ss) !! k = Some s -> target_soc <= s ->
                    (current_soc st :: ss) !! S k = Some s' -> target_soc <= s').
Proof.
  induction n as [|n IH]; intros i st.
  - exists st, [], []. simpl. rewrite !app_nil_r.
    repeat split; try reflexivity.
    + intro H; left; exact H.
    + intros [H|(k & s & Hk & _)]; [exact H | lia].
    + intros k s Hk. lia.
    + intros _ k s s' _ _ H. destruct k; discriminate H.
  - destruct (sample_ok mc cv i st) as (c & s1 & g & Hs & Hc0 & Hmono).
    simpl. rewrite Hs. unfold Py.bind at 1. cbv beta iota.
    match goal with |- context [samples_from mc cv n _ ?st1] =>
      destruct (IH (i + 1)%Z st1) as (st' & cs & ss & Hrun & Hcp & Hsp & Hlc & Hls
                                      & Hflag & Hzero & Hstep) end.
    simpl in Hcp, Hsp, Hflag, Hzero, Hstep.
    exists st', (c :: cs), (s1 :: ss). split; [exact Hrun|].
    rewrite <- !app_assoc in Hcp, Hsp. simpl in Hcp, Hsp.
    split; [exact Hcp|]. split; [exact Hsp|].
    split; [simpl; lia|]. split; [simpl; lia|].
    split; [|split].
    + rewrite Hflag. split.
      * intros [H|(k & s & Hk & Hl & Ht)].
        -- destruct (current_soc st >=? target_soc) eqn:E.
           ++ right. exists 0%nat, (current_soc st). repeat split; [lia|].
              apply Qleb_le, E.
           ++ left; exact H.
        -- right. exists (S k), s. repeat split; [lia | exact Hl | exact Ht].
      * intros [H|(k & s & Hk & Hl & Ht)].
        -- left. rewrite H. destruct (_ >=? _); reflexivity.
        -- destruct k as [|k].
           ++ left. simpl in Hl. injection Hl as <-.
              apply Qleb_le in Ht. rewrite Ht. reflexivity.
           ++ right. exists k, s. repeat split; [lia | exact Hl | exact Ht].
    + intros k s Hk Hl Ht. destruct k as [|k].
      * simpl in Hl. injection Hl as <-. simpl. rewrite (Hc0 Ht). reflexivity.
      * simpl. apply (Hzero k s); [lia | exact Hl | exact Ht].
    + intros H100 k s s' Hl Ht Hl'. destruct k as [|k].
      * simpl in Hl, Hl'. injection Hl as <-. injection Hl' as <-.
        apply Hmono; assumption.
      * apply (Hstep H100 k s s'); assumption.
Qed.

Lemma reached_stays_reached (socs : list Q) :
  (forall k s s', socs !! k = Some s -> target_soc <= s ->
                  socs !! S k = Some s' -> target_soc <= s') ->
  forall d j s s', socs !! j = Some s -> target_soc <= s ->
                   socs !! (j + d)%nat = Some s' -> target_soc <= s'.
Proof.
  intros Hstep d. induction d as [|d IH]; intros j s s' Hj Hs Hjd.
  - rewrite Nat.add_0_r in Hjd. congruence.
  - replace (j + S d)%nat with (S (j + d)) in Hjd by lia.
    assert (Hlt : (j + d < length socs)%nat).
    { apply lookup_lt_Some in Hjd. lia. }
    destruct (lookup_lt_is_Some_2 socs (j + d) Hlt) as [s1 Hs1].
    apply (Hstep (j + d)%nat s1 s' Hs1); [|exact Hjd].
    apply (IH j s s1 Hj Hs Hs1).
Qed.

End ChargingFacts.

(** C7, as the code has it.  With a non-zero time step, battery voltage and
    capacity, [generate_cc_cv_profile] returns as many currents as SoCs, one
    of each per sample it ran; the statement counts the samples by the
    profile returned, whatever [int(duration_seconds / dt)] came to.  The
    flag is True exactly when some sample started from an SoC
    that had already reached the target: the initial SoC for the first
    sample, the SoC recorded by the sample before it for the others.  Every
    such sample reports current exactly 0.  For a target of at most 100,
    every sample strictly after one whose recorded SoC reached the target
    reports current exactly 0. *)
Theorem completed_flag_follows_previous_sample :
  forall (np_exp : Q -> Q) (self : charging_patterns.ChargingPatternGenerator)
         (charging_type : charging_patterns.ChargingType)
         (initial_soc target_soc battery_capacity_kwh : Q)
         (duration_seconds : Z) (dt : Q) (g : rng.Generator),
    ~ dt == 0 ->
    ~ charging_patterns.battery_voltage self == 0 ->
    ~ battery_capacity_kwh == 0 ->
    exists currents socs completed g',
      charging_patterns.generate_cc_cv_profile np_exp self charging_type
        target_soc battery_capacity_kwh dt initial_soc duration_seconds g
      = inr (currents, socs, completed, g') /\
      length currents = length socs /\
      (completed = true <->
       exists i s, (i < length socs)%nat /\ (initial_soc :: socs) !! i = Some s /\
                   target_soc <= s) /\
      (forall i s, (i < length socs)%nat -> (initial_soc :: socs) !! i = Some s ->
                   target_soc <= s -> currents !! i = Some 0) /\
      (target_soc <= 100 ->
       forall j i s, socs !! j = Some s -> target_soc <= s ->
                     (j < i < length socs)%nat -> currents !! i = Some 0).
Proof.
  intros np_exp self ct initial target cap duration dt g Hdt Hv Hcap.
  unfold charging_patterns.generate_cc_cv_profile.
  rewrite (div_nonzero _ _ Hdt). unfold Py.bind at 1. cbv beta iota zeta.
  rewrite (div_nonzero _ _ Hv). unfold Py.bind at 1. cbv beta iota.
  set (n := Z.to_nat (Py.int_of_float (inject_Z duration / dt))).
  match goal with |- context [charging_patterns.samples_from _ _ _ _ _ _ ?mc ?cv n ?i ?st] =>
    destruct (samples_from_ok np_exp self ct target cap dt Hdt Hcap mc cv n i st)
      as (st' & cs & ss & Hrun & Hcp & Hsp & Hlc & Hls & Hflag & Hzero & Hstep);
    rewrite Hrun
  end.
  unfold Py.bind, Py.ret. cbv beta iota.
  simpl in Hcp, Hsp, Hflag, Hzero, Hstep. rewrite Hcp, Hsp.
  do 4 eexists. split; [reflexivity|].
  rewrite Hls. split; [exact Hlc|]. split; [|split].
  - rewrite Hflag. split.
    + intros [H|H]; [discriminate H | exact H].
    + intro H; right; exact H.
  - exact Hzero.
  - intros H100 j i s Hj Hs Hji.
    assert (Hlt : (i < length (initial :: ss))%nat) by (simpl; lia).
    destruct (lookup_lt_is_Some_2 _ i Hlt) as [si Hsi].
    apply (Hzero i si); [lia | exact Hsi |].
    apply (reached_stays_reached target (initial :: ss) (Hstep H100)
             (i - S j)%nat (S j) s si); [exact Hj | exact Hs |].
    replace (S j + (i - S j))%nat with i by lia. exact Hsi.
Qed.

Lemma completed_flag_follows_previous_sample_witness :
  exists currents socs completed g',
    charging_patterns.generate_cc_cv_profile charging_patterns.exp_taylor
      {| charging_patterns.battery_voltage := 350.0 |} charging_patterns.AC_L2
      80.0 82.0 1.0 79.999 3 (rng.constant {| rng.bits := 2 ^ 52; rng.gauss := 0 |})
    = inr (currents, socs, completed, g') /\
    length currents = length socs /\
    (completed = true <->
     exists i s, (i < length socs)%nat /\ (79.999 :: socs) !! i = Some s /\ 80.0 <= s) /\
    (forall i s, (i < length socs)%nat -> (79.999 :: socs) !! i = Some s ->
                 80.0 <= s -> currents !! i = Some 0) /\
    (80.0 <= 100 ->
     forall j i s, socs !! j = Some s -> 80.0 <= s ->
                   (j < i < length socs)%nat -> currents !! i = Some 0).
Proof.
  apply (completed_flag_follows_previous_sample charging_patterns.exp_taylor
           {| charging_patterns.battery_voltage := 350.0 |} charging_patterns.AC_L2
           79.999 80.0 82.0 3 1.0
           (rng.constant {| rng.bits := 2 ^ 52; rng.gauss := 0 |}));
    intro H; discriminate H.
Defined.

(** C7, as the specification has it, fails on a three-second AC-L2 session
    from 79.999% to 80%: the SoC recorded by the last sample has reached the
    target, the flag is False, and that sample reports 44/7 A. *)
Lemma completion_as_specified_fails :
  exists currents socs completed g',
    charging_patterns.generate_cc_cv_profile charging_patterns.exp_taylor
      {| charging_patterns.battery_voltage := 350.0 |} charging_patterns.AC_L2
      80.0 82.0 1.0 79.999 3 (rng.constant {| rng.bits := 2 ^ 52; rng.gauss := 0 |})
    = inr (currents, socs, completed, g') /\
    completed = false /\
    (exists s, socs !! 2%nat = Some s /\ 80.0 <= s) /\
    (exists c, currents !! 2%nat = Some c /\ ~ c == 0) /\
    ~ charging_patterns.completion_as_specified 80.0 currents socs completed.
Proof.
  do 4 eexists. split; [vm_compute; reflexivity|].
  split; [reflexivity|]. split; [|split].
  - eexists. split; [reflexivity|]. vm_compute. discriminate.
  - eexists. split; [reflexivity|]. vm_compute. discriminate.
  - intros [Hiff _].
    assert (Hex : false = true); [|discriminate Hex].
    apply Hiff. exists 2%nat. eexists. split; [reflexivity|]. vm_compute. discriminate.
Qed.

(** C10.  The SoC profile and the completed flag that
    [generate_cc_cv_profile] returns do not depend on the noise: for the
    same arguments and any two states of the random generator, either both
    calls raise the same exception or both return, with the same SoC
    profile, the same flag and current profiles of the same length.  The
    reported currents do depend on it: there are two generator states for
    which the current profiles differ. *)
Theorem soc_profile_independent_of_noise :
  (forall (np_exp : Q -> Q) (self : charging_patterns.ChargingPatternGenerator)
          (charging_type : charging_patterns.ChargingType)
          (initial_soc target_soc battery_capacity_kwh : Q)
          (duration_seconds : Z) (dt : Q) (g1 g2 : rng.Generator),
      match charging_patterns.generate_cc_cv_profile np_exp self charging_type
              target_soc battery_capacity_kwh dt initial_soc duration_seconds g1,
            charging_patterns.generate_cc_cv_profile np_exp self charging_type
              target_soc battery_capacity_kwh dt initial_soc duration_seconds g2
      with
      | inr (currents1, socs1, completed1, _), inr (currents2, socs2, completed2, _) =>
          socs1 = socs2 /\ completed1 = completed2 /\
          length currents1 = length currents2
      | inl e1, inl e2 => e1 = e2
      | _, _ => False
      end) /\
  (exists g1 g2 currents1 currents2 socs completed g1' g2',
      charging_patterns.generate_cc_cv_profile charging_patterns.exp_taylor
        {| charging_patterns.battery_voltage := 350.0 |} charging_patterns.AC_L2
        80.0 82.0 1.0 50.0 3 g1 = inr (currents1, socs, completed, g1') /\
      charging_patterns.generate_cc_cv_profile charging_patterns.exp_taylor
        {| charging_patterns.battery_voltage := 350.0 |} charging_patterns.AC_L2
        80.0 82.0 1.0 50.0 3 g2 = inr (currents2, socs, completed, g2') /\
      currents1 <> currents2).
Proof.
  split.
  - intros. unfold charging_patterns.generate_cc_cv_profile.
    destruct (Py.div (inject_Z duration_seconds) dt) as [e|q]; simpl; [reflexivity|].
    destruct (Py.div _ (charging_patterns.battery_voltage self)) as [e|mc];
      simpl; [reflexivity|].
    match goal with
    | |- context [charging_patterns.samples_from _ _ _ _ _ _ ?mc ?cv ?n ?i ?a] =>
        match goal with
        | |- context [charging_patterns.samples_from _ _ _ _ _ _ mc cv n i ?b] =>
            lazymatch a with
            | b => fail
            | _ => pose proof (samples_from_same np_exp self charging_type target_soc
                                 battery_capacity_kwh dt mc cv n i a b) as H
            end
        end
    end.
    match type of H with ?P -> _ => assert (Hs : P) by (repeat split) end.
    specialize (H Hs). clear Hs.
    destruct (charging_patterns.samples_from _ _ _ _ _ _ _ _ _ _ _) as [e1|st1];
      destruct (charging_patterns.samples_from _ _ _ _ _ _ _ _ _ _ _) as [e2|st2];
      simpl in *; try contradiction; [exact H|].
    destruct H as (_ & H2 & H3 & H4). auto.
  - exists (rng.constant {| rng.bits := 2 ^ 52; rng.gauss := 0 |}),
           (rng.constant {| rng.bits := 2 ^ 52; rng.gauss := 1 |}).
    vm_compute. do 6 eexists. split; [reflexivity|]. split; [reflexivity|].
    intro H. discriminate H.
Qed.

(** ** Charging decision (frequency-governed) *)

Section ShouldChargeFacts.

Import user_profiles_v2.

Lemma count_charge_behavior self : behavior (count_charge self) = behavior self.
Proof. reflexivity. Qed.

(** What the opportunity block can return: the preferred target, or by day
    the capped partial target drawn between SoC + 15 and the preferred
    target. *)
Lemma opportunity_charging_cases self current_soc hour g :
  match opportunity_charging self current_soc hour g with
  | (inl (d, target, self'), g') =>
      d = true /\ behavior self' = behavior self /\
      (target = preferred_soc_target (behavior self) \/
       (inject_Z (_charges_this_week self) < base_charges_per_week (behavior self) /\
        (6 < hour < 22)%Z /\
        current_soc < preferred_soc_target (behavior self) * 0.7 /\
        fst (rng.random g) < opportunity_charging_probability (behavior self) /\
        target = Py.min (fst (rng.uniform (current_soc + 15)
                                          (preferred_soc_target (behavior self))
                                          (snd (rng.random g))))
                        95.0))
  | (inr self', g') => self' = self
  end.
Proof.
  unfold opportunity_charging.
  destruct (inject_Z (_charges_this_week self) <? _) eqn:Ebudget; [|reflexivity].
  destruct ((22 <=? hour) || (hour <=? 6))%Z eqn:Enight.
  - destruct (current_soc <? _); [|reflexivity].
    destruct (rng.random g) as [u g1]. destruct (u <? _); simpl; auto.
  - destruct (current_soc <? _) eqn:Esoc; [|reflexivity].
    destruct (rng.random g) as [u g1] eqn:Eu. destruct (u <? _) eqn:Edraw; [|reflexivity].
    change (fst (u, g1)) with u. change (snd (u, g1)) with g1.
    destruct (rng.uniform _ _ g1) as [target g2] eqn:Et.
    split; [reflexivity|]. split; [reflexivity|]. right.
    apply orb_false_iff in Enight. destruct Enight as [En1 En2].
    apply Z.leb_gt in En1, En2.
    apply Qltb_lt in Ebudget, Esoc, Edraw.
    repeat split; try assumption; try reflexivity; lia.
Qed.

(** C8, as the code has it.  Below 15% SoC the call returns
    (True, preferred target) whatever the counters, the hour and the day.
    When the day counter, incremented by the call, reaches 4 and the SoC is
    below 40%, the call returns True; its target is the preferred target,
    except when the daytime opportunity branch fires first (weekly budget
    not used up, hour from 7 to 21, SoC below 0.7 x the preferred target,
    draw below the opportunity probability): then the target is
    min(uniform(SoC + 15, preferred target), 95). *)
Theorem should_charge_safety_and_forced :
  forall (self : UserBehaviorSimulator) (current_soc : Q) (hour day_of_week : Z)
         (g : rng.Generator),
    let self0 := if (day_of_week =? 6)%Z then set_charges_this_week 0 self else self in
    let '(decision, target, _, _) :=
      should_charge self current_soc hour day_of_week g in
    (current_soc < 15 ->
     decision = true /\ target = preferred_soc_target (behavior self)) /\
    ((4 <= _days_since_last_charge self + 1)%Z -> current_soc < 40 ->
     decision = true /\
     (target = preferred_soc_target (behavior self) \/
      (inject_Z (_charges_this_week self0) < base_charges_per_week (behavior self) /\
       (6 < hour < 22)%Z /\
       current_soc < preferred_soc_target (behavior self) * 0.7 /\
       fst (rng.random g) < opportunity_charging_probability (behavior self) /\
       target = Py.min (fst (rng.uniform (current_soc + 15)
                                         (preferred_soc_target (behavior self))
                                         (snd (rng.random g))))
                       95.0))).
Proof.
  intros self current_soc hour day_of_week g self0.
  assert (Hb0 : behavior self0 = behavior self).
  { subst self0. destruct (day_of_week =? 6)%Z; reflexivity. }
  assert (Hd0 : _days_since_last_charge self0 = _days_since_last_charge self).
  { subst self0. destruct (day_of_week =? 6)%Z; reflexivity. }
  unfold should_charge. fold self0. cbv zeta.
  destruct (current_soc <? 15.0) eqn:E15.
  - rewrite Hb0. split; auto.
  - apply Qltb_ge in E15.
    destruct (current_soc <=? preferred_soc_min (behavior self0)) eqn:Emin.
    + destruct (inject_Z (_charges_this_week self0) <? _) eqn:Ebudget.
      * rewrite Hb0. split; [intro; lra | auto].
      * destruct (current_soc <? 20.0) eqn:E20.
        -- rewrite Hb0. split; [intro; lra | auto].
        -- pose proof (opportunity_charging_cases self0 current_soc hour g) as Hopp.
           unfold opportunity_charging in Hopp |- *. rewrite Ebudget in Hopp |- *.
           cbv beta iota.
           destruct ((_ >=? 4)%Z && _)%bool eqn:Eforce.
           ++ rewrite Hb0. split; [intro; lra | auto].
           ++ split; [intro; lra|]. intros Hdays Hsoc. exfalso.
              apply andb_false_iff in Eforce. simpl in Eforce. rewrite Hd0 in Eforce.
              destruct Eforce as [Ed|Es].
              ** rewrite Z.geb_leb in Ed. apply Z.leb_gt in Ed. lia.
              ** apply Qltb_ge in Es. lra.
    + pose proof (opportunity_charging_cases self0 current_soc hour g) as Hopp.
      destruct (opportunity_charging self0 current_soc hour g) as [[[[d t] self1]|self1] g1].
      * destruct Hopp as (-> & _ & Ht). rewrite Hb0 in Ht.
        split; [intro; lra|]. intros _ _. split; [reflexivity | exact Ht].
      * subst self1. destruct ((_ >=? 4)%Z && _)%bool eqn:Eforce.
        -- rewrite Hb0. split; [intro; lra | auto].
        -- split; [intro; lra|]. intros Hdays Hsoc. exfalso.
           apply andb_false_iff in Eforce. simpl in Eforce. rewrite Hd0 in Eforce.
           destruct Eforce as [Ed|Es].
           ++ rewrite Z.geb_leb in Ed. apply Z.leb_gt in Ed. lia.
           ++ apply Qltb_ge in Es. lra.
Qed.

(** C8, as the specification has it, fails at noon for a driver at 30% SoC
    who last charged 4 days ago and has charges left this week: the daytime
    opportunity branch returns the target 45, not the preferred 85. *)
Lemma forced_charge_target_not_preferred :
  let self := set_days_since_last_charge 4 (user_profiles_v2.init COMMON_DRIVER) in
  let g := rng.constant {| rng.bits := 0; rng.gauss := 0 |} in
  (exists target,
      fst (fst (should_charge self 30 12 0 g)) = (true, target) /\
      target == 45 /\ ~ target == preferred_soc_target (behavior self)) /\
  ~ forced_charge_as_specified self 30 12 0 g.
Proof.
  split.
  - eexists. split; [vm_compute; reflexivity|]. split.
    + vm_compute. reflexivity.
    + vm_compute. discriminate.
  - unfold forced_charge_as_specified. intro H.
    assert (Hd : (4 <= 4)%Z) by lia. assert (Hs : 30 < 40) by lra.
    specialize (H Hd Hs). vm_compute in H. discriminate H.
Qed.

End ShouldChargeFacts.

(** ** Anomaly injection *)

Section AnomalyFacts.

Import anomaly_generator.

Variable np_exp : Q -> Q.

Lemma getitem_beyond {A} (xs : list A) (i : Z) :
  (Z.of_nat (length xs) <= i)%Z -> Pylist.getitem xs i = inl Py.IndexError.
Proof.
  intro H. unfold Pylist.getitem, Pylist.position.
  assert (E1 : (i <? 0)%Z = false) by (apply Z.ltb_ge; lia). rewrite E1.
  assert (E2 : (Z.of_nat (length xs) <=? i)%Z = true) by (apply Z.leb_le; lia).
  rewrite E1, E2. reflexivity.
Qed.

Lemma inject_one_beyond base_data kind key xs start_idx params st env :
  reads_series kind key ->
  base_data !! key = Some xs ->
  (Z.of_nat (length xs) <= start_idx)%Z ->
  inject_one np_exp base_data (kind, start_idx, params) st env = inl Py.IndexError.
Proof.
  intros [[-> ->]|[-> ->]] Hxs Hidx; unfold inject_one; simpl String.eqb; cbv iota;
    unfold world.bind at 1; unfold world.bind at 1; unfold world.bind at 1;
    unfold world.lift at 1, series; rewrite Hxs; unfold Py.ret;
    unfold world.bind at 1; unfold world.lift at 1;
    rewrite (getitem_beyond xs start_idx Hidx); reflexivity.
Qed.

(** A loop whose body appends one value to its list appends one value per
    element. *)
Lemma for_each_appends {A} (body : A -> list Q -> world.M (list Q)) :
  (forall x s env, exists v env', body x s env = inr (s ++ [v], env')) ->
  forall xs s env,
    exists vs env',
      Pylist.for_each xs body s env = inr (s ++ vs, env') /\ length vs = length xs.
Proof.
  intros Hbody xs. induction xs as [|x xs IH]; intros s env; simpl.
  - exists [], env. rewrite app_nil_r. split; reflexivity.
  - unfold world.bind. destruct (Hbody x s env) as (v & env1 & ->).
    destruct (IH (s ++ [v]) env1) as (vs & env2 & -> & Hlen).
    exists (v :: vs), env2. rewrite <- app_assoc. simpl. split; [reflexivity | lia].
Qed.

Lemma range_length (n : Z) : length (Pylist.range n) = Z.to_nat n.
Proof. unfold Pylist.range. rewrite length_map, length_seq. reflexivity. Qed.

Lemma getitem_last (xs : list Q) :
  xs <> [] -> exists x, Pylist.getitem xs (-1) = inr x.
Proof.
  intro Hne. unfold Pylist.getitem, Pylist.position.
  assert (Hlen : (0 < length xs)%nat) by (destruct xs; [contradiction | simpl; lia]).
  assert (E1 : (-1 <? 0)%Z = true) by reflexivity. rewrite E1.
  assert (E2 : ((-1 + Z.of_nat (length xs) <? 0)
                || (Z.of_nat (length xs) <=? -1 + Z.of_nat (length xs)))%Z = false).
  { apply orb_false_iff. split; [apply Z.ltb_ge | apply Z.leb_gt]; lia. }
  rewrite E2. unfold Py.ret, Py.bind.
  destruct (lookup_lt_is_Some_2 xs (Z.to_nat (-1 + Z.of_nat (length xs)))) as [x Hx];
    [lia|].
  rewrite Hx. exists x. reflexivity.
Qed.

(** A thermal event of at least two seconds and of a known severity is
    generated without error; its profile has one value per second. *)
Lemma generate_thermal_event_ok normal_temp duration_seconds severity env :
  (2 <= duration_seconds)%Z ->
  In severity ["low"; "medium"; "high"; "critical"] ->
  exists temp_profile e env',
    generate_thermal_event np_exp normal_temp duration_seconds severity env
    = inr ((temp_profile, e), env') /\
    length temp_profile = Z.to_nat duration_seconds /\
    event_type e = "thermal_event".
Proof.
  intros Hd Hsev. unfold generate_thermal_event.
  assert (Hp : exists rate text peak,
             severity_params normal_temp severity = inr (rate, text, peak)).
  { simpl in Hsev. destruct Hsev as [<-|[<-|[<-|[<-|[]]]]]; do 3 eexists; reflexivity. }
  destruct Hp as (rate & text & peak & Hp).
  unfold world.bind at 1. unfold world.lift at 1. rewrite Hp.
  unfold world.bind at 1.
  match goal with |- context [Pylist.for_each ?ts ?body [] env] =>
    destruct (for_each_appends body) with (xs := ts) (s := @nil Q) (env := env)
      as (rise & env1 & Hrise & Hlen1)
  end.
  { intros t s env0. unfold world.bind, world.np.
    destruct (rng.normal 0 0.05 (world.np_random env0)) as [n g]. simpl.
    do 2 eexists. reflexivity. }
  rewrite Hrise. simpl app. rewrite range_length in Hlen1.
  assert (Hrise_pos : (1 <= duration_seconds / 2)%Z).
  { apply Z.div_le_lower_bound; lia. }
  destruct (getitem_last rise) as [peak_temp Hpeak].
  { intros ->. simpl in Hlen1. lia. }
  unfold world.bind at 1. unfold world.lift at 1. rewrite Hpeak.
  unfold world.bind at 1.
  match goal with |- context [Pylist.for_each ?ts ?body rise env1] =>
    destruct (for_each_appends body) with (xs := ts) (s := rise) (env := env1)
      as (fall & env2 & Hfall & Hlen2)
  end.
  { intros t s env0. unfold world.bind, world.np.
    destruct (rng.normal 0 1 (world.np_random env0)) as [n g]. simpl.
    do 2 eexists. reflexivity. }
  rewrite Hfall. rewrite range_length in Hlen2.
  unfold world.bind, world.now, world.ret. simpl.
  do 3 eexists. split; [reflexivity|]. split; [|reflexivity].
  rewrite length_app, Hlen1, Hlen2.
  assert (Hhalf : (duration_seconds / 2 <= duration_seconds)%Z).
  { apply Z.div_le_upper_bound; lia. }
  lia.
Qed.

(** The guarded writes of a profile that starts inside the series: the
    series keeps its length and its samples before the start. *)
Lemma overlay_truncates key values : forall start_idx i data xs,
  data !! key = Some xs ->
  (0 <= start_idx)%Z -> (0 <= i)%Z ->
  exists xs',
    overlay key start_idx i values data = inr (<[key := xs']> data) /\
    length xs' = length xs /\
    forall j, (Z.of_nat j < start_idx)%Z -> xs' !! j = xs !! j.
Proof.
  induction values as [|v values IH]; intros start_idx i data xs Hxs Hs Hi; simpl.
  - exists xs. rewrite insert_id by exact Hxs. repeat split.
  - unfold series. rewrite Hxs. unfold Py.ret, Py.bind at 1. cbv beta iota.
    destruct (start_idx + i <? Z.of_nat (length xs))%Z eqn:Ein.
    + apply Z.ltb_lt in Ein.
      unfold Pylist.setitem, Pylist.position.
      assert (E1 : (start_idx + i <? 0)%Z = false) by (apply Z.ltb_ge; lia).
      assert (E2 : ((start_idx + i <? 0)
                    || (Z.of_nat (length xs) <=? start_idx + i))%Z = false).
      { apply orb_false_iff. split; [exact E1 | apply Z.leb_gt; lia]. }
      rewrite E1, E2. unfold Py.ret, Py.bind. cbv beta iota.
      set (xs1 := <[Z.to_nat (start_idx + i) := v]> xs).
      destruct (IH start_idx (i + 1)%Z (<[key := xs1]> data) xs1)
        as (xs' & Hrun & Hlen & Hpre); [apply lookup_insert_eq | lia | lia |].
      exists xs'. rewrite Hrun, insert_insert_eq. split; [reflexivity|].
      split; [rewrite Hlen; subst xs1; apply length_insert|].
      intros j Hj. rewrite (Hpre j Hj). subst xs1.
      apply list_lookup_insert_ne. lia.
    + unfold Py.bind. cbv beta iota.
      apply (IH start_idx (i + 1)%Z data xs Hxs); lia.
Qed.

(** What the guard of the write loop is for: a thermal request that starts
    inside the temperature series completes even when its profile runs past
    the end; the event is returned and the series keeps its length and its
    samples before the start. *)
Lemma thermal_overlay_is_truncated base_data xs start_idx d sev g dt env :
  base_data !! "temperature" = Some xs ->
  (0 <= start_idx < Z.of_nat (length xs))%Z ->
  (2 <= d)%Z ->
  In sev ["low"; "medium"; "high"; "critical"] ->
  exists xs' e env',
    inject_anomalies np_exp base_data
      [("thermal", start_idx,
        {| duration := Some d; severity_param := Some sev; glitch_type_param := g |})]
      dt env
    = inr ((<["temperature" := xs']> base_data, [e]), env') /\
    event_type e = "thermal_event" /\
    length xs' = length xs /\
    forall j, (Z.of_nat j < start_idx)%Z -> xs' !! j = xs !! j.
Proof.
  intros Hxs Hidx Hd Hsev.
  unfold inject_anomalies. cbn [Pylist.for_each]. unfold world.bind at 1.
  unfold world.bind at 1. unfold inject_one. simpl String.eqb. cbv iota.
  unfold world.bind at 1. unfold world.bind at 1. unfold world.lift at 1, series.
  rewrite Hxs. unfold Py.ret.
  assert (Hget : exists x, Pylist.getitem xs start_idx = inr x).
  { unfold Pylist.getitem, Pylist.position.
    assert (E1 : (start_idx <? 0)%Z = false) by (apply Z.ltb_ge; lia).
    assert (E2 : ((start_idx <? 0) || (Z.of_nat (length xs) <=? start_idx))%Z = false).
    { apply orb_false_iff. split; [exact E1 | apply Z.leb_gt; lia]. }
    rewrite E1, E2. unfold Py.ret, Py.bind.
    destruct (lookup_lt_is_Some_2 xs (Z.to_nat start_idx)) as [x Hx]; [lia|].
    rewrite Hx. exists x. reflexivity. }
  destruct Hget as [normal_temp Hget].
  unfold world.bind at 1. unfold world.lift at 1. rewrite Hget.
  unfold world.bind at 1. simpl default.
  destruct (generate_thermal_event_ok normal_temp d sev env Hd Hsev)
    as (profile & e & env1 & Hgen & _ & Hty).
  rewrite Hgen.
  destruct (overlay_truncates "temperature" profile start_idx 0 base_data xs Hxs)
    as (xs' & Hov & Hlen & Hpre); [lia | lia |].
  unfold world.bind at 1. unfold world.lift at 1. simpl modified_data. rewrite Hov.
  unfold world.ret, world.bind. simpl.
  exists xs', e, env1. repeat split; assumption.
Qed.

(** C3 on the code.  A thermal (sensor-glitch) request whose start index is
    at or beyond the length of the temperature (voltage) series makes
    [inject_anomalies] raise IndexError, when it is the first request and
    so whenever the requests before it complete: [base_data[...][start_idx]]
    is read before any guard.  No event is returned. *)
Theorem out_of_range_start_raises :
  forall (base_data : gmap string (list Q)) (kind key : string) (xs : list Q)
         (start_idx : Z) (params : Params) (rest : list (string * Z * Params))
         (dt : Q) (env : world.Env),
    reads_series kind key ->
    base_data !! key = Some xs ->
    (Z.of_nat (length xs) <= start_idx)%Z ->
    inject_anomalies np_exp base_data ((kind, start_idx, params) :: rest) dt env
    = inl Py.IndexError.
Proof.
  intros base_data kind key xs start_idx params rest dt env Hk Hxs Hidx.
  unfold inject_anomalies. cbn [Pylist.for_each]. unfold world.bind.
  rewrite (inject_one_beyond base_data kind key xs start_idx params _ env Hk Hxs Hidx).
  reflexivity.
Qed.

End AnomalyFacts.

Lemma out_of_range_start_raises_witness :
  let base_data : gmap string (list Q) :=
    <["temperature" := [25.0; 25.5; 26.0]]> (<["voltage" := [380.0; 379.5; 379.0]]> ∅) in
  let env := {| world.np_random := rng.constant {| rng.bits := 0; rng.gauss := 0 |};
                world.py_random := rng.constant {| rng.bits := 0; rng.gauss := 0 |};
                world.clock := {| world.readings := fun _ => 0%Z; world.reads := 0 |} |} in
  anomaly_generator.inject_anomalies charging_patterns.exp_taylor base_data
    [("thermal", 3%Z,
      {| anomaly_generator.duration := None;
         anomaly_generator.severity_param := None;
         anomaly_generator.glitch_type_param := None |})] 1.0 env
  = inl Py.IndexError.
Proof.
  intros base_data env.
  apply (out_of_range_start_raises charging_patterns.exp_taylor base_data
           "thermal" "temperature" [25.0; 25.5; 26.0] 3%Z _ [] 1.0 env).
  - left. split; reflexivity.
  - reflexivity.
  - simpl. lia.
Defined.

(** The same call does not do what the specification says of it. *)
Lemma out_of_range_not_as_specified :
  ~ anomaly_generator.out_of_range_as_specified charging_patterns.exp_taylor
      (<["temperature" := [25.0; 25.5; 26.0]]> (<["voltage" := [380.0; 379.5; 379.0]]> ∅))
      ("thermal", 3%Z,
       {| anomaly_generator.duration := None;
          anomaly_generator.severity_param := None;
          anomaly_generator.glitch_type_param := None |})
      1.0
      {| world.np_random := rng.constant {| rng.bits := 0; rng.gauss := 0 |};
         world.py_random := rng.constant {| rng.bits := 0; rng.gauss := 0 |};
         world.clock := {| world.readings := fun _ => 0%Z; world.reads := 0 |} |}.
Proof.
  intros (e & env' & H). vm_compute in H. discriminate H.
Qed.

(** ** Reproducibility of a run *)

Section RunFacts.

Import simulator.

Lemma bind_inr {A B} (m : world.M A) (k : A -> world.M B) env b env' :
  world.bind m k env = inr (b, env') ->
  exists a env1, m env = inr (a, env1) /\ k a env1 = inr (b, env').
Proof.
  unfold world.bind. destruct (m env) as [e|[a env1]]; [discriminate|].
  intro H. exists a, env1. split; [reflexivity | exact H].
Qed.

Lemma lift_inr {A} (r : Py.Res A) env a env' :
  world.lift r env = inr (a, env') -> r = inr a /\ env' = env.
Proof.
  unfold world.lift. destruct r as [e|a0]; [discriminate|].
  intro H. injection H as -> ->. split; reflexivity.
Qed.

Lemma ret_inr {A} (x : A) env a env' :
  world.ret x env = inr (a, env') -> a = x /\ env' = env.
Proof. unfold world.ret. intro H. injection H as -> ->. split; reflexivity. Qed.

(** A loop whose body, when it returns, leaves the state related to the
    one it started from leaves it so as a whole. *)
Lemma for_each_related {A S} (R : S -> S -> Prop) (body : A -> S -> world.M S) :
  (forall s, R s s) -> (forall a b c, R a b -> R b c -> R a c) ->
  (forall x s env s' env', body x s env = inr (s', env') -> R s s') ->
  forall xs s env s' env',
    Pylist.for_each xs body s env = inr (s', env') -> R s s'.
Proof.
  intros Hrefl Htrans Hbody xs. induction xs as [|x xs IH]; intros s env s' env' H.
  - apply ret_inr in H. destruct H as [-> _]. apply Hrefl.
  - simpl in H. apply bind_inr in H. destruct H as (s1 & env1 & H1 & H2).
    apply (Htrans s s1 s'); [apply (Hbody x s env s1 env1 H1) | apply (IH s1 env1 s' env' H2)].
Qed.

(** Seeding forgets the state the generators were in. *)
Lemma user_behavior_init_seeded p s env1 env2 :
  s <> 0%Z ->
  world.clock env1 = world.clock env2 ->
  rng.algorithm (world.np_random env1) = rng.algorithm (world.np_random env2) ->
  rng.algorithm (world.py_random env1) = rng.algorithm (world.py_random env2) ->
  user_profiles.init p (Some s) env1 = user_profiles.init p (Some s) env2.
Proof.
  intros Hs Hc Hnp Hpy. unfold user_profiles.init, world.truthy.
  apply Z.eqb_neq in Hs. rewrite Hs.
  unfold world.bind, world.py_seed, world.np_seed, world.ret, rng.seed. simpl.
  rewrite Hc, Hnp, Hpy. reflexivity.
Qed.

Lemma init_seeded vehicle_id p s env1 env2 :
  s <> 0%Z ->
  world.clock env1 = world.clock env2 ->
  rng.algorithm (world.np_random env1) = rng.algorithm (world.np_random env2) ->
  rng.algorithm (world.py_random env1) = rng.algorithm (world.py_random env2) ->
  simulator.init vehicle_id (Some p) (Some s) env1
  = simulator.init vehicle_id (Some p) (Some s) env2.
Proof.
  intros Hs Hc Hnp Hpy. unfold simulator.init.
  destruct (battery_model.VEHICLE_SPECS !! vehicle_id) as [sp|]; [|reflexivity].
  unfold world.bind at 1. unfold world.ret at 1. unfold world.ret at 3.
  unfold world.bind at 1. unfold world.bind at 5.
  rewrite (user_behavior_init_seeded p s env1 env2 Hs Hc Hnp Hpy). reflexivity.
Qed.

(** C4, as the code has it.  For a seed other than 0, a given user profile
    and any vehicle id and day count, two executions of [run_simulation] that
    read the same wall-clock times (and run the same generator algorithms)
    have the same outcome, whatever state their random generators were in:
    the same exception, or the same telemetry and event frames. *)
Theorem run_simulation_reproducible_given_clock :
  forall (np_exp np_sin : Q -> Q) (np_pi : Q) (vehicle_id : string) (days : Z)
         (user_profile : user_profiles.UserProfile) (include_anomalies : bool)
         (seed : Z) (env1 env2 : world.Env),
    seed <> 0%Z ->
    world.clock env1 = world.clock env2 ->
    rng.algorithm (world.np_random env1) = rng.algorithm (world.np_random env2) ->
    rng.algorithm (world.py_random env1) = rng.algorithm (world.py_random env2) ->
    run_simulation np_exp np_sin np_pi vehicle_id days (Some user_profile)
                   include_anomalies (Some seed) env1
    = run_simulation np_exp np_sin np_pi vehicle_id days (Some user_profile)
                     include_anomalies (Some seed) env2.
Proof.
  intros np_exp np_sin np_pi vehicle_id days p incl s env1 env2 Hs Hc Hnp Hpy.
  unfold run_simulation. unfold world.bind at 1. unfold world.bind at 3.
  rewrite (init_seeded vehicle_id p s env1 env2 Hs Hc Hnp Hpy). reflexivity.
Qed.

Lemma run_simulation_reproducible_given_clock_witness :
  run_simulation charging_patterns.exp_taylor sin_taylor pi_approx "VEH001" 1
                 (Some user_profiles.CAUTIOUS) true (Some 42%Z) env_day0
  = run_simulation charging_patterns.exp_taylor sin_taylor pi_approx "VEH001" 1
                   (Some user_profiles.CAUTIOUS) true (Some 42%Z)
                   {| world.np_random :=
                        {| rng.algorithm := rng.algorithm steady;
                           rng.stream := fun _ => {| rng.bits := 7; rng.gauss := 1 |};
                           rng.position := 5 |};
                      world.py_random := snd (rng.next steady);
                      world.clock := world.clock env_day0 |}.
Proof.
  apply (run_simulation_reproducible_given_clock
           charging_patterns.exp_taylor sin_taylor pi_approx "VEH001" 1
           user_profiles.CAUTIOUS true 42%Z).
  - discriminate.
  - reflexivity.
  - reflexivity.
  - reflexivity.
Defined.

(** The seed 0 counts as no seed: construction leaves both generators in
    the state the environment had them in. *)
Lemma VEH001_known : battery_model.VEHICLE_SPECS !! "VEH001" = Some battery_model.VEH001.
Proof. vm_compute. reflexivity. Qed.

Lemma init_with_seed_zero_does_not_seed p env :
  exists self env',
    simulator.init "VEH001" (Some p) (Some 0%Z) env = inr (self, env') /\
    world.np_random env' = world.np_random env /\
    world.py_random env' = world.py_random env.
Proof.
  unfold simulator.init. rewrite VEH001_known.
  unfold world.bind, world.ret, user_profiles.init, driving_patterns.init,
    anomaly_generator.init, set_random_seeds, world.truthy, world.now. simpl.
  do 2 eexists. split; [reflexivity|]. split; reflexivity.
Qed.

Ltac invert_bind H :=
  let a := fresh "a" in
  let env := fresh "env" in
  let Ha := fresh "Ha" in
  apply bind_inr in H; destruct H as (a & env & Ha & H).

Lemma create_record_time self ts env r env' :
  _create_telemetry_record self ts env = inr (r, env') -> time r = ts.
Proof.
  unfold _create_telemetry_record. intro H.
  do 4 invert_bind H. apply ret_inr in H. destruct H as [-> _]. reflexivity.
Qed.

(** One sample appends one record, stamped with the simulated time. *)
Lemma step_appends dt c mark st env st' env' :
  (forall r, time (mark r) = time r) ->
  step dt c mark st env = inr (st', env') ->
  exists r, telemetry_records st' = telemetry_records st ++ [r] /\ time r = day_time st.
Proof.
  intros Hmark H. unfold step in H. invert_bind H. destruct a as [out b].
  invert_bind H. apply ret_inr in H. destruct H as [-> _]. simpl.
  exists (mark a). split; [reflexivity|]. rewrite Hmark.
  apply (create_record_time _ _ _ _ _ Ha0).
Qed.

(** "The records of [b] are those of [a] followed by more". *)
Lemma extends_by_loop {A} (body : A -> Day -> world.M Day) :
  (forall x st env st' env', body x st env = inr (st', env') ->
     exists more, telemetry_records st' = telemetry_records st ++ more) ->
  forall xs st env st' env',
    Pylist.for_each xs body st env = inr (st', env') ->
    exists more, telemetry_records st' = telemetry_records st ++ more.
Proof.
  intro Hbody.
  apply (for_each_related
           (fun a b => exists more, telemetry_records b = telemetry_records a ++ more)).
  - intro st. exists []. rewrite app_nil_r. reflexivity.
  - intros a b c [m1 H1] [m2 H2]. exists (m1 ++ m2). rewrite H2, H1, app_assoc. reflexivity.
  - exact Hbody.
Qed.

Lemma samples_extend dt (currents : list Q) (mark : Q -> TelemetryRecord -> TelemetryRecord)
    st env st' env' :
  (forall c r, time (mark c r) = time r) ->
  Pylist.for_each currents (fun c => step dt c (mark c)) st env = inr (st', env') ->
  exists more, telemetry_records st' = telemetry_records st ++ more.
Proof.
  intros Hmark. apply extends_by_loop. intros c s e s' e' H.
  destruct (step_appends dt c (mark c) s e s' e' (Hmark c) H) as (r & Hr & _).
  exists [r]. exact Hr.
Qed.

(** Every activity only appends records. *)
Lemma run_activity_extends np_exp profile dt activity st env st' env' :
  run_activity np_exp profile dt activity st env = inr (st', env') ->
  exists more, telemetry_records st' = telemetry_records st ++ more.
Proof.
  unfold run_activity. intro H. do 2 invert_bind H.
  destruct (type activity).
  - apply (extends_by_loop (fun _ => step dt 0 (fun r => r))) in H; [exact H|].
    intros x s e s' e' Hs.
    destruct (step_appends dt 0 (fun r => r) s e s' e' (fun r => eq_refl) Hs) as (r & Hr & _).
    exists [r]. exact Hr.
  - invert_bind H.
    apply (samples_extend dt _ (fun c => set_driving (Qabs c * 0.5))) in H; [exact H|].
    reflexivity.
  - invert_bind H. destruct a1 as [[currents socs] flag].
    apply (samples_extend dt _ (fun c => set_is_charging (c >? 0))) in H; [exact H|].
    reflexivity.
Qed.

Lemma randint_range a b g k g' :
  rng.randint a b g = inr (k, g') -> (a <= k <= b)%Z.
Proof.
  unfold rng.randint. destruct (b <? a)%Z eqn:E; [discriminate|].
  apply Z.ltb_ge in E. unfold rng.randbelow.
  destruct (rng.next g) as [d g1]. intro H. injection H as <- _.
  pose proof (Z.mod_pos_bound (rng.bits d) (b - a + 1)) as Hm. lia.
Qed.

Lemma py_res_inr {A} (f : rng.Generator -> Py.Res (A * rng.Generator)) env a env' :
  world.py_res f env = inr (a, env') ->
  exists g, f (world.py_random env) = inr (a, g).
Proof.
  unfold world.py_res. destruct (f (world.py_random env)) as [e|[a0 g]]; [discriminate|].
  intro H. injection H as -> _. exists g. reflexivity.
Qed.

Ltac compute_bounds H :=
  match type of H with
  | (?lo <= _ <= ?hi)%Z =>
      let lo' := eval vm_compute in lo in
      let hi' := eval vm_compute in hi in
      change hi with hi' in H; change lo with lo' in H
  end.

(** The cautious driver wakes between 6:30 and 7:39. *)
Lemma cautious_wake_hour is_weekend env t env' :
  user_profiles.get_wake_time {| user_profiles.profile := user_profiles.CAUTIOUS;
                   user_profiles.behavior :=
                     user_profiles.USER_PROFILES user_profiles.CAUTIOUS |}
                is_weekend env = inr (t, env') ->
  world.hour t = 6%Z \/ world.hour t = 7%Z.
Proof.
  unfold user_profiles.get_wake_time. destruct is_weekend; simpl; intro H;
    invert_bind H; apply ret_inr in H; destruct H as [-> _]; simpl;
    apply py_res_inr in Ha; destruct Ha as [g Hg];
    apply randint_range in Hg; compute_bounds Hg.
  - right. assert (E : (a / 60 = 7)%Z).
    { symmetry. apply (Z.div_unique a 60 7 (a - 420)); lia. }
    rewrite E. reflexivity.
  - left. assert (E : (a / 60 = 6)%Z).
    { symmetry. apply (Z.div_unique a 60 6 (a - 360)); lia. }
    rewrite E. reflexivity.
Qed.

(** The schedule of a cautious driver opens with six or seven idle hours. *)
Lemma cautious_schedule_head self is_weekend env schedule env' :
  user_behavior self =
    {| user_profiles.profile := user_profiles.CAUTIOUS;
       user_profiles.behavior := user_profiles.USER_PROFILES user_profiles.CAUTIOUS |} ->
  _generate_daily_schedule self is_weekend env = inr (schedule, env') ->
  exists h rest,
    schedule = idle_for (world.hours (inject_Z h)) :: rest /\ (h = 6%Z \/ h = 7%Z).
Proof.
  intros Hub H. unfold _generate_daily_schedule in H. rewrite Hub in H.
  invert_bind H. apply cautious_wake_hour in Ha. rename a into wake_time.
  invert_bind H. rename a into day.
  invert_bind H. invert_bind H. destruct a0 as [charge target].
  invert_bind H. rename a0 into schedule1.
  assert (Hhead : exists rest,
             schedule1 = idle_for (world.hours (inject_Z (world.hour wake_time))) :: rest).
  { destruct charge.
    - do 4 invert_bind Ha3. apply ret_inr in Ha3. destruct Ha3 as [-> _].
      eexists. reflexivity.
    - apply ret_inr in Ha3. destruct Ha3 as [-> _]. eexists. reflexivity. }
  destruct Hhead as [rest ->].
  destruct (_ <? _)%Z; apply ret_inr in H; destruct H as [-> _];
    do 2 eexists; (split; [reflexivity | exact Ha]).
Qed.

Lemma range_cons n : (1 <= n)%Z -> exists rest, Pylist.range n = 0%Z :: rest.
Proof.
  intro H. unfold Pylist.range.
  destruct (Z.to_nat n) as [|k] eqn:E; [lia|].
  simpl. eexists. reflexivity.
Qed.

(** Six or seven idle hours at one sample per second: the first record of
    the block is stamped with the time the block starts at. *)
Lemma idle_block_first_record np_exp profile h st env st' env' :
  h = 6%Z \/ h = 7%Z ->
  run_activity np_exp profile 1.0 (idle_for (world.hours (inject_Z h))) st env
  = inr (st', env') ->
  exists r more,
    telemetry_records st' = telemetry_records st ++ r :: more /\ time r = day_time st.
Proof.
  intros Hh H. unfold run_activity in H.
  invert_bind H. apply lift_inr in Ha. destruct Ha as [Ha ->].
  invert_bind H. cbn [type idle_for] in H.
  assert (Hn : (1 <= Py.int_of_float a)%Z).
  { destruct Hh as [-> | ->]; vm_compute in Ha; injection Ha as <-; vm_compute;
      discriminate. }
  destruct (range_cons _ Hn) as [rest Hrange]. rewrite Hrange in H.
  cbn [Pylist.for_each] in H. invert_bind H.
  destruct (step_appends _ _ _ _ _ _ _ (fun r => eq_refl) Ha1) as (r & Hr & Ht).
  apply (extends_by_loop (fun _ => step 1.0 0 (fun r => r))) in H.
  - destruct H as [more Hmore]. exists r, more. rewrite Hmore, Hr.
    simpl in *. rewrite <- app_assoc. split; [reflexivity | exact Ht].
  - intros x s e s' e' Hs.
    destruct (step_appends _ _ _ _ _ _ _ (fun r => eq_refl) Hs) as (r' & Hr' & _).
    exists [r']. exact Hr'.
Qed.

(** Overlaying values on records changes no time stamp. *)
Lemma splice_times change values : forall idx i records records',
  (forall v r, time (change v r) = time r) ->
  splice change idx i values records = inr records' ->
  map time records' = map time records.
Proof.
  induction values as [|v values IH]; intros idx i records records' Hch H; simpl in H.
  - injection H as <-. reflexivity.
  - destruct (idx + i <? Z.of_nat (length records))%Z.
    + unfold Py.bind in H.
      destruct (Pylist.getitem records (idx + i)) as [e|r] eqn:Hget; [discriminate|].
      destruct (Pylist.setitem records (idx + i) (change v r)) as [e|records1] eqn:Hset;
        [discriminate|].
      rewrite (IH _ _ _ _ Hch H).
      unfold Pylist.setitem, Pylist.getitem, Py.bind in Hset, Hget.
      destruct (Pylist.position (length records) (idx + i)) as [e|j]; [discriminate|].
      destruct (records !! j) as [r0|] eqn:Hj; [|discriminate].
      injection Hget as ->. injection Hset as <-.
      rewrite list_fmap_insert, Hch.
      apply list_insert_id. rewrite list_lookup_fmap, Hj. reflexivity.
    + unfold Py.bind, Py.ret in H. apply (IH _ _ _ _ Hch H).
Qed.

Lemma inject_daily_anomalies_times np_exp self records date env records' events env' :
  _inject_daily_anomalies np_exp self records date env = inr ((records', events), env') ->
  map time records' = map time records.
Proof.
  unfold _inject_daily_anomalies. intro H.
  invert_bind H. invert_bind H. destruct a0 as [records1 anomalies].
  assert (H1 : map time records1 = map time records).
  { destruct (a <? 0.05).
    - destruct (_find_activity_periods records).
      + apply ret_inr in Ha0. destruct Ha0 as [Heq _]. injection Heq as -> _. reflexivity.
      + invert_bind Ha0. destruct a0 as [pa pb].
        do 5 invert_bind Ha0. destruct a4 as [profile event].
        invert_bind Ha0. apply ret_inr in Ha0. destruct Ha0 as [Heq _].
        injection Heq as -> _. apply lift_inr in Ha7. destruct Ha7 as [Ha7 _].
        apply (splice_times set_thermal _ _ _ _ _ (fun v r => eq_refl) Ha7).
    - apply ret_inr in Ha0. destruct Ha0 as [Heq _]. injection Heq as -> _. reflexivity. }
  invert_bind H. destruct (a0 <? 0.10).
  - do 4 invert_bind H. invert_bind H. destruct a5 as [values event].
    invert_bind H. apply ret_inr in H. destruct H as [Heq _].
    injection Heq as -> _. apply lift_inr in Ha7. destruct Ha7 as [Ha7 _].
    rewrite (splice_times set_voltage _ _ _ _ _ (fun v r => eq_refl) Ha7). exact H1.
  - apply ret_inr in H. destruct H as [Heq _]. injection Heq as -> _. exact H1.
Qed.

(** The first record of a cautious driver's day is stamped with the day's
    start. *)
Lemma simulate_day_first_time np_exp np_sin np_pi self date incl env
    telemetry events self' env' :
  user_behavior self =
    {| user_profiles.profile := user_profiles.CAUTIOUS;
       user_profiles.behavior := user_profiles.USER_PROFILES user_profiles.CAUTIOUS |} ->
  simulate_day np_exp np_sin np_pi self (Some date) incl 1.0 env
  = inr ((telemetry, events, self'), env') ->
  exists r rest, telemetry = r :: rest /\ time r = date.
Proof.
  intros Hub H. unfold simulate_day in H.
  invert_bind H. apply ret_inr in Ha. destruct Ha as [-> ->].
  invert_bind H. rename a into schedule.
  destruct (cautious_schedule_head _ _ _ _ _ Hub Ha) as (h & rest & -> & Hh).
  invert_bind H. rename a into st.
  cbn [Pylist.for_each] in Ha0. invert_bind Ha0.
  destruct (idle_block_first_record _ _ _ _ _ _ _ Hh Ha1) as (r & more & Hr & Ht).
  simpl in Hr, Ht.
  apply (extends_by_loop (run_activity np_exp (default_ambient_temp_profile np_sin np_pi) 1.0))
    in Ha0; [|intros x s e s' e'; apply run_activity_extends].
  destruct Ha0 as [more2 Hst]. rewrite Hr in Hst. simpl in Hst.
  invert_bind H. destruct a0 as [records evs].
  apply ret_inr in H. destruct H as [Heq _]. injection Heq as Htel _ _. subst telemetry.
  destruct (incl && (0 <? length (telemetry_records st))%nat).
  - apply inject_daily_anomalies_times in Ha0. rewrite Hst in Ha0. simpl in Ha0.
    destruct records as [|r' rest']; [discriminate|].
    injection Ha0 as Htime _. exists r', rest'. split; [reflexivity | congruence].
  - apply ret_inr in Ha0. destruct Ha0 as [Heq _]. injection Heq as Hrec _.
    subst records. rewrite Hst. eexists _, _. split; [reflexivity | exact Ht].
Qed.

Lemma np_seed_clock s env u env' :
  world.np_seed s env = inr (u, env') -> world.clock env' = world.clock env.
Proof.
  unfold world.np_seed. destruct (_ || _)%Z; [discriminate|].
  intro H. injection H as _ <-. reflexivity.
Qed.

Lemma py_seed_clock s env u env' :
  world.py_seed s env = inr (u, env') -> world.clock env' = world.clock env.
Proof.
  unfold world.py_seed. intro H. injection H as _ <-. reflexivity.
Qed.

(** Construction reads the wall clock once and keeps the given profile. *)
Lemma init_clock vehicle_id p seed env self env' :
  simulator.init vehicle_id (Some p) seed env = inr (self, env') ->
  world.clock env' =
    {| world.readings := world.readings (world.clock env);
       world.reads := S (world.reads (world.clock env)) |} /\
  user_behavior self =
    {| user_profiles.profile := p; user_profiles.behavior := user_profiles.USER_PROFILES p |}.
Proof.
  unfold simulator.init. destruct (battery_model.VEHICLE_SPECS !! vehicle_id); [|discriminate].
  intro H. invert_bind H. apply ret_inr in Ha. destruct Ha as [-> ->].
  invert_bind H. invert_bind H. invert_bind H. invert_bind H. invert_bind H.
  apply ret_inr in H. destruct H as [-> ->]. simpl user_behavior.
  assert (H0 : world.clock env0 = world.clock env /\
               a = {| user_profiles.profile := p;
                      user_profiles.behavior := user_profiles.USER_PROFILES p |}).
  { unfold user_profiles.init in Ha. destruct (world.truthy seed).
    - do 2 invert_bind Ha. apply ret_inr in Ha. destruct Ha as [-> ->].
      apply py_seed_clock in Ha4. apply np_seed_clock in Ha5. split; congruence.
    - apply ret_inr in Ha. destruct Ha as [-> ->]. split; reflexivity. }
  destruct H0 as [H0 ->].
  assert (H1 : world.clock env1 = world.clock env0).
  { unfold driving_patterns.init in Ha0. destruct (world.truthy seed).
    - invert_bind Ha0. apply py_seed_clock in Ha0. apply np_seed_clock in Ha4. congruence.
    - apply ret_inr in Ha0. destruct Ha0 as [_ ->]. reflexivity. }
  assert (H2 : world.clock env2 = world.clock env1).
  { unfold anomaly_generator.init in Ha1. destruct (world.truthy seed).
    - invert_bind Ha1. apply py_seed_clock in Ha1. apply np_seed_clock in Ha4. congruence.
    - apply ret_inr in Ha1. destruct Ha1 as [_ ->]. reflexivity. }
  assert (H3 : world.clock env3 =
               {| world.readings := world.readings (world.clock env2);
                  world.reads := S (world.reads (world.clock env2)) |}).
  { unfold world.now in Ha2. injection Ha2 as _ <-. reflexivity. }
  assert (H4 : world.clock env4 = world.clock env3).
  { unfold set_random_seeds in Ha3. destruct (world.truthy seed).
    - invert_bind Ha3. apply py_seed_clock in Ha3. apply np_seed_clock in Ha4. congruence.
    - apply ret_inr in Ha3. destruct Ha3 as [_ ->]. reflexivity. }
  split; [|reflexivity]. rewrite H4, H3, H2, H1, H0. reflexivity.
Qed.

(** A one-day run of a cautious driver opens with a record stamped with the
    midnight of the day the wall clock shows when the run starts. *)
Lemma run_simulation_first_time np_exp np_sin np_pi vehicle_id incl seed env
    telemetry events env' :
  run_simulation np_exp np_sin np_pi vehicle_id 1 (Some user_profiles.CAUTIOUS) incl seed env
  = inr ((telemetry, events), env') ->
  exists r rest,
    telemetry = r :: rest /\
    time r = world.midnight (world.readings (world.clock env)
                                            (S (world.reads (world.clock env)))).
Proof.
  unfold run_simulation. intro H.
  invert_bind H. rename a into self. apply init_clock in Ha. destruct Ha as [Hclock Hub].
  invert_bind H. unfold world.now in Ha. injection Ha as <- _.
  rewrite Hclock in H. simpl world.readings in H. simpl world.reads in H.
  invert_bind H. rename a into st.
  change (Pylist.range 1) with [0%Z] in Ha. cbn [Pylist.for_each] in Ha.
  invert_bind Ha. rename a into st1.
  apply ret_inr in Ha. destruct Ha as [-> _].
  invert_bind Ha0. rename a into day. destruct day as [[tel evs] self1].
  apply ret_inr in Ha0. destruct Ha0 as [-> _]. simpl in H.
  apply ret_inr in H. destruct H as [Heq _]. injection Heq as Htel _. subst telemetry.
  simpl run_sim in Ha.
  apply (simulate_day_first_time _ _ _ _ _ _ _ _ _ _ _ Hub) in Ha.
  destruct Ha as (r & rest & -> & Ht).
  exists r, (rest ++ []). split; [reflexivity|].
  rewrite Ht. unfold world.days. rewrite Z.mul_0_l, Z.add_0_r. reflexivity.
Qed.

(** *** The example runs return *)

Section Returns.

Variable stream : nat -> rng.Draw.

Local Abbreviation P := (world.py_stream_is stream).

(** [keeps m]: [m] returns and leaves the stream of [random] as it is. *)
Local Abbreviation keeps m := (world.returns P m (fun _ => P)).

Lemma keeps_ret {A} (x : A) : keeps (world.ret x).
Proof. intros env HP. exists x, env. split; [reflexivity | exact HP]. Qed.

Lemma returns_bind {A B} (m : world.M A) (k : A -> world.M B) Q R :
  world.returns P m R -> (forall a, world.returns (R a) (k a) Q) ->
  world.returns P (world.bind m k) Q.
Proof.
  intros Hm Hk env HP. destruct (Hm env HP) as (a & env1 & Ha & HR).
  destruct (Hk a env1 HR) as (b & env2 & Hb & HQ).
  exists b, env2. unfold world.bind. rewrite Ha. split; assumption.
Qed.

Lemma keeps_bind {A B} (m : world.M A) (k : A -> world.M B) :
  keeps m -> (forall a, keeps (k a)) -> keeps (world.bind m k).
Proof. intros Hm Hk. apply (returns_bind m k _ (fun _ => P)); assumption. Qed.

Lemma keeps_np {A} (f : rng.Generator -> A * rng.Generator) : keeps (world.np f).
Proof.
  intros env HP. unfold world.np. destruct (f (world.np_random env)) as [a g].
  do 2 eexists. split; [reflexivity | exact HP].
Qed.

Lemma keeps_np_res {A} (f : rng.Generator -> Py.Res (A * rng.Generator)) :
  (forall g, exists a g', f g = inr (a, g')) -> keeps (world.np_res f).
Proof.
  intros Hf env HP. unfold world.np_res.
  destruct (Hf (world.np_random env)) as (a & g & ->).
  do 2 eexists. split; [reflexivity | exact HP].
Qed.

Lemma keeps_np_normal loc scale : 0 <= scale -> keeps (world.np_normal loc scale).
Proof.
  intro Hs. unfold world.np_normal.
  assert (E : (scale <? 0) = false) by (apply Qltb_ge; exact Hs).
  rewrite E. apply keeps_np.
Qed.

Lemma keeps_py {A} (f : rng.Generator -> A * rng.Generator) :
  (forall g, rng.stream (snd (f g)) = rng.stream g) -> keeps (world.py f).
Proof.
  intros Hf env HP. unfold world.py.
  pose proof (Hf (world.py_random env)) as Hs.
  destruct (f (world.py_random env)) as [a g]. simpl in Hs.
  do 2 eexists. split; [reflexivity|].
  unfold world.py_stream_is in *. simpl. congruence.
Qed.

Lemma random_stream g : rng.stream (snd (rng.random g)) = rng.stream g.
Proof. reflexivity. Qed.

Lemma keeps_lift {A} (r : Py.Res A) : (exists a, r = inr a) -> keeps (world.lift r).
Proof.
  intros [a ->] env HP. exists a, env. split; [reflexivity | exact HP].
Qed.

(** A loop whose body returns, keeps the stream and keeps an invariant of
    the loop state does so as a whole. *)
Lemma returns_for_each {A S} (I : S -> Prop) (body : A -> S -> world.M S) xs :
  (forall x s, I s -> world.returns P (body x s) (fun s' env' => I s' /\ P env')) ->
  forall s, I s ->
    world.returns P (Pylist.for_each xs body s) (fun s' env' => I s' /\ P env').
Proof.
  intro Hbody. induction xs as [|x xs IH]; intros s Hs; simpl.
  - intros env HP. exists s, env. split; [reflexivity | split; assumption].
  - intros env HP. destruct (Hbody x s Hs env HP) as (s1 & env1 & H1 & Hs1 & HP1).
    destruct (IH s1 Hs1 env1 HP1) as (s2 & env2 & H2 & HQ).
    exists s2, env2. unfold world.bind. rewrite H1. split; assumption.
Qed.

Lemma keeps_for_each {A S} (body : A -> S -> world.M S) xs s :
  (forall x s, keeps (body x s)) -> keeps (Pylist.for_each xs body s).
Proof.
  intros Hbody env HP.
  destruct (returns_for_each (fun _ => True) body xs) with (s := s) (env := env)
    as (s' & env' & H & _ & HP'); auto.
  - intros x s0 _ env0 HP0. destruct (Hbody x s0 env0 HP0) as (s1 & env1 & H1 & HP1).
    exists s1, env1. auto.
  - exists s', env'. auto.
Qed.

Ltac keep :=
  repeat first
    [ apply keeps_ret
    | apply keeps_np
    | apply keeps_py; intro; reflexivity
    | apply keeps_for_each; intros
    | apply keeps_bind; [ | intro ]
    | match goal with
      | |- world.returns _ (if ?c then _ else _) _ => destruct c
      | |- world.returns _ (match ?x with _ => _ end) _ => destruct x
      end ].

Lemma keeps_div a b : ~ b == 0 -> keeps (world.lift (Py.div a b)).
Proof. intro H. apply keeps_lift. rewrite (div_nonzero _ _ H). eexists. reflexivity. Qed.

Lemma keeps_city_driving n dt :
  ~ dt == 0 -> keeps (driving_patterns.generate_city_driving n dt).
Proof.
  intro Hdt. unfold driving_patterns.generate_city_driving.
  apply keeps_bind; [apply keeps_div, Hdt | intro q].
  apply keeps_bind; [|intro; apply keeps_ret].
  apply keeps_for_each. intros _ st. unfold driving_patterns.city_sample. keep.
Qed.

Lemma keeps_highway_driving n dt :
  ~ dt == 0 -> keeps (driving_patterns.generate_highway_driving n dt).
Proof.
  intro Hdt. unfold driving_patterns.generate_highway_driving.
  apply keeps_bind; [apply keeps_div, Hdt | intro q]. keep.
Qed.

Lemma keeps_eco_driving n dt :
  ~ dt == 0 -> keeps (driving_patterns.generate_eco_driving n dt).
Proof.
  intro Hdt. unfold driving_patterns.generate_eco_driving.
  apply keeps_bind; [apply keeps_div, Hdt | intro q].
  apply keeps_bind; [|intro; apply keeps_ret].
  apply keeps_for_each. intros i st. unfold driving_patterns.eco_sample.
  apply keeps_bind; [|intro; keep].
  destruct (_ =? _)%Z; [|apply keeps_ret].
  apply keeps_np_res. intro g. unfold rng.choice.
  destruct (rng.randbelow _ g). do 2 eexists. reflexivity.
Qed.

Lemma keeps_mixed_driving n dt :
  ~ dt == 0 -> keeps (driving_patterns.generate_mixed_driving n dt).
Proof.
  intro Hdt. unfold driving_patterns.generate_mixed_driving.
  apply keeps_bind; [apply keeps_div, Hdt | intro q].
  apply keeps_bind; [|intro; apply keeps_ret].
  apply keeps_for_each. intros [mode_name segment_samples] profile.
  apply keeps_bind; [|intro; apply keeps_ret].
  destruct (String.eqb mode_name "city"); [apply keeps_city_driving, Hdt|].
  destruct (String.eqb mode_name "highway"); [apply keeps_highway_driving, Hdt|].
  apply keeps_eco_driving, Hdt.
Qed.

Lemma keeps_create_record self ts : keeps (_create_telemetry_record self ts).
Proof.
  unfold _create_telemetry_record.
  assert (Hscale : forall x, 0 <= 0.01 * Qabs x).
  { intro x. apply Qmult_le_0_compat; [discriminate | apply Qabs_nonneg]. }
  apply keeps_bind; [apply keeps_np_normal, Hscale | intro].
  apply keeps_bind; [apply keeps_np_normal, Hscale | intro].
  apply keeps_bind; [apply keeps_np_normal, Hscale | intro].
  keep.
Qed.

(** One sample on a well-formed battery returns and leaves it well
    formed. *)
Lemma returns_step dt c mark st :
  battery_model.well_formed (battery (sim st)) ->
  world.returns P (step dt c mark st)
    (fun st' env' => battery_model.well_formed (battery (sim st')) /\ P env').
Proof.
  intros Hwf env HP. unfold step.
  destruct (apply_current_well_formed (battery (sim st)) c dt Hwf)
    as (out & b & Heq & Hwf' & _).
  unfold world.bind at 1. unfold world.lift. rewrite Heq.
  unfold world.bind.
  destruct (keeps_create_record (set_battery b (sim st)) (day_time st) env HP)
    as (r & env1 & Hr & HP1).
  rewrite Hr. do 2 eexists. split; [reflexivity|]. split; [exact Hwf' | exact HP1].
Qed.

Lemma returns_steps {A} dt (current_of : A -> Q) mark xs st :
  battery_model.well_formed (battery (sim st)) ->
  world.returns P
    (Pylist.for_each xs (fun x => step dt (current_of x) (mark x)) st)
    (fun st' env' => battery_model.well_formed (battery (sim st')) /\ P env').
Proof.
  intro Hwf.
  apply (returns_for_each (fun st => battery_model.well_formed (battery (sim st))));
    [|exact Hwf].
  intros x s Hs. apply returns_step, Hs.
Qed.

Lemma hour_of_range t : (0 <= world.hour_of t < 24)%Z.
Proof.
  unfold world.hour_of.
  pose proof (Z.mod_pos_bound t world.day_us) as Hm.
  assert (Hd : (0 < world.day_us)%Z) by reflexivity. specialize (Hm Hd).
  split.
  - apply Z.div_pos; [lia | reflexivity].
  - apply Z.div_lt_upper_bound; [reflexivity|].
    change (world.hour_us * 24)%Z with world.day_us. lia.
Qed.

Lemma getitem_in_range {A} (xs : list A) (i : Z) :
  (0 <= i < Z.of_nat (length xs))%Z -> exists x, Pylist.getitem xs i = inr x.
Proof.
  intro Hi. unfold Pylist.getitem, Pylist.position.
  assert (E1 : (i <? 0)%Z = false) by (apply Z.ltb_ge; lia).
  assert (E2 : ((i <? 0) || (Z.of_nat (length xs) <=? i))%Z = false).
  { apply orb_false_iff. split; [exact E1 | apply Z.leb_gt; lia]. }
  rewrite E1, E2. unfold Py.ret, Py.bind.
  destruct (lookup_lt_is_Some_2 xs (Z.to_nat i)) as [x Hx]; [lia|].
  rewrite Hx. exists x. reflexivity.
Qed.

(** An idle or driving block at one sample per second returns. *)
Lemma returns_run_activity np_exp profile activity st :
  length profile = 24%nat ->
  type activity <> charging ->
  battery_model.well_formed (battery (sim st)) ->
  world.returns P (run_activity np_exp profile 1.0 activity st)
    (fun st' env' => battery_model.well_formed (battery (sim st')) /\ P env').
Proof.
  intros Hlen Hty Hwf. unfold run_activity.
  apply (returns_bind _ _ _ (fun _ => P)); [apply keeps_div; discriminate | intro q].
  apply (returns_bind _ _ _ (fun _ => P)).
  { apply keeps_lift. apply getitem_in_range. rewrite Hlen. apply hour_of_range. }
  intro ambient. destruct (type activity); [| |contradiction].
  - apply (returns_steps 1.0 (fun _ => 0) (fun _ r => r)). exact Hwf.
  - apply (returns_bind _ _ _ (fun _ => P)); [apply keeps_mixed_driving; discriminate|].
    intro currents.
    apply (returns_steps 1.0 (fun c => c) (fun c => set_driving (Qabs c * 0.5))).
    exact Hwf.
Qed.

Lemma returns_activities np_exp profile schedule st :
  length profile = 24%nat ->
  Forall (fun a => type a <> charging) schedule ->
  battery_model.well_formed (battery (sim st)) ->
  world.returns P (Pylist.for_each schedule (run_activity np_exp profile 1.0) st)
    (fun st' env' => battery_model.well_formed (battery (sim st')) /\ P env').
Proof.
  intros Hlen Hall. revert st. induction Hall as [|a schedule Ha Hall IH]; intros st Hwf.
  - intros env HP. exists st, env. split; [reflexivity | split; assumption].
  - simpl. intros env HP.
    destruct (returns_run_activity np_exp profile a st Hlen Ha Hwf env HP)
      as (st1 & env1 & H1 & Hwf1 & HP1).
    destruct (IH st1 Hwf1 env1 HP1) as (st2 & env2 & H2 & HQ).
    exists st2, env2. unfold world.bind. rewrite H1. split; assumption.
Qed.

End Returns.

(** With the generators of the examples every uniform draw is 1/2, so no
    daily anomaly is triggered. *)
Lemma daily_anomalies_skipped np_exp self records date env :
  world.py_stream_is (rng.stream steady) env ->
  exists env', _inject_daily_anomalies np_exp self records date env
               = inr ((records, []), env').
Proof.
  intro HP. unfold world.py_stream_is in HP. unfold _inject_daily_anomalies.
  unfold world.bind at 1. unfold world.py at 1. unfold rng.random at 1. unfold rng.next.
  cbv beta iota zeta. rewrite HP. cbn [rng.stream steady rng.constant rng.bits].
  cbv beta iota zeta.
  match goal with |- context [?u <? 0.05] =>
    assert (E : (u <? 0.05) = false) by (vm_compute; reflexivity); rewrite E
  end.
  unfold world.bind at 1. unfold world.ret at 1. cbv beta iota.
  unfold world.bind at 1. unfold world.py at 1. unfold rng.random at 1. unfold rng.next.
  cbv beta iota zeta. cbn [world.py_random rng.stream rng.position].
  cbn [rng.stream steady rng.constant rng.bits]. cbv beta iota zeta.
  match goal with |- context [?u <? 0.10] =>
    assert (E' : (u <? 0.10) = false) by (vm_compute; reflexivity); rewrite E'
  end.
  eexists. reflexivity.
Qed.

(** A day whose schedule has no charging block returns, when the draws of
    [random] are those of the example generator. *)
Lemma simulate_day_returns np_exp np_sin np_pi self date env schedule env1 :
  _generate_daily_schedule self (world.weekday date >=? 5)%Z env = inr (schedule, env1) ->
  Forall (fun a => type a <> charging) schedule ->
  battery_model.well_formed (battery self) ->
  world.py_stream_is (rng.stream steady) env1 ->
  exists out env',
    simulate_day np_exp np_sin np_pi self (Some date) true 1.0 env = inr (out, env').
Proof.
  intros Hschedule Hall Hwf HP. unfold simulate_day.
  unfold world.bind at 1. unfold world.ret at 1. cbv beta iota zeta.
  unfold world.bind at 1. rewrite Hschedule. cbv beta iota.
  destruct (returns_activities (rng.stream steady) np_exp
              (default_ambient_temp_profile np_sin np_pi) schedule
              {| sim := self; day_time := date; telemetry_records := [] |}
              eq_refl Hall Hwf env1 HP) as (st & env2 & Hst & _ & HP2).
  unfold world.bind at 1. rewrite Hst. cbv beta iota.
  unfold world.bind at 1.
  destruct (true && (0 <? length (telemetry_records st))%nat).
  - destruct (daily_anomalies_skipped np_exp (sim st) (telemetry_records st) date env2 HP2)
      as (env3 & ->).
    do 2 eexists. reflexivity.
  - do 2 eexists. reflexivity.
Qed.

(** A one-day run returns under the same conditions. *)
Lemma run_simulation_returns np_exp np_sin np_pi vehicle_id p seed env self env1 t env2
    schedule env3 :
  init vehicle_id (Some p) seed env = inr (self, env1) ->
  world.now env1 = inr (t, env2) ->
  _generate_daily_schedule self (world.weekday (world.midnight t + world.days 0) >=? 5)%Z
    env2 = inr (schedule, env3) ->
  Forall (fun a => type a <> charging) schedule ->
  battery_model.well_formed (battery self) ->
  world.py_stream_is (rng.stream steady) env3 ->
  exists frames env',
    run_simulation np_exp np_sin np_pi vehicle_id 1 (Some p) true seed env
    = inr (frames, env').
Proof.
  intros Hinit Hnow Hschedule Hall Hwf HP. unfold run_simulation.
  unfold world.bind at 1. rewrite Hinit. cbv beta iota.
  unfold world.bind at 1. rewrite Hnow. cbv beta iota zeta.
  change (Pylist.range 1) with [0%Z]. unfold Pylist.for_each.
  destruct (simulate_day_returns np_exp np_sin np_pi self _ env2 schedule env3
              Hschedule Hall Hwf HP) as ([[telemetry events] sim'] & env4 & Hday).
  unfold world.bind at 1. unfold world.bind at 1. unfold world.bind at 1.
  cbn [run_sim]. unfold world.datetime in Hday. rewrite Hday. cbv beta iota. unfold world.ret at 1 2. cbv beta iota.
  cbn [all_telemetry app]. do 2 eexists. reflexivity.
Qed.

End RunFacts.

(** C4, as the specification has it, fails for VEH001, one day, the
    cautious profile and seed 42 when the two executions start on different
    calendar days: each stamps its first record with its own midnight. *)
Lemma not_reproducible_across_days :
  ~ simulator.reproducible_as_specified charging_patterns.exp_taylor
      simulator.sin_taylor simulator.pi_approx "VEH001" 1 user_profiles.CAUTIOUS 42
      simulator.env_day0 simulator.env_day1.
Proof.
  intros ([telemetry events] & env1' & env2' & H1 & H2).
  apply run_simulation_first_time in H1, H2.
  destruct H1 as (r1 & rest1 & -> & Ht1). destruct H2 as (r2 & rest2 & Heq & Ht2).
  injection Heq as <- _. rewrite Ht1 in Ht2. vm_compute in Ht2. discriminate Ht2.
Qed.

(** Both example executions do return: their frames differ, neither fails. *)
Lemma example_runs_return :
  (exists frames env',
      simulator.run_simulation charging_patterns.exp_taylor simulator.sin_taylor
        simulator.pi_approx "VEH001" 1 (Some user_profiles.CAUTIOUS) true (Some 42%Z)
        simulator.env_day0 = inr (frames, env')) /\
  (exists frames env',
      simulator.run_simulation charging_patterns.exp_taylor simulator.sin_taylor
        simulator.pi_approx "VEH001" 1 (Some user_profiles.CAUTIOUS) true (Some 42%Z)
        simulator.env_day1 = inr (frames, env')).
Proof.
  split.
  - eapply run_simulation_returns.
    + vm_compute. reflexivity.
    + vm_compute. reflexivity.
    + vm_compute. reflexivity.
    + repeat constructor; discriminate.
    + apply init_VEH001_well_formed.
    + reflexivity.
  - eapply run_simulation_returns.
    + vm_compute. reflexivity.
    + vm_compute. reflexivity.
    + vm_compute. reflexivity.
    + repeat constructor; discriminate.
    + apply init_VEH001_well_formed.
    + reflexivity.
Qed.

(** * Further properties of the simulation code *)

(** ** Arithmetic helpers *)

(** Division by a literal, as a multiplication that [lra] reads. *)
Ltac qdiv :=
  unfold Qdiv in *;
  repeat match goal with
         | |- context [/ (?n # ?d)] =>
             let v := eval compute in (/ (n # d)) in change (/ (n # d)) with v
         | H : context [/ (?n # ?d)] |- _ =>
             let v := eval compute in (/ (n # d)) in change (/ (n # d)) with v in H
         end.

Section RandomFacts.

(** [random()] is in the unit interval. *)
Lemma random_unit g : 0 <= fst (rng.random g) < 1.
Proof.
  unfold rng.random, rng.next. cbn [fst].
  set (b := rng.bits _).
  pose proof (Z.mod_pos_bound b (2 ^ 53) ltac:(reflexivity)) as [H0 H1].
  assert (Hd : 0 < inject_Z (2 ^ 53)) by reflexivity.
  split.
  - apply Qle_shift_div_l; [exact Hd|]. rewrite Qmult_0_l.
    change 0 with (inject_Z 0). rewrite <- Zle_Qle. exact H0.
  - apply Qlt_shift_div_r; [exact Hd|]. rewrite Qmult_1_l.
    rewrite <- Zlt_Qlt. exact H1.
Qed.

(** [uniform(a, b)] is between its arguments, in either order. *)
Lemma uniform_within a b g :
  (a <= b -> a <= fst (rng.uniform a b g) <= b) /\
  (b <= a -> b <= fst (rng.uniform a b g) <= a).
Proof.
  unfold rng.uniform.
  pose proof (random_unit g) as [H0 H1].
  destruct (rng.random g) as [u g1]. cbn [fst] in *.
  assert (Hu : 0 <= 1 - u) by lra.
  split; intro H.
  - assert (Hd : 0 <= b - a) by lra.
    pose proof (Qmult_le_0_compat _ _ Hd H0) as Hlo.
    pose proof (Qmult_le_0_compat _ _ Hd Hu) as Hhi. lra.
  - assert (Hd : 0 <= a - b) by lra.
    pose proof (Qmult_le_0_compat _ _ Hd H0) as Hlo.
    pose proof (Qmult_le_0_compat _ _ Hd Hu) as Hhi. lra.
Qed.

Lemma uniform_above a b g (x : Q) : x < a -> x < b -> x < fst (rng.uniform a b g).
Proof.
  intros Ha Hb. destruct (uniform_within a b g) as [H1 H2].
  destruct (Qlt_le_dec b a) as [Hlt|Hle].
  - assert (Hba : b <= a) by lra. specialize (H2 Hba). lra.
  - specialize (H1 Hle). lra.
Qed.

End RandomFacts.

(** ** The thermal-safety manager over time *)

Section ThermalManagerFacts.

Import thermal_safety.

Lemma log_event_history_bounded ty t m :
  (length (event_history (_log_event ty t m)) <= 1000)%nat.
Proof.
  unfold _log_event.
  destruct (1000 <? length _)%nat eqn:E; simpl.
  - apply Nat.ltb_lt in E. rewrite length_drop. lia.
  - apply Nat.ltb_ge in E. exact E.
Qed.

Lemma check_temperature_history_bounded m t :
  (length (event_history m) <= 1000)%nat ->
  (length (event_history (snd (check_temperature m t))) <= 1000)%nat.
Proof.
  intro H. unfold check_temperature, shutdown_recovery.
  destruct (shutdown_active m).
  - destruct (t <=? _); [|exact H].
    unfold determine_status.
    repeat match goal with |- context [if ?c then _ else _] => destruct c end;
      simpl; try apply log_event_history_bounded.
  - unfold determine_status.
    repeat match goal with |- context [if ?c then _ else _] => destruct c end;
      simpl; try apply log_event_history_bounded; exact H.
Qed.

(** X1: Starting from an event history of at most 1000 entries, any sequence
    of check_temperature calls leaves at most 1000 entries in the history; the
    total_events of get_thermal_report is then at most 1000 and its
    recent_events holds at most 10 events. *)
Theorem event_history_stays_bounded :
  forall (m : ThermalSafetyManager) (temps : list Q),
    (length (event_history m) <= 1000)%nat ->
    let m' := snd (check_temperatures m temps) in
    (length (event_history m') <= 1000)%nat /\
    (total_events (get_thermal_report m') <= 1000)%nat /\
    (length (recent_events (get_thermal_report m')) <= 10)%nat.
Proof.
  intros m temps H.
  assert (Hb : (length (event_history (snd (check_temperatures m temps))) <= 1000)%nat).
  { revert m H. induction temps as [|t temps IH]; intros m H; simpl; [exact H|].
    pose proof (check_temperature_history_bounded m t H) as H1.
    destruct (check_temperature m t) as [r m1]. simpl in H1.
    specialize (IH m1 H1). destruct (check_temperatures m1 temps). exact IH. }
  cbv zeta. split; [exact Hb|]. split; [exact Hb|].
  unfold get_thermal_report. cbn [recent_events].
  destruct (event_history (snd _)) as [|e h]; [simpl; lia|].
  rewrite length_drop. lia.
Qed.

Lemma event_history_stays_bounded_witness :
  let m' := snd (check_temperatures (thermal_safety.init "VEH001") [52; 56; 61; 40]) in
  (length (event_history m') <= 1000)%nat /\
  (total_events (get_thermal_report m') <= 1000)%nat /\
  (length (recent_events (get_thermal_report m')) <= 10)%nat.
Proof.
  apply (event_history_stays_bounded (thermal_safety.init "VEH001") [52; 56; 61; 40]).
  simpl. lia.
Defined.

(** X2: From the same manager state, whatever its thresholds,
    check_temperature on a hotter reading never returns a higher power limit
    than on a cooler reading. *)
Theorem hotter_reading_never_raises_limit :
  forall (m : ThermalSafetyManager) (t1 t2 : Q),
    t1 <= t2 ->
    power_limit (fst (check_temperature m t2)) <= power_limit (fst (check_temperature m t1)).
Proof.
  intros m t1 t2 H.
  unfold check_temperature, shutdown_recovery, determine_status.
  destruct (shutdown_active m).
  - destruct (t2 <=? _) eqn:E2; destruct (t1 <=? _) eqn:E1.
    + cbn [thresholds set_current_status set_shutdown_active].
      rewrite !(proj1 (log_event_fields _ _ _)).
      cbn [thresholds set_current_status set_shutdown_active].
      repeat match goal with
             | |- context [if ?a >=? ?b then _ else _] =>
                 let E := fresh "E" in destruct (a >=? b) eqn:E;
                 [apply Qleb_le in E | apply Qleb_gt in E]
             end; cbn [fst power_limit]; try lra.
    + apply Qleb_le in E2. apply Qleb_gt in E1. lra.
    + cbn [fst power_limit].
      repeat match goal with
             | |- context [if ?a >=? ?b then _ else _] => destruct (a >=? b)
             end; cbn [fst power_limit]; lra.
    + cbn [fst power_limit]. lra.
  - repeat match goal with
           | |- context [if ?a >=? ?b then _ else _] =>
               let E := fresh "E" in destruct (a >=? b) eqn:E;
               [apply Qleb_le in E | apply Qleb_gt in E]
           end; cbn [fst power_limit]; try lra.
Qed.

Lemma hotter_reading_never_raises_limit_witness :
  power_limit (fst (check_temperature (thermal_safety.init "VEH001") 56))
  <= power_limit (fst (check_temperature (thermal_safety.init "VEH001") 52)).
Proof.
  apply (hotter_reading_never_raises_limit (thermal_safety.init "VEH001") 52 56).
  vm_compute. discriminate.
Defined.

Lemma log_event_thresholds ty t m : thresholds (_log_event ty t m) = thresholds m.
Proof. apply log_event_fields. Qed.
Lemma log_event_status ty t m : current_status (_log_event ty t m) = current_status m.
Proof. apply log_event_fields. Qed.
Lemma log_event_shutdown ty t m : shutdown_active (_log_event ty t m) = shutdown_active m.
Proof. apply log_event_fields. Qed.
Lemma log_event_count ty t m : warning_count (_log_event ty t m) = warning_count m.
Proof. apply log_event_fields. Qed.

Lemma determine_status_fields prev m t :
  let th := thresholds m in
  let s := if t >=? shutdown_temp th then SHUTDOWN
           else if t >=? critical_temp th then CRITICAL
           else if t >=? warning_temp th then WARNING else NORMAL in
  status (fst (determine_status prev m t)) = s /\
  current_status (snd (determine_status prev m t)) = s /\
  thresholds (snd (determine_status prev m t)) = th /\
  shutdown_active (snd (determine_status prev m t))
  = (if t >=? shutdown_temp th then true else shutdown_active m) /\
  warning_count (snd (determine_status prev m t))
  = match s with
    | WARNING => (warning_count m + 1)%Z
    | NORMAL => if status_eqb prev NORMAL then warning_count m else 0%Z
    | _ => warning_count m
    end.
Proof.
  cbv zeta. unfold determine_status.
  destruct (t >=? shutdown_temp _); [|destruct (t >=? critical_temp _);
    [|destruct (t >=? warning_temp _)]]; cbn [fst snd status];
    rewrite ?log_event_thresholds, ?log_event_status, ?log_event_shutdown,
            ?log_event_count;
    try (repeat split; reflexivity).
  destruct (status_eqb prev NORMAL); repeat split; reflexivity.
Qed.

Lemma ladder_after m1 prev t :
  shutdown_active m1 = false ->
  let r := fst (determine_status prev m1 t) in
  let m' := snd (determine_status prev m1 t) in
  (fst (should_allow_charging m' t) = true <-> (status r = NORMAL \/ status r = WARNING)) /\
  (shutdown_active m' = true <-> current_status m' = SHUTDOWN).
Proof.
  intro Ha. cbv zeta.
  destruct (determine_status_fields prev m1 t) as (Hs & Hc & Hth & Hsa & _).
  cbv zeta in *. unfold should_allow_charging. rewrite Hsa, Hth, Hs, Hc, Ha.
  destruct (t >=? shutdown_temp _); [|destruct (t >=? critical_temp _);
    [|destruct (t >=? warning_temp _)]]; cbn [fst]; split; split; intro H;
    try discriminate; try tauto; destruct H; discriminate.
Qed.

(** X3: Right after check_temperature on a reading, should_allow_charging on
    the same reading allows charging exactly when the status that check
    returned is Normal or Warning; it refuses in Critical and Shutdown. *)
Theorem charging_allowed_iff_status_mild :
  forall (m : ThermalSafetyManager) (t : Q),
    let r := fst (check_temperature m t) in
    let m' := snd (check_temperature m t) in
    fst (should_allow_charging m' t) = true <-> (status r = NORMAL \/ status r = WARNING).
Proof.
  intros m t. cbv zeta.
  unfold check_temperature, shutdown_recovery.
  destruct (shutdown_active m) eqn:Ea.
  - destruct (t <=? _) eqn:Er.
    + apply ladder_after. rewrite log_event_shutdown. reflexivity.
    + cbn [fst snd status]. unfold should_allow_charging. rewrite Ea. cbn [fst].
      split; [discriminate | intros [H|H]; discriminate].
  - apply ladder_after. exact Ea.
Qed.

Lemma check_temperature_consistent m t :
  consistent m -> consistent (snd (check_temperature m t)).
Proof.
  intros (Hflag & Hcount & Hnn).
  unfold check_temperature, shutdown_recovery.
  destruct (shutdown_active m) eqn:Ea.
  - destruct (t <=? _) eqn:Er; [|cbn [snd]; repeat split; tauto].
    assert (Hprev : current_status m = SHUTDOWN) by tauto.
    rewrite Hprev.
    match goal with |- consistent (snd (determine_status _ ?m1 _)) =>
      destruct (determine_status_fields SHUTDOWN m1 t) as (Hs & Hc & Hth & Hsa & Hw);
      pose proof (ladder_after m1 SHUTDOWN t) as L
    end.
    cbv zeta in *. rewrite log_event_shutdown in *. rewrite log_event_count in *.
    cbn [shutdown_active warning_count set_current_status set_shutdown_active] in *.
    specialize (L eq_refl). destruct L as [_ L].
    split; [exact L|]. rewrite Hw, Hc.
    destruct (t >=? shutdown_temp _); [|destruct (t >=? critical_temp _);
      [|destruct (t >=? warning_temp _)]]; cbn [status_eqb];
      split; try discriminate; try reflexivity; try lia.
  - destruct (determine_status_fields (current_status m) m t) as (Hs & Hc & Hth & Hsa & Hw).
    pose proof (ladder_after m (current_status m) t Ea) as [_ L].
    cbv zeta in *. split; [exact L|]. rewrite Hw, Hc.
    destruct (t >=? shutdown_temp _); [|destruct (t >=? critical_temp _);
      [|destruct (t >=? warning_temp _)]];
      split; try discriminate; try lia.
    + intros _. destruct (current_status m) eqn:Es; cbn [status_eqb]; auto.
    + destruct (current_status m) eqn:Es; cbn [status_eqb]; lia.
Qed.

(** X4: If the shutdown flag of a manager is set exactly in the Shutdown
    status, its warning counter is zero in the Normal status and never
    negative, then the same holds after any sequence of check_temperature
    calls, and get_thermal_report shows shutdown_active exactly when
    current_status is 'shutdown'. *)
Theorem status_and_shutdown_flag_agree :
  forall (m : ThermalSafetyManager) (temps : list Q),
    consistent m ->
    let m' := snd (check_temperatures m temps) in
    consistent m' /\
    (report_shutdown_active (get_thermal_report m') = true <->
     report_current_status (get_thermal_report m') = "shutdown").
Proof.
  intros m temps H.
  assert (Hc : consistent (snd (check_temperatures m temps))).
  { revert m H. induction temps as [|t temps IH]; intros m H; simpl; [exact H|].
    pose proof (check_temperature_consistent m t H) as H1.
    destruct (check_temperature m t) as [r m1]. simpl in H1.
    specialize (IH m1 H1). destruct (check_temperatures m1 temps). exact IH. }
  cbv zeta. split; [exact Hc|].
  destruct Hc as (Hflag & _). unfold get_thermal_report.
  cbn [report_shutdown_active report_current_status]. rewrite Hflag.
  destruct (current_status _); cbn [value]; split; intro E;
    try reflexivity; discriminate.
Qed.

Lemma status_and_shutdown_flag_agree_witness :
  let m' := snd (check_temperatures (thermal_safety.init "VEH001") [52; 61; 50; 40]) in
  consistent m' /\
  (report_shutdown_active (get_thermal_report m') = true <->
   report_current_status (get_thermal_report m') = "shutdown").
Proof.
  apply (status_and_shutdown_flag_agree (thermal_safety.init "VEH001") [52; 61; 50; 40]).
  unfold consistent. simpl. repeat split; try discriminate; try reflexivity; lia.
Defined.

End ThermalManagerFacts.

(** ** Voltage, current and temperature of the battery model *)

Section BatteryCurrentFacts.

Import thermal_safety battery_model.

(** What one [apply_current] call computes, value by value. *)
Lemma apply_current_fields self r dt :
  ~ effective_capacity_kwh self == 0 ->
  ~ thermal_mass (specs self) == 0 ->
  exists self',
    let i := current self' in
    let v := _calculate_voltage_under_load self i in
    apply_current self r dt = inr ((i, v, v * i), self') /\
    voltage self' = v /\
    specs self' = specs self /\
    i = (if r >? 0 then
           Py.min r (if soc self >? 80
                     then max_charge_current (specs self) * combined_limit self
                          * Py.max 0.1 (1.0 - (soc self - 80) / 20)
                     else max_charge_current (specs self) * combined_limit self)
         else Py.max r (max_discharge_current (specs self) * combined_limit self)) /\
    soc self' =
      Py.clip (soc self
               + (v * i * dt / 3600.0) / (effective_capacity_kwh self * 1000) * 100)
              0.0 100.0 /\
    temperature self' =
      temperature self
      + ((if v * i >? 0
          then Qabs i ^ 2 * internal_resistance (specs self) + Qabs (v * i) * 0.05
          else Qabs i ^ 2 * internal_resistance (specs self))
         - 0.001 * (temperature self - ambient_temp self)) * dt
        / (thermal_mass (specs self) * 1000).
Proof.
  intros Hc Hm. unfold apply_current, combined_limit, temperature_derate.
  destruct (check_temperature (thermal_safety self) (temperature self)) as [tc mgr].
  cbv zeta.
  match goal with |- context [if r >? 0 then set_current ?a _ else set_current ?b _] =>
    set (i0 := if r >? 0 then a else b);
    replace (if r >? 0 then set_current a (set_thermal_safety mgr self)
             else set_current b (set_thermal_safety mgr self))
      with (set_current i0 (set_thermal_safety mgr self))
      by (subst i0; destruct (r >? 0); reflexivity)
  end.
  cbn [specs soc soh temperature thermal_safety fst
       set_thermal_safety set_current set_voltage current voltage].
  unfold update_soc at 1. cbv zeta.
  cbn [specs soc soh temperature thermal_safety fst effective_capacity_kwh
       set_thermal_safety set_current set_voltage current voltage].
  rewrite div_nonzero by (apply scaled_nonzero; [exact Hc | discriminate]).
  unfold Py.bind, Py.ret. cbv beta iota zeta.
  unfold update_thermal at 1. cbv zeta.
  cbn [specs soc soh temperature thermal_safety fst effective_capacity_kwh ambient_temp
       set_thermal_safety set_current set_voltage set_soc current voltage].
  rewrite div_nonzero by (apply scaled_nonzero; [exact Hm | discriminate]).
  unfold Py.bind, Py.ret. cbv beta iota zeta.
  cbn [specs soc soh temperature thermal_safety fst effective_capacity_kwh ambient_temp
       set_thermal_safety set_current set_voltage set_soc set_temperature current voltage].
  match goal with |- context [check_temperature ?m ?t] =>
    destruct (check_temperature m t) as [tc' mgr'] end.
  cbn [specs soc soh temperature thermal_safety fst effective_capacity_kwh ambient_temp
       set_thermal_safety set_current set_voltage set_soc set_temperature current voltage].
  set (v0 := _calculate_voltage_under_load self i0).
  change (_calculate_voltage_under_load (set_current i0 (set_thermal_safety mgr self)) i0)
    with v0.
  change (_calculate_voltage_under_load
            (set_voltage v0 (set_current i0 (set_thermal_safety mgr self))) i0) with v0.
  match goal with |- context [set_soc ?x _] => set (s1 := x) end.
  match goal with |- context [set_temperature ?x _] => set (t1 := x) end.
  assert (Ei : i0 = (if r >? 0 then
           Py.min r (if soc self >? 80
                     then max_charge_current (specs self)
                          * Py.min
                              (if temperature self >? 45
                               then Py.max 0.5 (1.0 - (temperature self - 45) / 20)
                               else if temperature self <? 0
                                    then Py.max 0.3 (1.0 + temperature self / 20)
                                    else 1.0)
                              (power_limit tc)
                          * Py.max 0.1 (1.0 - (soc self - 80) / 20)
                     else max_charge_current (specs self)
                          * Py.min
                              (if temperature self >? 45
                               then Py.max 0.5 (1.0 - (temperature self - 45) / 20)
                               else if temperature self <? 0
                                    then Py.max 0.3 (1.0 + temperature self / 20)
                                    else 1.0)
                              (power_limit tc))
         else Py.max r (max_discharge_current (specs self)
                        * Py.min
                            (if temperature self >? 45
                             then Py.max 0.5 (1.0 - (temperature self - 45) / 20)
                             else if temperature self <? 0
                                  then Py.max 0.3 (1.0 + temperature self / 20)
                                  else 1.0)
                            (power_limit tc)))).
  { subst i0. destruct (r >? 0); reflexivity. }
  clearbody i0.
  destruct (t1 <? 0);
    [ exists (set_effective_capacity_kwh
                (nominal_capacity_kwh (specs self) * (soh self / 100.0) * 0.8)
                (set_thermal_safety mgr'
                   (set_temperature t1
                      (set_soc s1
                         (set_voltage v0 (set_current i0 (set_thermal_safety mgr self)))))))
    | exists (set_thermal_safety mgr'
                (set_temperature t1
                   (set_soc s1
                      (set_voltage v0 (set_current i0 (set_thermal_safety mgr self)))))) ];
    cbv zeta;
    cbn [specs soc soh temperature thermal_safety fst effective_capacity_kwh ambient_temp
         set_thermal_safety set_current set_voltage set_soc set_temperature
         set_effective_capacity_kwh current voltage];
    (split; [reflexivity|]); (split; [reflexivity|]); (split; [reflexivity|]);
    (split; [exact Ei|]); split; reflexivity.
Qed.

Lemma clip_inside (x lo hi : Q) : lo <= x <= hi -> Py.clip x lo hi = x.
Proof.
  intros [H1 H2]. unfold Py.clip.
  assert (E1 : (x <? lo) = false) by (apply Qltb_ge; exact H1). rewrite E1.
  assert (E2 : (hi <? x) = false) by (apply Qltb_ge; exact H2). rewrite E2.
  reflexivity.
Qed.

Lemma clip_monotone (x y lo hi : Q) :
  lo <= hi -> x <= y -> Py.clip x lo hi <= Py.clip y lo hi.
Proof.
  intros Hlh Hxy. unfold Py.clip.
  destruct (x <? lo) eqn:E1; [apply Qltb_lt in E1 | apply Qltb_ge in E1];
  destruct (y <? lo) eqn:E2; [apply Qltb_lt in E2 | apply Qltb_ge in E2 |
                              apply Qltb_lt in E2 | apply Qltb_ge in E2];
  repeat match goal with
         | |- context [if ?a <? ?b then _ else _] =>
             let E := fresh "E" in
             destruct (a <? b) eqn:E; [apply Qltb_lt in E | apply Qltb_ge in E]
         end; lra.
Qed.

(** The normalised voltage curve of [_calculate_voltage]. *)
Lemma voltage_norm_monotone (a b : Q) :
  a <= b ->
  (if a / 100.0 <? 0.1 then 0.0 + (a / 100.0 / 0.1) * 0.2
   else if a / 100.0 <? 0.9 then 0.2 + ((a / 100.0 - 0.1) / 0.8) * 0.6
   else 0.8 + ((a / 100.0 - 0.9) / 0.1) * 0.2)
  <= (if b / 100.0 <? 0.1 then 0.0 + (b / 100.0 / 0.1) * 0.2
      else if b / 100.0 <? 0.9 then 0.2 + ((b / 100.0 - 0.1) / 0.8) * 0.6
      else 0.8 + ((b / 100.0 - 0.9) / 0.1) * 0.2).
Proof.
  intro H.
  repeat match goal with
         | |- context [if ?x <? ?y then _ else _] =>
             let E := fresh "E" in
             destruct (x <? y) eqn:E; [apply Qltb_lt in E | apply Qltb_ge in E]
         end; qdiv; lra.
Qed.

Lemma calculate_voltage_monotone sp (a b : Q) :
  min_voltage sp <= max_voltage sp -> a <= b ->
  _calculate_voltage sp a <= _calculate_voltage sp b.
Proof.
  intros Hv H. unfold _calculate_voltage. cbv zeta.
  pose proof (voltage_norm_monotone a b H) as Hn.
  set (na := if a / 100.0 <? 0.1 then _ else _) in *.
  set (nb := if b / 100.0 <? 0.1 then _ else _) in *.
  assert (Hr : 0 <= max_voltage sp - min_voltage sp) by lra.
  pose proof (Qmult_le_compat_r na nb _ Hn Hr). lra.
Qed.

Lemma calculate_voltage_ends sp :
  _calculate_voltage sp 0 == min_voltage sp /\
  _calculate_voltage sp 100 == max_voltage sp.
Proof.
  unfold _calculate_voltage. cbv zeta.
  assert (E0 : (0 / 100.0 <? 0.1) = true) by reflexivity.
  assert (E1 : (100 / 100.0 <? 0.1) = false) by reflexivity.
  assert (E2 : (100 / 100.0 <? 0.9) = false) by reflexivity.
  rewrite E0, E1, E2. split; qdiv; ring.
Qed.

(** X5: For a pack with min_voltage <= max_voltage, _calculate_voltage never
    decreases when the SoC increases, gives min_voltage at 0 % and max_voltage
    at 100 %, and stays between the two for every SoC in [0, 100]. *)
Theorem open_circuit_voltage_curve :
  forall (sp : BatterySpecs),
    min_voltage sp <= max_voltage sp ->
    (forall soc1 soc2, soc1 <= soc2 ->
       _calculate_voltage sp soc1 <= _calculate_voltage sp soc2) /\
    _calculate_voltage sp 0 == min_voltage sp /\
    _calculate_voltage sp 100 == max_voltage sp /\
    (forall soc0, 0 <= soc0 <= 100 ->
       min_voltage sp <= _calculate_voltage sp soc0 <= max_voltage sp).
Proof.
  intros sp Hv. destruct (calculate_voltage_ends sp) as [E0 E1].
  split; [intros a b; apply calculate_voltage_monotone; exact Hv|].
  split; [exact E0|]. split; [exact E1|].
  intros s [H0 H1].
  pose proof (calculate_voltage_monotone sp 0 s Hv H0).
  pose proof (calculate_voltage_monotone sp s 100 Hv H1). lra.
Qed.

Lemma open_circuit_voltage_curve_witness :
  (forall soc1 soc2, soc1 <= soc2 ->
     _calculate_voltage VEH001 soc1 <= _calculate_voltage VEH001 soc2) /\
  _calculate_voltage VEH001 0 == min_voltage VEH001 /\
  _calculate_voltage VEH001 100 == max_voltage VEH001 /\
  (forall soc0, 0 <= soc0 <= 100 ->
     min_voltage VEH001 <= _calculate_voltage VEH001 soc0 <= max_voltage VEH001).
Proof.
  apply (open_circuit_voltage_curve VEH001). vm_compute. discriminate.
Defined.

Lemma load_voltage_range self i :
  min_voltage (specs self) <= max_voltage (specs self) ->
  min_voltage (specs self) <= _calculate_voltage_under_load self i
  <= max_voltage (specs self).
Proof. intro H. unfold _calculate_voltage_under_load. apply clip_bounds, H. Qed.

(** X6: For a battery with non-zero divisors and min_voltage <= max_voltage,
    apply_current returns, the voltage it returns lies in [min_voltage,
    max_voltage], the power it returns is that voltage times the actual
    current, and the battery stores the same voltage and current. *)
Theorem terminal_voltage_clamped :
  forall (self : BatteryModel) (requested_current dt : Q),
    well_formed self ->
    min_voltage (specs self) <= max_voltage (specs self) ->
    exists actual v p self',
      apply_current self requested_current dt = inr ((actual, v, p), self') /\
      min_voltage (specs self) <= v <= max_voltage (specs self) /\
      p = v * actual /\
      voltage self' = v /\ current self' = actual.
Proof.
  intros self r dt (Hc & Hm & _) Hv.
  destruct (apply_current_fields self r dt Hc Hm) as (self' & Heq & Hvolt & _).
  cbv zeta in *. do 4 eexists. split; [exact Heq|].
  split; [apply load_voltage_range, Hv|]. auto.
Qed.

Lemma terminal_voltage_clamped_witness :
  let self := battery_model.init VEH001 5.0 25.0 100.0 in
  exists actual v p self',
    apply_current self (-1000) 1.0 = inr ((actual, v, p), self') /\
    min_voltage (specs self) <= v <= max_voltage (specs self) /\
    p = v * actual /\
    voltage self' = v /\ current self' = actual.
Proof.
  apply (terminal_voltage_clamped (battery_model.init VEH001 5.0 25.0 100.0) (-1000) 1.0).
  - apply init_VEH001_well_formed.
  - vm_compute. discriminate.
Defined.

Lemma max_of_nonpositive (x : Q) : x <= 0 -> Py.max 0 x = 0.
Proof.
  intro H. unfold Py.max.
  assert (E : (0 <? x) = false) by (apply Qltb_ge; exact H). rewrite E. reflexivity.
Qed.

Lemma times_zero (a b : Q) : b == 0 -> a * b == 0.
Proof. intro H. unfold Qeq in *. simpl in *. nia. Qed.

Lemma shutdown_limit_zero self :
  status (fst (check_temperature (thermal_safety self) (temperature self))) = SHUTDOWN ->
  combined_limit self == 0.
Proof.
  intro H. unfold combined_limit. rewrite power_limit_of_status, H.
  cbn [limit_of_status].
  pose proof (temperature_derate_pos (temperature self)) as Hd.
  destruct (min_cases (temperature_derate (temperature self)) 0.0) as [[_ ->]|[Hle _]];
    [reflexivity | lra].
Qed.

(** The applied current when the combined limit is zero. *)
Lemma limited_current_zero (r maxc maxd limit taper : Q) (above : bool) :
  limit == 0 ->
  (if r >? 0 then Py.min r (if above then maxc * limit * taper else maxc * limit)
   else Py.max r (maxd * limit)) == 0.
Proof.
  intro Hl.
  assert (E1 : maxc * limit * taper == 0) by (rewrite Hl; ring).
  assert (E2 : maxc * limit == 0) by (rewrite Hl; ring).
  assert (E3 : maxd * limit == 0) by (rewrite Hl; ring).
  destruct (r >? 0) eqn:Er; [apply Qltb_lt in Er | apply Qltb_ge in Er].
  - destruct above;
      match goal with |- Py.min r ?x == 0 =>
        destruct (min_cases r x) as [[_ ->]|[Hle ->]]; lra end.
  - destruct (max_cases r (maxd * limit)) as [[_ ->]|[Hle ->]]; lra.
Qed.

Lemma soc_unchanged_by_zero_current self v i dt :
  ~ effective_capacity_kwh self == 0 ->
  0 <= soc self <= 100 ->
  i == 0 ->
  Py.clip (soc self + (v * i * dt / 3600.0) / (effective_capacity_kwh self * 1000) * 100)
          0.0 100.0 == soc self.
Proof.
  intros Hc Hs Hi.
  set (x := soc self + _).
  assert (Ex : x == soc self).
  { subst x. rewrite Hi. field. exact Hc. }
  rewrite clip_inside; [exact Ex | rewrite Ex; lra].
Qed.

(** X7: For a battery with non-zero divisors and SoC in [0, 100]: when the
    thermal-safety check of the battery temperature reports Shutdown,
    apply_current applies no current, whatever is requested; the actual
    current and the power are 0 and the SoC keeps its value. *)
Theorem thermal_shutdown_blocks_current :
  forall (self : BatteryModel) (requested_current dt : Q),
    well_formed self ->
    0 <= soc self <= 100 ->
    status (fst (check_temperature (thermal_safety self) (temperature self))) = SHUTDOWN ->
    exists actual v p self',
      apply_current self requested_current dt = inr ((actual, v, p), self') /\
      actual == 0 /\ p == 0 /\ soc self' == soc self.
Proof.
  intros self r dt (Hc & Hm & _) Hs Hsd.
  destruct (apply_current_fields self r dt Hc Hm) as (self' & Heq & _ & _ & Hi & Hsoc & _).
  cbv zeta in *.
  assert (Hz : current self' == 0).
  { rewrite Hi.
    apply (limited_current_zero r (max_charge_current (specs self))
             (max_discharge_current (specs self)) (combined_limit self)
             (Py.max 0.1 (1.0 - (soc self - 80) / 20)) (soc self >? 80)).
    apply shutdown_limit_zero, Hsd. }
  do 4 eexists. split; [exact Heq|]. split; [exact Hz|].
  split; [apply times_zero, Hz|].
  rewrite Hsoc. apply soc_unchanged_by_zero_current; assumption.
Qed.

Lemma thermal_shutdown_blocks_current_witness :
  let self := battery_model.init VEH001 50.0 61.0 100.0 in
  exists actual v p self',
    apply_current self 150 1.0 = inr ((actual, v, p), self') /\
    actual == 0 /\ p == 0 /\ soc self' == soc self.
Proof.
  apply (thermal_shutdown_blocks_current (battery_model.init VEH001 50.0 61.0 100.0) 150 1.0).
  - apply init_VEH001_well_formed.
  - simpl. lra.
  - reflexivity.
Defined.

(** The applied current lies between zero and the request. *)
Lemma limited_current_between (r maxc maxd limit taper : Q) (above : bool) :
  0 <= maxc -> maxd <= 0 -> 0 <= limit -> 0 <= taper ->
  let i := if r >? 0 then Py.min r (if above then maxc * limit * taper else maxc * limit)
           else Py.max r (maxd * limit) in
  (0 < r -> 0 <= i <= r) /\ (r <= 0 -> r <= i <= 0).
Proof.
  intros Hc Hd Hl Ht. cbv zeta.
  assert (E2 : 0 <= maxc * limit) by (apply Qmult_le_0_compat; assumption).
  assert (E1 : 0 <= maxc * limit * taper) by (apply Qmult_le_0_compat; assumption).
  assert (E3 : maxd * limit <= 0).
  { rewrite <- (Qmult_0_l limit). apply Qmult_le_compat_r; assumption. }
  destruct (r >? 0) eqn:Er; [apply Qltb_lt in Er | apply Qltb_ge in Er].
  - split; [intros _|intro; lra].
    destruct above;
      match goal with |- _ <= Py.min r ?x <= _ =>
        destruct (min_cases r x) as [[? ->]|[? ->]]; lra end.
  - split; [intro; lra|intros _].
    destruct (max_cases r (maxd * limit)) as [[? ->]|[? ->]]; lra.
Qed.

Lemma soc_change_sign (v i dt cap : Q) :
  0 <= v -> 0 <= dt -> 0 < cap ->
  (0 <= i -> 0 <= (v * i * dt / 3600.0) / (cap * 1000) * 100) /\
  (i <= 0 -> (v * i * dt / 3600.0) / (cap * 1000) * 100 <= 0).
Proof.
  intros Hv Hdt Hcap.
  assert (Hk : 0 <= v * dt * (100 / 3600.0 / 1000) / cap).
  { apply Qle_shift_div_l; [exact Hcap|].
    rewrite Qmult_0_l. apply Qmult_le_0_compat; [|discriminate].
    apply Qmult_le_0_compat; assumption. }
  assert (E : (v * i * dt / 3600.0) / (cap * 1000) * 100
              == i * (v * dt * (100 / 3600.0 / 1000) / cap)).
  { field. lra. }
  rewrite E. split; intro Hi.
  - apply Qmult_le_0_compat; assumption.
  - rewrite <- (Qmult_0_l (v * dt * (100 / 3600.0 / 1000) / cap)).
    apply Qmult_le_compat_r; assumption.
Qed.

(** X8: For a battery with non-zero divisors, positive capacity, 0 <=
    min_voltage <= max_voltage, max_charge_current >= 0, max_discharge_current
    <= 0, dt >= 0 and SoC in [0, 100]: a positive request gives an actual
    current between 0 and the request and never lowers the SoC; a request of
    zero or less gives an actual current between the request and 0 and never
    raises the SoC. *)
Theorem applied_current_follows_request :
  forall (self : BatteryModel) (requested_current dt : Q),
    well_formed self ->
    0 < effective_capacity_kwh self ->
    0 <= min_voltage (specs self) <= max_voltage (specs self) ->
    0 <= max_charge_current (specs self) ->
    max_discharge_current (specs self) <= 0 ->
    0 <= dt ->
    0 <= soc self <= 100 ->
    exists actual v p self',
      apply_current self requested_current dt = inr ((actual, v, p), self') /\
      (0 < requested_current ->
       0 <= actual <= requested_current /\ soc self <= soc self') /\
      (requested_current <= 0 ->
       requested_current <= actual <= 0 /\ soc self' <= soc self).
Proof.
  intros self r dt (Hc & Hm & _) Hcap Hv Hmc Hmd Hdt Hs.
  destruct (apply_current_fields self r dt Hc Hm) as (self' & Heq & _ & _ & Hi & Hsoc & _).
  cbv zeta in *.
  pose proof (limited_current_between r (max_charge_current (specs self))
                (max_discharge_current (specs self)) (combined_limit self)
                (Py.max 0.1 (1.0 - (soc self - 80) / 20)) (soc self >? 80)
                Hmc Hmd (combined_limit_nonneg self)) as Hb.
  assert (Ht : 0 <= Py.max 0.1 (1.0 - (soc self - 80) / 20)).
  { destruct (max_cases 0.1 (1.0 - (soc self - 80) / 20)) as [[? ->]|[? ->]]; lra. }
  specialize (Hb Ht). cbv zeta in Hb. rewrite <- Hi in Hb. destruct Hb as [Hpos Hneg].
  set (v := _calculate_voltage_under_load self (current self')) in *.
  assert (Hv0 : 0 <= v).
  { pose proof (load_voltage_range self (current self')) as Hr.
    assert (Hmm : min_voltage (specs self) <= max_voltage (specs self)) by lra.
    specialize (Hr Hmm). subst v. lra. }
  destruct (soc_change_sign v (current self') dt (effective_capacity_kwh self) Hv0 Hdt Hcap)
    as [Hup Hdown].
  assert (Hsame : Py.clip (soc self) 0.0 100.0 = soc self) by (apply clip_inside; lra).
  assert (H100 : 0.0 <= 100.0) by lra.
  do 4 eexists. split; [exact Heq|]. split.
  - intro Hr. specialize (Hpos Hr). split; [exact Hpos|].
    rewrite Hsoc. rewrite <- Hsame at 1. apply clip_monotone; [exact H100|].
    destruct Hpos as [Hp _]. specialize (Hup Hp). lra.
  - intro Hr. specialize (Hneg Hr). split; [exact Hneg|].
    rewrite Hsoc. rewrite <- Hsame at 2. apply clip_monotone; [exact H100|].
    destruct Hneg as [_ Hn]. specialize (Hdown Hn). lra.
Qed.

Lemma applied_current_follows_request_witness :
  let self := battery_model.init VEH001 80.0 25.0 100.0 in
  exists actual v p self',
    apply_current self (-300) 1.0 = inr ((actual, v, p), self') /\
    (0 < -300 -> 0 <= actual <= -300 /\ soc self <= soc self') /\
    (-300 <= 0 -> -300 <= actual <= 0 /\ soc self' <= soc self).
Proof.
  apply (applied_current_follows_request
           (battery_model.init VEH001 80.0 25.0 100.0) (-300) 1.0).
  - apply init_VEH001_well_formed.
  - vm_compute. reflexivity.
  - split; vm_compute; discriminate.
  - vm_compute. discriminate.
  - vm_compute. discriminate.
  - vm_compute. discriminate.
  - split; vm_compute; discriminate.
Defined.

(** X9: With a zero request on a battery with non-zero divisors
    (max_discharge_current <= 0, thermal_mass > 0, 0 <= dt <= thermal_mass *
    10^6) apply_current applies no current and moves the battery temperature
    towards the ambient temperature without crossing it. *)
Theorem idle_battery_relaxes_to_ambient :
  forall (self : BatteryModel) (dt : Q),
    well_formed self ->
    max_discharge_current (specs self) <= 0 ->
    0 < thermal_mass (specs self) ->
    0 <= dt <= thermal_mass (specs self) * 1000000 ->
    exists v self',
      apply_current self 0 dt = inr ((0, v, v * 0), self') /\
      (ambient_temp self <= temperature self ->
       ambient_temp self <= temperature self' <= temperature self) /\
      (temperature self <= ambient_temp self ->
       temperature self <= temperature self' <= ambient_temp self).
Proof.
  intros self dt (Hc & Hm & _) Hd Hmass Hdt.
  destruct (apply_current_fields self 0 dt Hc Hm)
    as (self' & Heq & _ & _ & Hi & _ & Htemp).
  cbv zeta in *.
  assert (E : (0 >? 0) = false) by reflexivity. rewrite E in Hi.
  rewrite max_of_nonpositive in Hi.
  2:{ pose proof (combined_limit_nonneg self) as Hl.
      rewrite <- (Qmult_0_l (combined_limit self)).
      apply Qmult_le_compat_r; assumption. }
  rewrite Hi in *. set (v := _calculate_voltage_under_load self 0) in *.
  assert (Ep : (v * 0 >? 0) = false).
  { apply Qltb_ge. assert (Ez : v * 0 == 0) by ring. lra. }
  rewrite Ep in Htemp.
  set (m := thermal_mass (specs self)) in *.
  set (T := temperature self) in *. set (Ta := ambient_temp self) in *.
  set (k := dt * 0.001 / (m * 1000)).
  assert (Hk0 : 0 <= k).
  { subst k. apply Qle_shift_div_l; [lra|]. lra. }
  assert (Hk1 : k <= 1).
  { subst k. apply Qle_shift_div_r; [lra|]. lra. }
  assert (ET : temperature self' == T - (T - Ta) * k).
  { rewrite Htemp. subst k. change (Qabs 0 ^ 2) with 0. field. lra. }
  exists v, self'. split; [exact Heq|]. rewrite ET. split; intro H.
  - assert (Hd0 : 0 <= T - Ta) by lra.
    pose proof (Qmult_le_0_compat _ _ Hd0 Hk0) as Hlo.
    assert (Hk2 : 0 <= 1 - k) by lra.
    pose proof (Qmult_le_0_compat _ _ Hd0 Hk2) as Hhi. lra.
  - assert (Hd0 : 0 <= Ta - T) by lra.
    pose proof (Qmult_le_0_compat _ _ Hd0 Hk0) as Hlo.
    assert (Hk2 : 0 <= 1 - k) by lra.
    pose proof (Qmult_le_0_compat _ _ Hd0 Hk2) as Hhi. lra.
Qed.

Lemma idle_battery_relaxes_to_ambient_witness :
  let self := battery_model.init VEH001 80.0 35.0 100.0 in
  exists v self',
    apply_current self 0 1.0 = inr ((0, v, v * 0), self') /\
    (ambient_temp self <= temperature self ->
     ambient_temp self <= temperature self' <= temperature self) /\
    (temperature self <= ambient_temp self ->
     temperature self <= temperature self' <= ambient_temp self).
Proof.
  apply (idle_battery_relaxes_to_ambient (battery_model.init VEH001 80.0 35.0 100.0) 1.0).
  - apply init_VEH001_well_formed.
  - vm_compute. discriminate.
  - vm_compute. reflexivity.
  - split; vm_compute; discriminate.
Defined.

End BatteryCurrentFacts.

(** ** The state of charge of a CC-CV session *)

Section ChargingSocFacts.

Import charging_patterns.

Variable np_exp : Q -> Q.
Variable self : ChargingPatternGenerator.
Variable charging_type : ChargingType.
Variables target_soc battery_capacity_kwh dt : Q.

Hypothesis exp_nonneg : forall x, 0 <= np_exp x.
Hypothesis voltage_pos : 0 < battery_voltage self.
Hypothesis capacity_pos : 0 < battery_capacity_kwh.
Hypothesis dt_pos : 0 < dt.

Lemma efficiency_pos : 0 < efficiency (CHARGING_SPECS charging_type).
Proof. destruct charging_type; reflexivity. Qed.

Lemma nominal_current_nonneg mc cv i st c f :
  0 <= mc -> cv <= 100 -> (0 <= i)%Z ->
  nominal_current np_exp charging_type target_soc dt mc cv i st = inr (c, f) ->
  0 <= c.
Proof.
  intros Hmc Hcv Hi. unfold nominal_current.
  destruct (current_soc st >=? target_soc).
  - intro H. injection H as <- _. lra.
  - destruct (current_soc st <? cv) eqn:Ecv.
    + apply Qltb_lt in Ecv.
      assert (Hpf : 0 <= match charging_type with
                         | SUPERCHARGER =>
                             mc * (if current_soc st <? 20 then 1.0
                                   else if current_soc st <? 50 then 0.9
                                   else 0.8 - (current_soc st - 50) * 0.005)
                         | _ => mc
                         end).
      { destruct charging_type; try exact Hmc.
        apply Qmult_le_0_compat; [exact Hmc|].
        destruct (current_soc st <? 20); [lra|].
        destruct (current_soc st <? 50); lra. }
      set (c0 := match charging_type with SUPERCHARGER => _ | _ => mc end) in *.
      rewrite div_nonzero by lra. unfold Py.bind. cbv beta iota.
      destruct (inject_Z i <? 10 / dt); intro H; injection H as <- _; [|exact Hpf].
      apply Qmult_le_0_compat; [exact Hpf|].
      apply Qle_shift_div_l; [lra|]. rewrite Qmult_0_l.
      apply Qmult_le_0_compat; [|lra].
      change 0 with (inject_Z 0). rewrite <- Zle_Qle. exact Hi.
    + intro H. injection H as <- _.
      apply Qmult_le_0_compat; [|lra].
      apply Qmult_le_0_compat; [exact Hmc | apply exp_nonneg].
Qed.

(** One iteration records an SoC of at most 100 that is not below the SoC
    it started from. *)
Lemma sample_soc mc cv i st :
  0 <= mc -> cv <= 100 -> (0 <= i)%Z ->
  exists c s f g,
    sample np_exp self charging_type target_soc battery_capacity_kwh dt mc cv i st =
      inr {| current_soc := s; completed := f;
             current_profile := current_profile st ++ [c];
             soc_profile := soc_profile st ++ [s];
             np_random := g |} /\
    s <= 100 /\ (current_soc st <= 100 -> current_soc st <= s).
Proof.
  intros Hmc Hcv Hi. unfold sample.
  pose proof (nominal_current_nonneg mc cv i st) as Hn.
  destruct (nominal_current _ _ _ _ mc cv i st) as [e|[c f]] eqn:En.
  - exfalso. revert En. unfold nominal_current.
    destruct (_ >=? _); [discriminate|].
    destruct (_ <? cv); [|discriminate].
    rewrite div_nonzero by lra. unfold Py.bind. cbv beta iota.
    destruct (_ <? _); discriminate.
  - specialize (Hn c f Hmc Hcv Hi eq_refl).
    unfold Py.bind at 1. cbv beta iota zeta.
    rewrite div_nonzero by lra. unfold Py.bind, Py.ret. cbv beta iota.
    destruct (add_variations c (np_random st)) as [c1 g1].
    do 4 eexists. split; [reflexivity|].
    pose proof efficiency_pos as He.
    set (eff := efficiency (CHARGING_SPECS charging_type)) in *.
    assert (Hinc : 0 <= c * eff * battery_voltage self * dt / 3600
                        / (battery_capacity_kwh * 1000) * 100).
    { apply Qmult_le_0_compat; [|lra].
      apply Qle_shift_div_l; [lra|]. rewrite Qmult_0_l.
      apply Qle_shift_div_l; [lra|]. rewrite Qmult_0_l.
      repeat apply Qmult_le_0_compat; lra. }
    match goal with |- Py.min ?a ?b <= _ /\ _ =>
      destruct (min_cases a b) as [[Hlt ->]|[Hle ->]] end; split; intros; lra.
Qed.

Lemma samples_from_soc mc cv n : forall i st,
  0 <= mc -> cv <= 100 -> (0 <= i)%Z ->
  exists st' cs ss,
    samples_from np_exp self charging_type target_soc battery_capacity_kwh dt mc cv n i st
    = inr st' /\
    current_profile st' = current_profile st ++ cs /\
    soc_profile st' = soc_profile st ++ ss /\
    length cs = n /\ length ss = n /\
    Forall (fun s => s <= 100) ss /\
    (current_soc st <= 100 ->
     forall k s s', (current_soc st :: ss) !! k = Some s -> ss !! k = Some s' -> s <= s').
Proof.
  induction n as [|n IH]; intros i st Hmc Hcv Hi.
  - exists st, [], []. simpl. rewrite !app_nil_r. repeat split; try reflexivity.
    + constructor.
    + intros _ k s s' _ H. destruct k; discriminate H.
  - destruct (sample_soc mc cv i st Hmc Hcv Hi) as (c & s1 & f & g & Hs & H100 & Hup).
    simpl. rewrite Hs. unfold Py.bind at 1. cbv beta iota.
    match goal with |- context [samples_from _ _ _ _ _ _ mc cv n _ ?st1] =>
      destruct (IH (i + 1)%Z st1 Hmc Hcv ltac:(lia))
        as (st' & cs & ss & Hrun & Hcp & Hsp & Hlc & Hls & Hall & Hstep) end.
    simpl in Hcp, Hsp, Hstep.
    exists st', (c :: cs), (s1 :: ss). split; [exact Hrun|].
    rewrite <- !app_assoc in Hcp, Hsp. simpl in Hcp, Hsp.
    split; [exact Hcp|]. split; [exact Hsp|].
    split; [simpl; lia|]. split; [simpl; lia|].
    split; [constructor; assumption|].
    intros H0 k s s' Hl Hl'. destruct k as [|k].
    + simpl in Hl, Hl'. injection Hl as <-. injection Hl' as <-. apply Hup, H0.
    + simpl in Hl, Hl'. apply (Hstep H100 k s s' Hl Hl').
Qed.

End ChargingSocFacts.

(** X10: With a non-negative exponential, positive battery voltage, capacity
    and dt, generate_cc_cv_profile returns, no recorded SoC exceeds 100, and
    when the initial SoC is at most 100 every recorded SoC is at least the one
    before it (the first at least the initial SoC). *)
Theorem charging_soc_never_decreases :
  forall (np_exp : Q -> Q) (self : charging_patterns.ChargingPatternGenerator)
         (charging_type : charging_patterns.ChargingType)
         (initial_soc target_soc battery_capacity_kwh : Q)
         (duration_seconds : Z) (dt : Q) (g : rng.Generator),
    (forall x, 0 <= np_exp x) ->
    0 < charging_patterns.battery_voltage self ->
    0 < battery_capacity_kwh ->
    0 < dt ->
    exists currents socs completed g',
      charging_patterns.generate_cc_cv_profile np_exp self charging_type
        target_soc battery_capacity_kwh dt initial_soc duration_seconds g
      = inr (currents, socs, completed, g') /\
      Forall (fun s => s <= 100) socs /\
      (initial_soc <= 100 ->
       forall k s s', (initial_soc :: socs) !! k = Some s -> socs !! k = Some s' -> s <= s').
Proof.
  intros np_exp self ty initial_soc target cap duration dt g Hexp Hv Hcap Hdt.
  unfold charging_patterns.generate_cc_cv_profile.
  rewrite div_nonzero by lra. unfold Py.bind at 1. cbv beta iota zeta.
  rewrite div_nonzero by lra. unfold Py.bind at 1. cbv beta iota zeta.
  match goal with |- context [charging_patterns.samples_from _ _ _ _ _ _ ?mc ?cv ?n ?i ?st] =>
    destruct (samples_from_soc np_exp self ty target cap dt Hexp Hv Hcap Hdt mc cv n i st)
      as (st' & cs & ss & Hrun & Hcp & Hsp & _ & _ & Hall & Hstep)
  end.
  - apply Qle_shift_div_l; [exact Hv|]. rewrite Qmult_0_l.
    apply Qmult_le_0_compat; [|lra]. destruct ty; discriminate.
  - destruct ty; lra.
  - lia.
  - rewrite Hrun. unfold Py.bind, Py.ret. cbv beta iota.
    simpl in Hsp, Hstep. rewrite Hsp.
    do 4 eexists. split; [reflexivity|]. split; [exact Hall | exact Hstep].
Qed.

Lemma charging_soc_never_decreases_witness :
  exists currents socs completed g',
    charging_patterns.generate_cc_cv_profile (fun _ => 1)
      {| charging_patterns.battery_voltage := 350.0 |} charging_patterns.AC_L2
      80.0 82.0 1.0 79.999 3 (rng.constant {| rng.bits := 2 ^ 52; rng.gauss := 0 |})
    = inr (currents, socs, completed, g') /\
    Forall (fun s => s <= 100) socs /\
    (79.999 <= 100 ->
     forall k s s', (79.999 :: socs) !! k = Some s -> socs !! k = Some s' -> s <= s').
Proof.
  apply (charging_soc_never_decreases (fun _ => 1)
           {| charging_patterns.battery_voltage := 350.0 |} charging_patterns.AC_L2
           79.999 80.0 82.0 3 1.0).
  - intros _. discriminate.
  - reflexivity.
  - reflexivity.
  - reflexivity.
Defined.

(** ** Smart charging *)

Section SmartChargingFacts.

Import charging_patterns.

Lemma for_each_res_appends {A B} (body : A -> list B -> Py.Res (list B)) :
  (forall x s, exists v, body x s = inr (s ++ [v])) ->
  forall xs s,
    exists vs, Pylist.for_each_res xs body s = inr (s ++ vs) /\ length vs = length xs.
Proof.
  intro Hbody. induction xs as [|x xs IH]; intro s; simpl.
  - exists []. rewrite app_nil_r. split; reflexivity.
  - destruct (Hbody x s) as [v ->]. unfold Py.bind. cbv beta iota.
    destruct (IH (s ++ [v])) as (vs & -> & Hl).
    exists (v :: vs). rewrite <- app_assoc. split; [reflexivity | simpl; lia].
Qed.

Lemma default_price_returns dt i : exists p, default_price dt i = inr p.
Proof.
  unfold default_price, Py.fmod.
  assert (E : (24 ==? 0) = false) by reflexivity. rewrite E.
  unfold Py.bind, Py.ret. cbv beta iota.
  destruct (_ || _); [eexists; reflexivity|].
  destruct (_ && _); eexists; reflexivity.
Qed.

Lemma range_bounds n i : In i (Pylist.range n) -> (0 <= i < Z.of_nat (Z.to_nat n))%Z.
Proof.
  unfold Pylist.range. rewrite in_map_iff. intros (k & <- & Hk).
  apply in_seq in Hk. lia.
Qed.

Variable self : ChargingPatternGenerator.
Variables target_soc battery_capacity_kwh dt : Q.
Hypothesis capacity_nonzero : ~ battery_capacity_kwh == 0.

(** One iteration with a price for its index. *)
Lemma smart_sample_ok prices mc i st :
  (0 <= i < Z.of_nat (length prices))%Z ->
  exists c s,
    smart_sample self target_soc battery_capacity_kwh dt prices mc i st =
      inr {| smart_soc := s;
             smart_current_profile := smart_current_profile st ++ [c];
             smart_soc_profile := smart_soc_profile st ++ [s] |} /\
    (smart_soc st <= target_soc -> s <= target_soc) /\
    (target_soc <= smart_soc st -> c = 0 /\ s = smart_soc st) /\
    (c = 0 \/ c = mc \/ c = mc * 0.5 \/ c = mc * 0.1).
Proof.
  intro Hi. unfold smart_sample. cbv zeta.
  assert (Hcap : ~ battery_capacity_kwh * 1000 == 0) by (intro H; apply capacity_nonzero; lra).
  assert (Hstep : forall c,
    exists s,
      (if c >? 0
       then let* ratio := Py.div (c * battery_voltage self * efficiency (CHARGING_SPECS AC_L2)
                                  * dt / 3600) (battery_capacity_kwh * 1000) in
            Py.ret (Py.min (smart_soc st + ratio * 100) target_soc)
       else Py.ret (smart_soc st)) = inr s /\
      (smart_soc st <= target_soc -> s <= target_soc) /\
      (c = 0 -> s = smart_soc st)).
  { intro c. destruct (c >? 0) eqn:Ec.
    - rewrite (div_nonzero _ _ Hcap). unfold Py.bind, Py.ret. cbv beta iota.
      eexists. split; [reflexivity|]. split.
      + intros _. match goal with |- Py.min ?a ?b <= _ =>
          destruct (min_cases a b) as [[? ->]|[? ->]]; lra end.
      + intros ->. discriminate Ec.
    - eexists. split; [reflexivity|]. split; [tauto | reflexivity]. }
  destruct (smart_soc st >=? target_soc) eqn:Er.
  - unfold Py.ret at 1, Py.bind at 1. cbv beta iota.
    destruct (Hstep 0) as (s & -> & Hle & Heq).
    unfold Py.bind, Py.ret. cbv beta iota.
    exists 0, s. split; [reflexivity|]. split; [exact Hle|].
    split; [intros _; split; [reflexivity | apply Heq; reflexivity] | left; reflexivity].
  - apply Qleb_gt in Er.
    destruct (getitem_in_range prices i Hi) as [price ->].
    unfold Py.bind at 2. cbv beta iota.
    destruct (price <? 0.12); [|destruct (price <? 0.20); [|destruct (smart_soc st <? 20)]];
      unfold Py.ret at 1, Py.bind at 1; cbv beta iota;
      match goal with |- context [if ?c >? 0 then _ else _] =>
        destruct (Hstep c) as (s & -> & Hle & Heq); exists c, s end;
      unfold Py.bind, Py.ret; cbv beta iota;
      (split; [reflexivity|]); (split; [exact Hle|]); (split; [intro; lra|]); tauto.
Qed.

Lemma smart_samples_ok prices mc : forall xs st,
  Forall (fun i => (0 <= i < Z.of_nat (length prices))%Z) xs ->
  exists st' cs ss,
    Pylist.for_each_res xs
      (smart_sample self target_soc battery_capacity_kwh dt prices mc) st = inr st' /\
    smart_current_profile st' = smart_current_profile st ++ cs /\
    smart_soc_profile st' = smart_soc_profile st ++ ss /\
    length cs = length xs /\ length ss = length xs /\
    (smart_soc st <= target_soc -> Forall (fun s => s <= target_soc) ss) /\
    Forall (fun c => c = 0 \/ c = mc \/ c = mc * 0.5 \/ c = mc * 0.1) cs /\
    (forall k s, (smart_soc st :: ss) !! k = Some s -> target_soc <= s ->
                 (k < length cs)%nat -> cs !! k = Some 0 /\ ss !! k = Some s).
Proof.
  induction xs as [|x xs IH]; intros st Hall.
  - exists st, [], []. simpl. rewrite !app_nil_r. repeat split; try constructor.
    all: simpl in *; lia.
  - inversion Hall as [|? ? Hx Hxs]; subst.
    destruct (smart_sample_ok prices mc x st Hx) as (c & s1 & Hs & Hle & Hreach & Hc).
    simpl. rewrite Hs. unfold Py.bind at 1. cbv beta iota.
    match goal with |- context [Pylist.for_each_res xs _ ?st1] =>
      destruct (IH st1 Hxs) as (st' & cs & ss & Hrun & Hcp & Hsp & Hlc & Hls
                                & Hbound & Hvals & Hstay) end.
    simpl in Hcp, Hsp, Hbound, Hstay.
    exists st', (c :: cs), (s1 :: ss). split; [exact Hrun|].
    rewrite <- !app_assoc in Hcp, Hsp. simpl in Hcp, Hsp.
    split; [exact Hcp|]. split; [exact Hsp|].
    split; [simpl; lia|]. split; [simpl; lia|].
    split; [intro H0; constructor; [apply Hle, H0 | apply Hbound, Hle, H0]|].
    split; [constructor; assumption|].
    intros k s Hk Ht Hlen. destruct k as [|k].
    + simpl in Hk. injection Hk as <-. destruct (Hreach Ht) as [-> ->].
      split; reflexivity.
    + simpl in Hk, Hlen. simpl. apply (Hstay k s Hk Ht). lia.
Qed.

End SmartChargingFacts.

(** X11: generate_smart_charging with the default prices (dt, battery voltage
    and capacity not zero) returns as many currents as SoCs, whatever the
    sample count int(duration_seconds / dt) comes to; with initial_soc <=
    target_soc no SoC exceeds the target; every current is 0, the L2 maximum,
    half or a tenth of it; and a sample that starts with the SoC at or above
    the target gets current 0 and keeps the SoC. *)
Theorem smart_charging_stops_at_target :
  forall (self : charging_patterns.ChargingPatternGenerator)
         (initial_soc target_soc battery_capacity_kwh : Q) (duration_seconds : Z) (dt : Q),
    ~ dt == 0 ->
    ~ charging_patterns.battery_voltage self == 0 ->
    ~ battery_capacity_kwh == 0 ->
    let max_current := 11.0 * 1000 / charging_patterns.battery_voltage self in
    exists currents socs,
      charging_patterns.generate_smart_charging self initial_soc target_soc
        battery_capacity_kwh duration_seconds None dt = inr (currents, socs) /\
      length currents = length socs /\
      (initial_soc <= target_soc -> Forall (fun s => s <= target_soc) socs) /\
      Forall (fun c => c = 0 \/ c = max_current \/ c = max_current * 0.5
                       \/ c = max_current * 0.1) currents /\
      (forall k s, (initial_soc :: socs) !! k = Some s -> target_soc <= s ->
                   (k < length socs)%nat ->
                   currents !! k = Some 0 /\ socs !! k = Some s).
Proof.
  intros self initial target cap duration dt Hdt Hv Hcap. cbv zeta.
  unfold charging_patterns.generate_smart_charging.
  rewrite (div_nonzero _ _ Hdt). unfold Py.bind at 1. cbv beta iota zeta.
  set (samples := Py.int_of_float (inject_Z duration / dt)).
  destruct (for_each_res_appends
              (fun i prices => let* price := charging_patterns.default_price dt i in
                               Py.ret (prices ++ [price]))
              ltac:(intros x s; destruct (default_price_returns dt x) as [p ->];
                    exists p; reflexivity)
              (Pylist.range samples) []) as (prices & Hprices & Hlen).
  rewrite Hprices. simpl app. unfold Py.bind at 1. cbv beta iota.
  unfold charging_patterns.smart_charging_samples. cbv zeta.
  rewrite (div_nonzero _ _ Hv). unfold Py.bind at 1. cbv beta iota.
  rewrite range_length in Hlen.
  match goal with |- context [Pylist.for_each_res _ ?body ?st] =>
    destruct (smart_samples_ok self target cap dt Hcap prices
                (charging_patterns.max_power_kw
                   (charging_patterns.CHARGING_SPECS charging_patterns.AC_L2)
                 * 1000 / charging_patterns.battery_voltage self)
                (Pylist.range samples) st)
      as (st' & cs & ss & Hrun & Hcp & Hsp & Hlc & Hls & Hbound & Hvals & Hstay)
  end.
  { apply List.Forall_forall. intros i Hi. apply range_bounds in Hi.
    rewrite Hlen. exact Hi. }
  rewrite Hrun. unfold Py.bind, Py.ret. cbv beta iota.
  simpl in Hcp, Hsp, Hbound, Hstay. rewrite Hcp, Hsp.
  rewrite range_length in Hlc, Hls.
  exists cs, ss. split; [reflexivity|].
  split; [lia|]. split; [exact Hbound|].
  split; [exact Hvals|].
  intros k s Hk Ht Hlt. apply (Hstay k s Hk Ht). lia.
Qed.

Lemma smart_charging_stops_at_target_witness :
  let max_current := 11.0 * 1000 / 350.0 in
  exists currents socs,
    charging_patterns.generate_smart_charging {| charging_patterns.battery_voltage := 350.0 |}
      79.9999 80.0 82.0 3 None 1.0 = inr (currents, socs) /\
    length currents = length socs /\
    (79.9999 <= 80.0 -> Forall (fun s => s <= 80.0) socs) /\
    Forall (fun c => c = 0 \/ c = max_current \/ c = max_current * 0.5
                     \/ c = max_current * 0.1) currents /\
    (forall k s, (79.9999 :: socs) !! k = Some s -> 80.0 <= s ->
                 (k < length socs)%nat ->
                 currents !! k = Some 0 /\ socs !! k = Some s).
Proof.
  apply (smart_charging_stops_at_target {| charging_patterns.battery_voltage := 350.0 |}
           79.9999 80.0 82.0 3 1.0); vm_compute; discriminate.
Defined.

Section SmartChargingPrices.

Import charging_patterns.

Lemma for_each_res_app {A S} (body : A -> S -> Py.Res S) xs ys s :
  Pylist.for_each_res (xs ++ ys) body s =
  let* s1 := Pylist.for_each_res xs body s in Pylist.for_each_res ys body s1.
Proof.
  revert s. induction xs as [|x xs IH]; intro s; simpl; [reflexivity|].
  destruct (body x s) as [e|s1]; simpl; [reflexivity | apply IH].
Qed.

Lemma range_split (n : Z) (k : nat) :
  (k < Z.to_nat n)%nat ->
  exists rest,
    Pylist.range n = Pylist.range (Z.of_nat k) ++ Z.of_nat k :: rest.
Proof.
  intro Hk. unfold Pylist.range. rewrite Nat2Z.id.
  replace (Z.to_nat n) with (k + S (Z.to_nat n - S k))%nat by lia.
  rewrite seq_app, map_app. simpl. eexists. reflexivity.
Qed.

Variable self : ChargingPatternGenerator.
Variables target_soc battery_capacity_kwh dt : Q.

(** At peak prices a battery of 20 % or more is not charged. *)
Lemma peak_price_sample prices mc i st :
  (0 <= i < Z.of_nat (length prices))%Z ->
  Forall (fun p => 0.20 <= p) prices ->
  20 <= smart_soc st ->
  exists st',
    smart_sample self target_soc battery_capacity_kwh dt prices mc i st = inr st' /\
    smart_soc st' = smart_soc st /\
    smart_current_profile st' = smart_current_profile st ++ [0].
Proof.
  intros Hi Hpeak Hs. unfold smart_sample. cbv zeta.
  assert (E0 : (0 >? 0) = false) by reflexivity.
  destruct (smart_soc st >=? target_soc).
  - unfold Py.ret at 1, Py.bind at 1. cbv beta iota. rewrite E0.
    unfold Py.bind, Py.ret. cbv beta iota. eexists. repeat split; reflexivity.
  - destruct (getitem_in_range prices i Hi) as [price Hp]. rewrite Hp.
    assert (Hprice : 0.20 <= price).
    { revert Hp. unfold Pylist.getitem, Pylist.position.
      assert (E1 : (i <? 0)%Z = false) by (apply Z.ltb_ge; lia).
      assert (E2 : ((i <? 0) || (Z.of_nat (length prices) <=? i))%Z = false).
      { apply orb_false_iff. split; [exact E1 | apply Z.leb_gt; lia]. }
      rewrite E1, E2. unfold Py.ret, Py.bind.
      destruct (prices !! Z.to_nat i) as [p|] eqn:El; [|discriminate].
      intro H. injection H as <-.
      rewrite Forall_lookup in Hpeak. apply (Hpeak _ _ El). }
    unfold Py.bind at 2. cbv beta iota.
    assert (E1 : (price <? 0.12) = false) by (apply Qltb_ge; lra).
    assert (E2 : (price <? 0.20) = false) by (apply Qltb_ge; lra).
    assert (E3 : (smart_soc st <? 20) = false) by (apply Qltb_ge; lra).
    rewrite E1, E2, E3. unfold Py.ret at 1, Py.bind at 1. cbv beta iota. rewrite E0.
    unfold Py.bind, Py.ret. cbv beta iota. eexists. repeat split; reflexivity.
Qed.

Lemma peak_price_samples prices mc : forall xs st,
  Forall (fun i => (0 <= i < Z.of_nat (length prices))%Z) xs ->
  Forall (fun p => 0.20 <= p) prices ->
  20 <= smart_soc st ->
  exists st',
    Pylist.for_each_res xs
      (smart_sample self target_soc battery_capacity_kwh dt prices mc) st = inr st' /\
    smart_soc st' = smart_soc st.
Proof.
  induction xs as [|x xs IH]; intros st Hall Hpeak Hs; simpl.
  - exists st. split; reflexivity.
  - inversion Hall as [|? ? Hx Hxs]; subst.
    destruct (peak_price_sample prices mc x st Hx Hpeak Hs) as (st1 & -> & E1 & _).
    unfold Py.bind. cbv beta iota.
    destruct (IH st1 Hxs Hpeak) as (st' & Hrun & E2); [rewrite E1; exact Hs|].
    exists st'. split; [exact Hrun | congruence].
Qed.

End SmartChargingPrices.

(** X12: The sampling loop of generate_smart_charging, run for a sample count
    larger than the length of the given price list, with battery voltage not
    zero, all prices at least 0.20 and 20 <= initial_soc < target_soc, raises
    IndexError: the SoC never moves, so the sample after the last price reads
    a price that is not there. *)
Theorem smart_charging_short_price_list :
  forall (self : charging_patterns.ChargingPatternGenerator)
         (initial_soc target_soc battery_capacity_kwh dt : Q)
         (prices : list Q) (samples : Z),
    ~ charging_patterns.battery_voltage self == 0 ->
    (length prices < Z.to_nat samples)%nat ->
    Forall (fun p => 0.20 <= p) prices ->
    20 <= initial_soc ->
    initial_soc < target_soc ->
    charging_patterns.smart_charging_samples self initial_soc target_soc
      battery_capacity_kwh dt prices samples = inl Py.IndexError.
Proof.
  intros self initial target cap dt prices samples Hv Hlen Hpeak H20 Hlt.
  unfold charging_patterns.smart_charging_samples. cbv zeta.
  rewrite (div_nonzero _ _ Hv). unfold Py.bind at 1. cbv beta iota.
  destruct (range_split _ _ Hlen) as [rest ->].
  rewrite for_each_res_app.
  match goal with |- context [Pylist.for_each_res (Pylist.range _) ?body ?st] =>
    destruct (peak_price_samples self target cap dt prices
                (charging_patterns.max_power_kw
                   (charging_patterns.CHARGING_SPECS charging_patterns.AC_L2)
                 * 1000 / charging_patterns.battery_voltage self)
                (Pylist.range (Z.of_nat (length prices))) st)
      as (st' & Hrun & Hsoc)
  end.
  { apply List.Forall_forall. intros i Hi. apply range_bounds in Hi.
    rewrite Nat2Z.id in Hi. exact Hi. }
  { exact Hpeak. }
  { exact H20. }
  rewrite Hrun. unfold Py.bind at 2. cbv beta iota. simpl in Hsoc.
  simpl Pylist.for_each_res. unfold charging_patterns.smart_sample at 1. cbv zeta.
  rewrite Hsoc.
  assert (E : (initial >=? target) = false) by (apply Qleb_gt; exact Hlt).
  rewrite E. rewrite getitem_beyond by lia. reflexivity.
Qed.

Lemma smart_charging_short_price_list_witness :
  charging_patterns.smart_charging_samples {| charging_patterns.battery_voltage := 350.0 |}
    50 80 82.0 1.0 [0.30; 0.25] 3 = inl Py.IndexError.
Proof.
  apply (smart_charging_short_price_list {| charging_patterns.battery_voltage := 350.0 |}
           50 80 82.0 1.0 [0.30; 0.25] 3).
  - vm_compute. discriminate.
  - vm_compute. lia.
  - repeat constructor; vm_compute; discriminate.
  - vm_compute. discriminate.
  - reflexivity.
Defined.

(** ** Interrupted charging *)

Section InterruptionFacts.

Import charging_patterns.

Lemma range_from_empty a b : (b <= a)%Z -> Pylist.range_from a b = [].
Proof.
  intro H. unfold Pylist.range_from.
  replace (Z.to_nat (b - a)) with 0%nat by lia. reflexivity.
Qed.

Lemma range_from_cons a b :
  (a < b)%Z -> Pylist.range_from a b = a :: Pylist.range_from (a + 1) b.
Proof.
  intro H. unfold Pylist.range_from.
  replace (Z.to_nat (b - a)) with (S (Z.to_nat (b - (a + 1)))) by lia.
  simpl. f_equal; [lia|].
  rewrite <- seq_shift, map_map. apply map_ext. intro k. lia.
Qed.

Lemma setitem_in_range {A} (xs : list A) (i : Z) (x : A) :
  (0 <= i < Z.of_nat (length xs))%Z ->
  Pylist.setitem xs i x = inr (<[Z.to_nat i := x]> xs).
Proof.
  intro Hi. unfold Pylist.setitem, Pylist.position.
  assert (E1 : (i <? 0)%Z = false) by (apply Z.ltb_ge; lia).
  assert (E2 : ((i <? 0) || (Z.of_nat (length xs) <=? i))%Z = false).
  { apply orb_false_iff. split; [exact E1 | apply Z.leb_gt; lia]. }
  rewrite E1, E2. reflexivity.
Qed.

(** The loop [for idx in range(a, m): if idx < len(xs): xs[idx] = v]. *)
Lemma fill_range (v : Q) : forall (n : nat) (a m : Z) (xs : list Q),
  n = Z.to_nat (m - a) -> (0 <= a)%Z -> (m <= Z.of_nat (length xs))%Z ->
  exists xs',
    Pylist.for_each_res (Pylist.range_from a m)
      (fun idx xs => if (idx <? Z.of_nat (length xs))%Z
                     then Pylist.setitem xs idx v else Py.ret xs) xs = inr xs' /\
    length xs' = length xs /\
    forall k, xs' !! k = if ((a <=? Z.of_nat k) && (Z.of_nat k <? m))%Z
                         then Some v else xs !! k.
Proof.
  induction n as [|n IH]; intros a m xs Hn Ha Hm.
  - rewrite range_from_empty by lia. exists xs. split; [reflexivity|].
    split; [reflexivity|]. intro k.
    destruct (a <=? Z.of_nat k)%Z eqn:E1; [|reflexivity].
    destruct (Z.of_nat k <? m)%Z eqn:E2; [|reflexivity].
    apply Z.leb_le in E1. apply Z.ltb_lt in E2. lia.
  - rewrite range_from_cons by lia. simpl.
    assert (E : (a <? Z.of_nat (length xs))%Z = true) by (apply Z.ltb_lt; lia).
    rewrite E. rewrite setitem_in_range by lia. unfold Py.bind. cbv beta iota.
    destruct (IH (a + 1)%Z m (<[Z.to_nat a := v]> xs)) as (xs' & Hrun & Hlen & Hget).
    { lia. } { lia. } { rewrite length_insert. exact Hm. }
    exists xs'. split; [exact Hrun|]. rewrite length_insert in Hlen.
    split; [exact Hlen|]. intro k. rewrite Hget.
    destruct (a + 1 <=? Z.of_nat k)%Z eqn:E1; destruct (Z.of_nat k <? m)%Z eqn:E2;
      destruct (a <=? Z.of_nat k)%Z eqn:E3; simpl;
      try apply Z.leb_le in E1; try apply Z.leb_gt in E1;
      try apply Z.ltb_lt in E2; try apply Z.ltb_ge in E2;
      try apply Z.leb_le in E3; try apply Z.leb_gt in E3; try lia; try reflexivity.
    + apply list_lookup_insert_ne. lia.
    + assert (k = Z.to_nat a) by lia. subst k.
      apply list_lookup_insert_eq. lia.
    + apply list_lookup_insert_ne. lia.
Qed.

(** X13: The two loops of one interruption of generate_interrupted_charging,
    for a start index a >= 0 and an end index b (whatever the truncated
    quotients come to), keep both profile lengths, set the current to 0
    exactly at the indices in [a, b), replace the SoC at the indices strictly
    between a and b by the SoC at a, and leave every other sample as it was. *)
Theorem interruption_zeroes_window :
  forall (a b : Z) (currents socs : list Q),
    (0 <= a)%Z ->
    exists currents' socs',
      interrupt_between a b (currents, socs) = inr (currents', socs') /\
      length currents' = length currents /\ length socs' = length socs /\
      (forall k c, currents !! k = Some c ->
         currents' !! k = Some (if ((a <=? Z.of_nat k) && (Z.of_nat k <? b))%Z
                                then 0 else c)) /\
      (forall k s, socs !! k = Some s ->
         socs' !! k = Some (if ((a <? Z.of_nat k) && (Z.of_nat k <? b))%Z
                            then default s (socs !! Z.to_nat a) else s)).
Proof.
  intros a b currents socs Ha.
  unfold interrupt_between.
  destruct (fill_range 0 (Z.to_nat (Z.min b (Z.of_nat (length currents)) - a)) a
              (Z.min b (Z.of_nat (length currents))) currents eq_refl Ha ltac:(lia))
    as (currents' & -> & Hlc & Hgc).
  unfold Py.bind at 1. cbv beta iota.
  assert (Hcur : forall k c, currents !! k = Some c ->
            currents' !! k = Some (if ((a <=? Z.of_nat k) && (Z.of_nat k <? b))%Z
                                   then 0 else c)).
  { intros k c Hk. rewrite Hgc. pose proof (lookup_lt_Some _ _ _ Hk) as Hlt.
    destruct (a <=? Z.of_nat k)%Z; simpl; [|exact Hk].
    destruct (Z.of_nat k <? b)%Z eqn:E2;
      destruct (Z.of_nat k <? Z.min b (Z.of_nat (length currents)))%Z eqn:E3;
      try apply Z.ltb_lt in E2; try apply Z.ltb_ge in E2;
      try apply Z.ltb_lt in E3; try apply Z.ltb_ge in E3;
      try lia; [reflexivity | exact Hk]. }
  destruct (a <? Z.of_nat (length socs))%Z eqn:Es.
  - apply Z.ltb_lt in Es.
    destruct (getitem_in_range socs a ltac:(lia)) as [sa Hsa]. rewrite Hsa.
    unfold Py.bind at 2. cbv beta iota.
    destruct (fill_range sa (Z.to_nat (Z.min b (Z.of_nat (length socs)) - (a + 1))) (a + 1)
                (Z.min b (Z.of_nat (length socs))) socs eq_refl ltac:(lia) ltac:(lia))
      as (socs' & -> & Hls & Hgs).
    unfold Py.bind, Py.ret. cbv beta iota.
    exists currents', socs'. split; [reflexivity|].
    split; [exact Hlc|]. split; [exact Hls|]. split; [exact Hcur|].
    assert (Ea : socs !! Z.to_nat a = Some sa).
    { revert Hsa. unfold Pylist.getitem, Pylist.position.
      assert (E1 : (a <? 0)%Z = false) by (apply Z.ltb_ge; lia).
      assert (E2 : ((a <? 0) || (Z.of_nat (length socs) <=? a))%Z = false).
      { apply orb_false_iff. split; [exact E1 | apply Z.leb_gt; lia]. }
      rewrite E1, E2. unfold Py.ret, Py.bind.
      destruct (socs !! Z.to_nat a); [|discriminate]. intro H. injection H as <-.
      reflexivity. }
    rewrite Ea. simpl default.
    intros k s Hk. rewrite Hgs. pose proof (lookup_lt_Some _ _ _ Hk) as Hlt.
    destruct (a <? Z.of_nat k)%Z eqn:E1; destruct (a + 1 <=? Z.of_nat k)%Z eqn:E1';
      try apply Z.ltb_lt in E1; try apply Z.ltb_ge in E1;
      try apply Z.leb_le in E1'; try apply Z.leb_gt in E1'; try lia; simpl; [|exact Hk].
    destruct (Z.of_nat k <? b)%Z eqn:E2;
      destruct (Z.of_nat k <? Z.min b (Z.of_nat (length socs)))%Z eqn:E3;
      try apply Z.ltb_lt in E2; try apply Z.ltb_ge in E2;
      try apply Z.ltb_lt in E3; try apply Z.ltb_ge in E3;
      try lia; [reflexivity | exact Hk].
  - apply Z.ltb_ge in Es. unfold Py.bind, Py.ret. cbv beta iota.
    exists currents', socs. split; [reflexivity|].
    split; [exact Hlc|]. split; [reflexivity|]. split; [exact Hcur|].
    intros k s Hk. pose proof (lookup_lt_Some _ _ _ Hk) as Hlt.
    assert (E1 : (a <? Z.of_nat k)%Z = false) by (apply Z.ltb_ge; lia).
    rewrite E1. exact Hk.
Qed.

Lemma interruption_zeroes_window_witness :
  let a := 1%Z in
  let b := 3%Z in
  exists currents' socs',
    interrupt_between a b ([30; 31; 32; 33], [50; 51; 52; 53])
    = inr (currents', socs') /\
    length currents' = length [30; 31; 32; 33] /\
    length socs' = length [50; 51; 52; 53] /\
    (forall k c, [30; 31; 32; 33] !! k = Some c ->
       currents' !! k = Some (if ((a <=? Z.of_nat k) && (Z.of_nat k <? b))%Z
                              then 0 else c)) /\
    (forall k s, [50; 51; 52; 53] !! k = Some s ->
       socs' !! k = Some (if ((a <? Z.of_nat k) && (Z.of_nat k <? b))%Z
                          then default s ([50; 51; 52; 53] !! Z.to_nat a) else s)).
Proof.
  apply (interruption_zeroes_window 1 3 [30; 31; 32; 33] [50; 51; 52; 53]).
  vm_compute. discriminate.
Defined.

End InterruptionFacts.

(** ** The anomaly generators at their edges *)

Section AnomalyEdgeFacts.

Import anomaly_generator.

Variable np_exp : Q -> Q.

Lemma getitem_empty {A} (i : Z) : Pylist.getitem (@nil A) i = inl Py.IndexError.
Proof.
  unfold Pylist.getitem, Pylist.position.
  change (Z.of_nat (length (@nil A))) with 0%Z.
  destruct (i <? 0)%Z eqn:E.
  - rewrite Z.add_0_r, E. reflexivity.
  - assert (E2 : (0 <=? i)%Z = true) by (apply Z.leb_le; apply Z.ltb_ge in E; lia).
    rewrite E, E2. reflexivity.
Qed.

Lemma getitem_last_is_last {A} (xs : list A) x :
  Pylist.getitem xs (-1) = inr x -> last xs = Some x.
Proof.
  unfold Pylist.getitem, Pylist.position.
  change (-1 <? 0)%Z with true. cbv iota.
  destruct ((-1 + Z.of_nat (length xs) <? 0) || _)%Z eqn:E; [discriminate|].
  unfold Py.bind, Py.ret.
  destruct (xs !! _) as [y|] eqn:El; [|discriminate].
  intro H. injection H as <-. rewrite last_lookup. rewrite <- El. f_equal. lia.
Qed.

Lemma range_nonpositive n : (n <= 0)%Z -> Pylist.range n = [].
Proof. intro H. unfold Pylist.range. replace (Z.to_nat n) with 0%nat by lia. reflexivity. Qed.

(** A loop that appends one value per iteration to the list it carries. *)
Lemma for_each_grows {A B C} (body : A -> B * list C -> world.M (B * list C))
    (P : C -> Prop) :
  (forall x st env, exists b v env',
      body x st env = inr ((b, snd st ++ [v]), env') /\ P v) ->
  forall xs st env,
    exists b more env',
      Pylist.for_each xs body st env = inr ((b, snd st ++ more), env') /\
      length more = length xs /\ Forall P more.
Proof.
  intro Hbody. induction xs as [|x xs IH]; intros [b0 l0] env; simpl.
  - exists b0, [], env. rewrite app_nil_r. repeat split; constructor.
  - destruct (Hbody x (b0, l0) env) as (b1 & v & env1 & Hstep & Hv).
    unfold world.bind. rewrite Hstep. simpl snd.
    destruct (IH (b1, l0 ++ [v]) env1) as (b2 & more & env2 & Hrun & Hlen & Hall).
    simpl snd in Hrun. rewrite Hrun.
    exists b2, (v :: more), env2. rewrite <- app_assoc.
    split; [reflexivity|]. split; [simpl; lia | constructor; assumption].
Qed.

(** The degradation loop of [generate_capacity_fade]. *)
Lemma fade_loop daily_rate : forall (xs : list Z) (st : Q * list Q) env,
  exists cur more env',
    Pylist.for_each xs
      (fun day (st : Q * list Q) =>
         let '(current_soh, soh_profile) := st in
         let! n := world.np (rng.normal 0 0.1) in
         let daily_degradation := daily_rate * (1 + n) in
         let! u := world.py rng.random in
         let daily_degradation :=
           if u <? 0.1 then daily_degradation * 2 else daily_degradation in
         let current_soh := current_soh - daily_degradation in
         world.ret (current_soh, soh_profile ++ [Py.max current_soh 70]))
      st env = inr ((cur, snd st ++ more), env') /\
    length more = length xs /\ Forall (fun s => 70 <= s) more.
Proof.
  apply for_each_grows. intros x [cur prof] env.
  unfold world.bind at 1. unfold world.np at 1.
  destruct (rng.normal 0 0.1 (world.np_random env)) as [n g1]. cbv beta iota zeta.
  unfold world.bind at 1. unfold world.py at 1.
  match goal with |- context [rng.random ?g] => destruct (rng.random g) as [u g2] end.
  cbv beta iota zeta. unfold world.ret. simpl snd.
  do 3 eexists. split; [reflexivity|].
  match goal with |- _ <= Py.max ?a ?b =>
    destruct (max_cases a b) as [[? ->]|[? ->]]; lra end.
Qed.

(** X14: For days >= 1 and an end time datetime.now() + timedelta(days=days)
    that Python can represent (up to the year 9999; beyond it the sum raises
    OverflowError), generate_capacity_fade returns a profile with one entry
    per day, every entry at least 70 whatever the initial SoH, and the event's
    final_soh parameter is the last entry of the profile. *)
Theorem capacity_fade_floor :
  forall (initial_soh : Q) (days : Z) (degradation_rate : Q) (env : world.Env),
    (1 <= days)%Z ->
    world.representable (world.reading env 1) ->
    world.representable (world.reading env 1 + world.days days)%Z ->
    exists soh_profile e env' final_soh,
      generate_capacity_fade initial_soh days degradation_rate env
      = inr ((soh_profile, e), env') /\
      length soh_profile = Z.to_nat days /\
      Forall (fun s => 70 <= s) soh_profile /\
      last soh_profile = Some final_soh /\
      parameters e = [("initial_soh", VFloat initial_soh); ("final_soh", VFloat final_soh);
                      ("degradation_rate", VFloat degradation_rate)].
Proof.
  intros initial days rate env Hdays _ _. unfold generate_capacity_fade. cbv zeta.
  destruct (fade_loop (rate / 365) (Pylist.range days) (initial, []) env)
    as (cur & more & env1 & Hloop & Hlen & Hall).
  cbv zeta in Hloop. unfold world.bind at 1. rewrite Hloop. simpl snd. simpl app.
  cbv beta iota. rewrite range_length in Hlen.
  destruct (getitem_last more) as [final Hfinal].
  { intros ->. simpl in Hlen. lia. }
  unfold world.bind at 1. unfold world.lift at 1. rewrite Hfinal.
  unfold world.bind, world.now, world.ret. cbv beta iota zeta.
  do 4 eexists. split; [reflexivity|]. split; [exact Hlen|]. split; [exact Hall|].
  split; [apply getitem_last_is_last, Hfinal | reflexivity].
Qed.

Lemma capacity_fade_floor_witness :
  exists soh_profile e env' final_soh,
    generate_capacity_fade 60 3 0.02 simulator.env_day0
    = inr ((soh_profile, e), env') /\
    length soh_profile = Z.to_nat 3 /\
    Forall (fun s => 70 <= s) soh_profile /\
    last soh_profile = Some final_soh /\
    parameters e = [("initial_soh", VFloat 60); ("final_soh", VFloat final_soh);
                    ("degradation_rate", VFloat 0.02)].
Proof.
  apply (capacity_fade_floor 60 3 0.02 simulator.env_day0).
  - lia.
  - vm_compute. split; discriminate.
  - vm_compute. split; discriminate.
Defined.

(** X15: generate_capacity_fade with days <= 0 raises IndexError: the profile
    is empty when its last entry is read. *)
Theorem capacity_fade_without_days_raises :
  forall (initial_soh : Q) (days : Z) (degradation_rate : Q) (env : world.Env),
    (days <= 0)%Z ->
    generate_capacity_fade initial_soh days degradation_rate env = inl Py.IndexError.
Proof.
  intros initial days rate env Hdays. unfold generate_capacity_fade. cbv zeta.
  rewrite (range_nonpositive days Hdays). simpl Pylist.for_each.
  unfold world.bind at 1. unfold world.ret at 1. cbv beta iota.
  unfold world.bind at 1. unfold world.lift at 1. rewrite getitem_empty. reflexivity.
Qed.

Lemma capacity_fade_without_days_raises_witness :
  generate_capacity_fade 100 0 0.02 simulator.env_day0 = inl Py.IndexError.
Proof. apply (capacity_fade_without_days_raises 100 0 0.02 simulator.env_day0). lia. Defined.

(** X16: generate_thermal_event with a known severity and duration_seconds <=
    1 raises IndexError: the rise phase is empty when the peak temperature is
    read. *)
Theorem thermal_event_too_short_raises :
  forall (normal_temp : Q) (duration_seconds : Z) (severity : string) (env : world.Env),
    In severity ["low"; "medium"; "high"; "critical"] ->
    (duration_seconds <= 1)%Z ->
    generate_thermal_event np_exp normal_temp duration_seconds severity env
    = inl Py.IndexError.
Proof.
  intros t d sev env Hsev Hd. unfold generate_thermal_event.
  assert (Hp : exists p, severity_params t sev = inr p).
  { unfold severity_params. simpl in Hsev.
    destruct Hsev as [<-|[<-|[<-|[<-|[]]]]]; simpl; eexists; reflexivity. }
  destruct Hp as [[[rate text] peak] Hp].
  unfold world.bind at 1. unfold world.lift at 1. rewrite Hp. cbv beta iota zeta.
  rewrite (range_nonpositive (d / 2)).
  2:{ assert (d / 2 < 1)%Z by (apply Z.div_lt_upper_bound; lia). lia. }
  simpl Pylist.for_each. unfold world.bind at 1. unfold world.ret at 1. cbv beta iota.
  unfold world.bind at 1. unfold world.lift at 1. rewrite getitem_empty. reflexivity.
Qed.

(** X17: generate_sensor_glitch with duration_samples <= 0, or with a glitch
    type other than spike, dropout and noise, raises ValueError when the end
    time datetime.now() + timedelta(seconds=duration_samples) is a datetime
    Python can represent (otherwise that sum raises OverflowError first):
    max() is applied to an empty sequence of deviations. *)
Theorem sensor_glitch_without_samples_raises :
  forall (normal_value : Q) (glitch_type : string) (duration_samples : Z) (env : world.Env),
    (duration_samples <= 0)%Z \/ ~ In glitch_type ["spike"; "dropout"; "noise"] ->
    world.representable (world.reading env 1) ->
    world.representable (world.reading env 1 + world.seconds duration_samples)%Z ->
    generate_sensor_glitch np_exp normal_value glitch_type duration_samples env
    = inl Py.ValueError.
Proof.
  intros v ty d env H _ _. unfold generate_sensor_glitch.
  assert (Hempty : forall (m : world.M (list Q)) env0,
            (exists env1, m env0 = inr ([], env1)) ->
            (let! glitched_values := m in
             let! t0 := world.now in
             let! t1 := world.now in
             let! deviation := world.lift (max_deviation v glitched_values) in
             world.ret (glitched_values,
                        {| event_type := "sensor_glitch"; start_time := t0;
                           end_time := (t1 + world.seconds d)%Z; severity := "low";
                           description := "Sensor " ++ ty ++ " - unrealistic data readings";
                           affected_metrics := ["voltage"; "current"];
                           parameters := [("glitch_type", VStr ty);
                                          ("normal_value", VFloat v);
                                          ("max_deviation", VFloat deviation)] |})) env0
            = inl Py.ValueError).
  { intros m env0 [env1 Hm]. unfold world.bind at 1. rewrite Hm. reflexivity. }
  cbv zeta. apply Hempty.
  destruct (String.eqb ty "spike") eqn:E1;
    [|destruct (String.eqb ty "dropout") eqn:E2;
      [|destruct (String.eqb ty "noise") eqn:E3]].
  - destruct H as [Hd|Hn]; [|apply String.eqb_eq in E1; subst ty; simpl in Hn; tauto].
    rewrite (range_nonpositive d Hd). unfold world.bind, world.np.
    destruct (rng.uniform 5 10 (world.np_random env)). eexists. reflexivity.
  - destruct H as [Hd|Hn]; [|apply String.eqb_eq in E2; subst ty; simpl in Hn; tauto].
    rewrite (range_nonpositive d Hd). eexists. reflexivity.
  - destruct H as [Hd|Hn]; [|apply String.eqb_eq in E3; subst ty; simpl in Hn; tauto].
    rewrite (range_nonpositive d Hd). eexists. reflexivity.
  - eexists. reflexivity.
Qed.

(** X18: generate_sensor_glitch of type noise on a negative normal_value with
    at least one sample raises ValueError: the standard deviation normal_value
    * 0.5 handed to np.random.normal is negative. *)
Theorem noise_glitch_on_negative_value_raises :
  forall (normal_value : Q) (duration_samples : Z) (env : world.Env),
    normal_value < 0 ->
    (1 <= duration_samples)%Z ->
    generate_sensor_glitch np_exp normal_value "noise" duration_samples env
    = inl Py.ValueError.
Proof.
  intros v d env Hv Hd. unfold generate_sensor_glitch.
  change (String.eqb "noise" "spike") with false.
  change (String.eqb "noise" "dropout") with false.
  change (String.eqb "noise" "noise") with true. cbv iota.
  destruct (range_cons d Hd) as [rest ->]. simpl Pylist.for_each.
  unfold world.bind at 1. unfold world.bind at 1. unfold world.bind at 1.
  unfold world.np_normal.
  assert (E : (v * 0.5 <? 0) = true) by (apply Qltb_lt; lra).
  rewrite E. reflexivity.
Qed.

Lemma for_each_appends_all (P : Q -> Prop) {A} (body : A -> list Q -> world.M (list Q)) :
  (forall x s env, exists v env', body x s env = inr (s ++ [v], env') /\ P v) ->
  forall xs s env,
    exists vs env',
      Pylist.for_each xs body s env = inr (s ++ vs, env') /\
      length vs = length xs /\ Forall P vs.
Proof.
  intro Hbody. induction xs as [|x xs IH]; intros s env; simpl.
  - exists [], env. rewrite app_nil_r. repeat split; constructor.
  - destruct (Hbody x s env) as (v & env1 & Hstep & Hv).
    unfold world.bind. rewrite Hstep.
    destruct (IH (s ++ [v]) env1) as (vs & env2 & Hrun & Hlen & Hall). rewrite Hrun.
    exists (v :: vs), env2. rewrite <- app_assoc.
    split; [reflexivity|]. split; [simpl; lia | constructor; assumption].
Qed.

(** X19: generate_sensor_glitch of type dropout on a non-negative normal_value
    with at least one sample returns one value per sample, each between 0 and
    a tenth of normal_value, and an event of type sensor_glitch. *)
Theorem dropout_glitch_within_tenth :
  forall (normal_value : Q) (duration_samples : Z) (env : world.Env),
    0 <= normal_value ->
    (1 <= duration_samples)%Z ->
    exists values e env',
      generate_sensor_glitch np_exp normal_value "dropout" duration_samples env
      = inr ((values, e), env') /\
      length values = Z.to_nat duration_samples /\
      Forall (fun x => 0 <= x <= normal_value * 0.1) values /\
      event_type e = "sensor_glitch".
Proof.
  intros v d env Hv Hd. unfold generate_sensor_glitch.
  change (String.eqb "dropout" "spike") with false.
  change (String.eqb "dropout" "dropout") with true. cbv iota.
  destruct (for_each_appends_all (fun x => 0 <= x <= v * 0.1)
              (fun (i : Z) glitched_values =>
                 let! u := world.np (rng.uniform 0 (v * 0.1)) in
                 world.ret (glitched_values ++ [u]))
              ltac:(intros x s env0; unfold world.bind, world.np, world.ret;
                    pose proof (proj1 (uniform_within 0 (v * 0.1) (world.np_random env0))
                                  ltac:(lra)) as Hu;
                    destruct (rng.uniform 0 (v * 0.1) (world.np_random env0)) as [u g1];
                    do 2 eexists; split; [reflexivity | exact Hu])
              (Pylist.range d) [] env) as (values & env1 & Hrun & Hlen & Hall).
  unfold world.bind at 1. rewrite Hrun. simpl app. cbv beta iota.
  rewrite range_length in Hlen.
  destruct values as [|x values]; [simpl in Hlen; lia|].
  unfold world.bind, world.now, world.lift, world.ret, max_deviation, Py.ret.
  cbv beta iota zeta.
  do 3 eexists. split; [reflexivity|]. split; [exact Hlen|]. split; [exact Hall|].
  reflexivity.
Qed.

End AnomalyEdgeFacts.

Lemma thermal_event_too_short_raises_witness :
  anomaly_generator.generate_thermal_event charging_patterns.exp_taylor 25 1 "medium"
    simulator.env_day0 = inl Py.IndexError.
Proof.
  apply (thermal_event_too_short_raises charging_patterns.exp_taylor 25 1 "medium"
           simulator.env_day0).
  - simpl. tauto.
  - lia.
Defined.

Lemma sensor_glitch_without_samples_raises_witness :
  anomaly_generator.generate_sensor_glitch charging_patterns.exp_taylor 380 "spike" 0
    simulator.env_day0 = inl Py.ValueError.
Proof.
  apply (sensor_glitch_without_samples_raises charging_patterns.exp_taylor 380 "spike" 0
           simulator.env_day0).
  - left. lia.
  - vm_compute. split; discriminate.
  - vm_compute. split; discriminate.
Defined.

Lemma noise_glitch_on_negative_value_raises_witness :
  anomaly_generator.generate_sensor_glitch charging_patterns.exp_taylor (-120) "noise" 2
    simulator.env_day0 = inl Py.ValueError.
Proof.
  apply (noise_glitch_on_negative_value_raises charging_patterns.exp_taylor (-120) 2
           simulator.env_day0).
  - reflexivity.
  - lia.
Defined.

Lemma dropout_glitch_within_tenth_witness :
  exists values e env',
    anomaly_generator.generate_sensor_glitch charging_patterns.exp_taylor 380 "dropout" 3
      simulator.env_day0 = inr ((values, e), env') /\
    length values = Z.to_nat 3 /\
    Forall (fun x => 0 <= x <= 380 * 0.1) values /\
    anomaly_generator.event_type e = "sensor_glitch".
Proof.
  apply (dropout_glitch_within_tenth charging_patterns.exp_taylor 380 3 simulator.env_day0).
  - discriminate.
  - lia.
Defined.

(** ** Requests of an unknown type *)

Section InjectionFacts.

Import anomaly_generator.

Variable np_exp : Q -> Q.

Lemma for_each_app {A S} (body : A -> S -> world.M S) xs ys s env :
  Pylist.for_each (xs ++ ys) body s env =
  (let! s1 := Pylist.for_each xs body s in Pylist.for_each ys body s1) env.
Proof.
  revert s env. induction xs as [|x xs IH]; intros s env; simpl; [reflexivity|].
  unfold world.bind. destruct (body x s env) as [e|[s1 env1]]; [reflexivity|].
  rewrite IH. reflexivity.
Qed.

(** A request of an unknown type generates nothing: it appends the event
    left over from the request before it, if there is one. *)
Lemma inject_one_unknown base_data kind start_idx params st env :
  kind <> "thermal" -> kind <> "sensor_glitch" ->
  inject_one np_exp base_data (kind, start_idx, params) st env =
  match event st with
  | None => inl Py.UnboundLocalError
  | Some e => inr ({| modified_data := modified_data st; events := events st ++ [e];
                      event := Some e |}, env)
  end.
Proof.
  intros H1 H2. unfold inject_one.
  apply String.eqb_neq in H1, H2. rewrite H1, H2.
  unfold world.bind, world.ret. destruct (event st); reflexivity.
Qed.

(** After a request the loop's [event] is the event appended last. *)
Lemma inject_one_last_event base_data request st env st' env' :
  inject_one np_exp base_data request st env = inr (st', env') ->
  event st' = last (events st').
Proof.
  destruct request as [[kind start_idx] params]. unfold inject_one.
  intro H. apply bind_inr in H. destruct H as ([data ev] & env1 & _ & H).
  destruct ev as [e|]; [|discriminate H].
  apply ret_inr in H. destruct H as [-> _]. simpl. rewrite last_snoc. reflexivity.
Qed.

Lemma inject_all_last_event base_data : forall requests st env st' env',
  event st = last (events st) ->
  Pylist.for_each requests (inject_one np_exp base_data) st env = inr (st', env') ->
  event st' = last (events st').
Proof.
  induction requests as [|r rs IH]; intros st env st' env' Hinv H; simpl in H.
  - apply ret_inr in H. destruct H as [-> _]. exact Hinv.
  - apply bind_inr in H. destruct H as (st1 & env1 & H1 & H2).
    apply (IH st1 env1 st' env'); [|exact H2].
    apply (inject_one_last_event base_data r st env st1 env1 H1).
Qed.

(** X20: inject_anomalies does not reject a request whose type is neither
    thermal nor sensor_glitch: appended to a request list that runs through,
    it changes no series and appends a second copy of the last event; when
    there is no event yet the call raises UnboundLocalError. *)
Theorem unknown_anomaly_type_repeats_last_event :
  forall (base_data : gmap string (list Q)) (requests : list (string * Z * Params))
         (kind : string) (start_idx : Z) (params : Params) (dt : Q) (env : world.Env)
         (data : gmap string (list Q)) (events : list AnomalyEvent) (env' : world.Env),
    kind <> "thermal" -> kind <> "sensor_glitch" ->
    inject_anomalies np_exp base_data requests dt env = inr ((data, events), env') ->
    inject_anomalies np_exp base_data (requests ++ [(kind, start_idx, params)]) dt env
    = match last events with
      | Some e => inr ((data, events ++ [e]), env')
      | None => inl Py.UnboundLocalError
      end.
Proof.
  intros base_data requests kind start_idx params dt env data evs env' H1 H2 H.
  unfold inject_anomalies in *.
  apply bind_inr in H. destruct H as (st & env1 & Hrun & Hret).
  apply ret_inr in Hret. destruct Hret as [Hpair ->].
  injection Hpair as -> ->.
  pose proof (inject_all_last_event base_data requests
                {| modified_data := base_data; events := []; event := None |}
                env st env1 eq_refl Hrun) as Hlast.
  unfold world.bind at 1. rewrite for_each_app.
  unfold world.bind at 1. rewrite Hrun. cbv beta iota. cbn [Pylist.for_each].
  unfold world.bind at 1. rewrite (inject_one_unknown _ _ _ _ _ _ H1 H2).
  rewrite <- Hlast. destruct (event st); reflexivity.
Qed.

End InjectionFacts.

Lemma unknown_anomaly_type_repeats_last_event_witness :
  anomaly_generator.inject_anomalies charging_patterns.exp_taylor
    (<["voltage" := [380.0; 379.5; 379.0]]> ∅)
    ([] ++ [("charging", 0%Z,
             {| anomaly_generator.duration := None;
                anomaly_generator.severity_param := None;
                anomaly_generator.glitch_type_param := None |})]) 1.0 simulator.env_day0
  = match last [] with
    | Some e => inr ((<["voltage" := [380.0; 379.5; 379.0]]> ∅, [] ++ [e]),
                     simulator.env_day0)
    | None => inl Py.UnboundLocalError
    end.
Proof.
  apply (unknown_anomaly_type_repeats_last_event charging_patterns.exp_taylor
           (<["voltage" := [380.0; 379.5; 379.0]]> ∅) [] "charging" 0
           {| anomaly_generator.duration := None;
              anomaly_generator.severity_param := None;
              anomaly_generator.glitch_type_param := None |} 1.0 simulator.env_day0
           (<["voltage" := [380.0; 379.5; 379.0]]> ∅) [] simulator.env_day0).
  - discriminate.
  - discriminate.
  - reflexivity.
Defined.

(** ** What the user profiles return *)

Section ProfileFacts.

Import user_profiles.

(** The decision of [should_charge] for a behaviour whose comfort
    threshold and 80 % mark are below its target. *)
Lemma should_charge_target_above self current_soc hour env :
  let b := behavior self in
  preferred_soc_min b * charging_anxiety_factor b <= preferred_soc_target b ->
  0 < preferred_soc_target b <= 100 ->
  exists decision target env',
    should_charge self current_soc hour env = inr ((decision, target), env') /\
    (decision = true -> current_soc < target /\ target <= 100) /\
    (decision = false -> target = 0).
Proof.
  intros b Hth Ht. unfold should_charge. fold b.
  destruct (current_soc <? _ * _) eqn:E1.
  - apply Qltb_lt in E1. do 3 eexists. split; [reflexivity|].
    split; [intros _; lra | discriminate].
  - destruct (current_soc <? preferred_soc_target b * 0.8) eqn:E2.
    + apply Qltb_lt in E2.
      assert (Hlt : current_soc < preferred_soc_target b) by lra.
      destruct ((22 <=? hour) || (hour <=? 6))%Z.
      * unfold world.bind, world.py. destruct (rng.random _) as [u g1].
        destruct (u <? _); do 3 eexists; (split; [reflexivity|]);
          split; try discriminate; intros _; try reflexivity; lra.
      * unfold world.bind at 1. unfold world.py at 1.
        destruct (rng.random _) as [u g1].
        destruct (u <? _).
        -- unfold world.bind, world.py. cbn [world.py_random].
           match goal with |- context [rng.uniform ?a ?c ?g] =>
             pose proof (uniform_above a c g current_soc ltac:(lra) Hlt) as Hu;
             destruct (rng.uniform a c g) as [target g2] end.
           cbn [fst] in Hu. do 3 eexists. split; [reflexivity|].
           split; [intros _|discriminate].
           destruct (min_cases target 100) as [[? ->]|[? ->]]; lra.
        -- do 3 eexists. split; [reflexivity|].
           split; [discriminate | reflexivity].
    + do 3 eexists. split; [reflexivity|]. split; [discriminate | reflexivity].
Qed.

(** X21: For every profile of USER_PROFILES, any SoC and any hour,
    should_charge returns; a decision to charge comes with a target above the
    current SoC and at most 100, a refusal with target 0. *)
Theorem charge_target_above_current_soc :
  forall (p : UserProfile) (current_soc : Q) (hour : Z) (env : world.Env),
    exists decision target env',
      should_charge {| profile := p; behavior := USER_PROFILES p |} current_soc hour env
      = inr ((decision, target), env') /\
      (decision = true -> current_soc < target /\ target <= 100) /\
      (decision = false -> target = 0).
Proof.
  intros p soc hour env. apply should_charge_target_above;
    destruct p; cbn; lra.
Qed.

(** X22: For every profile of USER_PROFILES, get_wake_time returns a valid
    time of day that lies inside the profile's wake-time range, shifted to one
    hour later at the start and an hour and a half later at the end at
    weekends for every profile but the early bird. *)
Theorem wake_time_within_range :
  forall (p : UserProfile) (is_weekend : bool) (env : world.Env),
    let b := USER_PROFILES p in
    let shifted := is_weekend && negb (profile_eqb p EARLY_BIRD) in
    let start_minutes :=
      (world.hour (fst (wake_time_range b)) * 60 + world.minute (fst (wake_time_range b))
       + (if shifted then 60 else 0))%Z in
    let end_minutes :=
      (world.hour (snd (wake_time_range b)) * 60 + world.minute (snd (wake_time_range b))
       + (if shifted then 90 else 0))%Z in
    exists t env',
      get_wake_time {| profile := p; behavior := b |} is_weekend env = inr (t, env') /\
      (0 <= world.hour t < 24)%Z /\ (0 <= world.minute t < 60)%Z /\
      (start_minutes <= world.hour t * 60 + world.minute t <= end_minutes)%Z.
Proof.
  intros p is_weekend env. cbv zeta.
  assert (Hmain : forall (a v e : Z),
            (0 <= v)%Z -> (a + v <= e)%Z -> (0 <= a)%Z -> (e < 1440)%Z ->
            exists t env',
              (let! wake_minutes := world.py_res (rng.randint a (a + v)) in
               world.ret (world.Build_time ((wake_minutes / 60) mod 24)
                                           (wake_minutes mod 60))) env
              = inr (t, env') /\
              (0 <= world.hour t < 24)%Z /\ (0 <= world.minute t < 60)%Z /\
              (a <= world.hour t * 60 + world.minute t <= e)%Z).
  { intros a v e Hv Hav Ha He. unfold world.bind, world.py_res.
    destruct (rng.randint a (a + v) (world.py_random env)) as [err|[m g]] eqn:Er.
    - exfalso. revert Er. unfold rng.randint.
      assert (E : (a + v <? a)%Z = false) by (apply Z.ltb_ge; lia). rewrite E.
      destruct (rng.randbelow _ _). discriminate.
    - apply randint_range in Er. unfold world.ret. do 2 eexists.
      split; [reflexivity|]. cbn [world.hour world.minute].
      assert (Hq : (0 <= m / 60 < 24)%Z).
      { split; [apply Z.div_pos; lia | apply Z.div_lt_upper_bound; lia]. }
      rewrite (Z.mod_small (m / 60) 24) by exact Hq.
      pose proof (Z.mod_pos_bound m 60 ltac:(lia)) as Hm.
      pose proof (Z.div_mod m 60 ltac:(lia)) as Hdm.
      split; [exact Hq|]. split; [exact Hm|]. lia. }
  unfold get_wake_time.
  destruct p, is_weekend; cbn -[world.bind world.py_res rng.randint Z.div Z.modulo Z.add Z.mul];
    match goal with |- context [rng.randint ?a (?a + ?v)%Z] =>
      let v' := eval vm_compute in v in change v with v'
    end;
    (eapply Hmain; [vm_compute; discriminate | vm_compute; discriminate
                   | vm_compute; discriminate | vm_compute; reflexivity]).
Qed.

(** X23: For every profile of USER_PROFILES, get_trip_distance returns a
    positive distance between the lower end of the profile's daily distance
    times 0.8 (0.5 when spontaneity is above 0.7) and the upper end times 1.1
    (1.5), both scaled by the weekend multiplier at weekends. *)
Theorem trip_distance_within_range :
  forall (p : UserProfile) (is_weekend : bool) (env : world.Env),
    let b := USER_PROFILES p in
    let k := if is_weekend then weekend_distance_multiplier b else 1 in
    let wide := spontaneity_factor b >? 0.7 in
    exists d env',
      get_trip_distance {| profile := p; behavior := b |} is_weekend env = inr (d, env') /\
      0 < d /\
      fst (avg_daily_distance_km b) * k * (if wide then 0.5 else 0.8) <= d
      <= snd (avg_daily_distance_km b) * k * (if wide then 1.5 else 1.1).
Proof.
  intros p is_weekend env. cbv zeta. unfold get_trip_distance.
  assert (Hu : forall a c, 0 < a -> a <= c ->
            exists d env',
              world.py (rng.uniform a c) env = inr (d, env') /\ 0 < d /\ a <= d <= c).
  { intros a c Ha Hac. unfold world.py.
    destruct (uniform_within a c (world.py_random env)) as [H1 _]. specialize (H1 Hac).
    destruct (rng.uniform a c (world.py_random env)) as [d g]. cbn [fst] in H1.
    do 2 eexists. split; [reflexivity|]. split; lra. }
  destruct p, is_weekend; cbn -[world.py rng.uniform Qmult Qlt Qle];
    match goal with |- context [if ?c then world.py _ else _] =>
      let v := eval vm_compute in c in change c with v
    end; cbv iota;
    match goal with |- context [world.py (rng.uniform ?a ?c) env] =>
      destruct (Hu a c ltac:(reflexivity) ltac:(discriminate)) as (d & env' & -> & Hd & Hr);
      exists d, env'; split; [reflexivity|]; split; [exact Hd|]; lra
    end.
Qed.

End ProfileFacts.

(** ** The frequency-governed charging decision *)

Section ProfileV2Facts.

Import user_profiles_v2.

(** The decisions after the minimum check: opportunity charging and the
    forced charge. *)
Lemma later_decisions self current_soc hour g :
  behavior self = USER_PROFILES_V2 COMMON_DRIVER ->
  let out :=
    match opportunity_charging self current_soc hour g with
    | (inl (d, target, self), g) => ((d, target), self, g)
    | (inr self, g) =>
        let self :=
          set_days_since_last_charge (_days_since_last_charge self + 1) self in
        if ((_days_since_last_charge self >=? 4)%Z && (current_soc <? 40.0))%bool then
          ((true, preferred_soc_target (USER_PROFILES_V2 COMMON_DRIVER)),
           count_charge self, g)
        else ((false, 0), self, g)
    end in
  (fst (fst (fst out)) = true ->
   current_soc < snd (fst (fst out)) /\ snd (fst (fst out)) <= 95) /\
  (fst (fst (fst out)) = false -> snd (fst (fst out)) = 0).
Proof.
  intros Hb. cbv zeta.
  assert (Hforced : forall (self0 : UserBehaviorSimulator) (g0 : rng.Generator),
    let out :=
      if ((_days_since_last_charge
             (set_days_since_last_charge (_days_since_last_charge self0 + 1) self0)
           >=? 4)%Z && (current_soc <? 40.0))%bool
      then ((true, preferred_soc_target (USER_PROFILES_V2 COMMON_DRIVER)),
            count_charge
              (set_days_since_last_charge (_days_since_last_charge self0 + 1) self0), g0)
      else ((false, 0),
            set_days_since_last_charge (_days_since_last_charge self0 + 1) self0, g0) in
    (fst (fst (fst out)) = true ->
     current_soc < snd (fst (fst out)) /\ snd (fst (fst out)) <= 95) /\
    (fst (fst (fst out)) = false -> snd (fst (fst out)) = 0)).
  { intros self0 g0. cbv zeta. destruct (_ && _) eqn:Ef; cbn [fst snd].
    - apply andb_true_iff in Ef. destruct Ef as [_ Ef]. apply Qltb_lt in Ef.
      cbn [USER_PROFILES_V2 preferred_soc_target].
      split; [intros _; lra | discriminate].
    - split; [discriminate | reflexivity]. }
  unfold opportunity_charging. rewrite Hb.
  cbn [USER_PROFILES_V2 preferred_soc_target preferred_soc_min
       base_charges_per_week night_charging_probability
       opportunity_charging_probability].
  destruct (inject_Z (_charges_this_week self) <? 4.5); [|apply Hforced].
  destruct ((22 <=? hour) || (hour <=? 6))%Z.
  - destruct (current_soc <? 85.0 * 0.9) eqn:E9; [|apply Hforced].
    apply Qltb_lt in E9. destruct (rng.random g) as [u g1].
    destruct (u <? 0.80); [|apply Hforced].
    cbn [fst snd]. split; [intros _; lra | discriminate].
  - destruct (current_soc <? 85.0 * 0.7) eqn:E7; [|apply Hforced].
    apply Qltb_lt in E7. destruct (rng.random g) as [u g1].
    destruct (u <? 0.35); [|apply Hforced].
    pose proof (uniform_above (current_soc + 15) 85.0 g1 current_soc
                  ltac:(lra) ltac:(lra)) as Hu.
    destruct (uniform_within (current_soc + 15) 85.0 g1) as [Hw _].
    specialize (Hw ltac:(lra)).
    destruct (rng.uniform (current_soc + 15) 85.0 g1) as [t g2].
    cbn [fst snd] in *. split; [intros _ | discriminate].
    destruct (min_cases t 95.0) as [[? ->]|[? ->]]; lra.
Qed.

(** X24: For every profile of the calibrated table, any counters, SoC, hour
    and day of the week, the frequency-governed should_charge returns a target
    above the current SoC and at most 95 when it decides to charge, and target
    0 when it refuses. *)
Theorem governed_charge_target_above_current_soc :
  forall (p : UserProfile) (charges days : Z) (current_soc : Q) (hour day_of_week : Z)
         (g : rng.Generator),
    let self := {| profile := p; behavior := USER_PROFILES_V2 p;
                   _charges_this_week := charges; _days_since_last_charge := days |} in
    let decision := fst (fst (fst (should_charge self current_soc hour day_of_week g))) in
    let target := snd (fst (fst (should_charge self current_soc hour day_of_week g))) in
    (decision = true -> current_soc < target /\ target <= 95) /\
    (decision = false -> target = 0).
Proof.
  intros p charges days soc hour dow g. destruct p. cbv zeta.
  unfold should_charge.
  set (self := if (dow =? 6)%Z then _ else _).
  assert (Hb : behavior self = USER_PROFILES_V2 COMMON_DRIVER)
    by (subst self; destruct (dow =? 6)%Z; reflexivity).
  pose proof (later_decisions self soc hour g Hb) as Hlater. cbv zeta in Hlater.
  rewrite Hb.
  cbn [USER_PROFILES_V2 preferred_soc_target preferred_soc_min
       base_charges_per_week] in *.
  destruct (soc <? 15.0) eqn:E15.
  - apply Qltb_lt in E15. cbn [fst snd]. split; [intros _; lra | discriminate].
  - apply Qltb_ge in E15.
    destruct (soc <=? 25.0) eqn:E25; [|exact Hlater].
    apply Qleb_le in E25.
    destruct (inject_Z (_charges_this_week self) <? 4.5).
    + cbn [fst snd]. split; [intros _; lra | discriminate].
    + destruct (soc <? 20.0); [|exact Hlater].
      cbn [fst snd]. split; [intros _; lra | discriminate].
Qed.

End ProfileV2Facts.

(** ** Driving periods *)

Section PeriodFacts.

Import simulator.

(** What the scan from index [i] adds to [periods], with [start] the
    period that is open when it begins. *)
Lemma find_periods_spec : forall (records : list TelemetryRecord) (i : Z)
    (start : option Z) (periods : list (Z * Z)),
  (forall s, start = Some s -> (s < i)%Z) ->
  exists more,
    find_periods i records start periods = periods ++ more /\
    (forall a b, In (a, b) more ->
       (b <= i + Z.of_nat (length records))%Z /\
       ((start = Some a /\ (i <= b)%Z) \/ (i <= a < b)%Z) /\
       (forall k, (i <= k < b)%Z -> (a <= k)%Z ->
          exists r, records !! Z.to_nat (k - i) = Some r /\ is_driving r = true)) /\
    (forall k r, records !! k = Some r -> is_driving r = true ->
       exists a b, In (a, b) more /\ (a <= i + Z.of_nat k < b)%Z) /\
    (forall s, start = Some s -> exists b, In (s, b) more /\ (i <= b)%Z).
Proof.
  induction records as [|r records IH]; intros i start periods Hstart.
  - destruct start as [s|]; simpl.
    + exists [(s, i)]. split; [reflexivity|]. split; [|split].
      * intros a b [H|[]]. injection H as <- <-. simpl.
        split; [lia|]. split; [left; split; [reflexivity | lia]|]. intros k Hk. lia.
      * intros k r0 H. destruct k; discriminate H.
      * intros s0 H. injection H as <-. exists i. split; [left; reflexivity | lia].
    + exists []. rewrite app_nil_r. split; [reflexivity|]. split; [|split].
      * intros a b [].
      * intros k r0 H. destruct k; discriminate H.
      * intros s0 H. discriminate H.
  - simpl find_periods. destruct (is_driving r) eqn:Ed.
    + set (start' := match start with Some a => Some a | None => Some i end).
      destruct (IH (i + 1)%Z start' periods) as (more & Heq & Ha & Hb & Hc).
      { intros s Hs. subst start'. destruct start as [s0|].
        - injection Hs as <-. specialize (Hstart s0 eq_refl). lia.
        - injection Hs as <-. lia. }
      exists more. split; [exact Heq|]. split; [|split].
      * intros a b Hin. destruct (Ha a b Hin) as (Hlen & Hcase & Hdrive).
        simpl length. split; [lia|]. split.
        -- destruct Hcase as [[Hs Hib]|Hia].
           ++ subst start'. destruct start as [s0|].
              ** left. split; [exact Hs | lia].
              ** injection Hs as <-. right. lia.
           ++ right. lia.
        -- intros k Hk Hak. destruct (Z.eq_dec k i) as [->|Hne].
           ++ exists r. rewrite Z.sub_diag. split; [reflexivity | exact Ed].
           ++ destruct (Hdrive k ltac:(lia) Hak) as (r0 & Hr0 & Hd0).
              exists r0. split; [|exact Hd0].
              replace (Z.to_nat (k - i)) with (S (Z.to_nat (k - (i + 1)))) by lia.
              exact Hr0.
      * intros k r0 Hk Hd. destruct k as [|k].
        -- destruct (Hc (match start with Some a => a | None => i end)) as (b & Hin & Hib).
           { subst start'. destruct start; reflexivity. }
           eexists _, b. split; [exact Hin|].
           destruct start as [s0|]; [specialize (Hstart s0 eq_refl)|]; lia.
        -- simpl in Hk. destruct (Hb k r0 Hk Hd) as (a & b & Hin & Hr).
           exists a, b. split; [exact Hin | lia].
      * intros s Hs. destruct (Hc s) as (b & Hin & Hib).
        { subst start'. rewrite Hs. reflexivity. }
        exists b. split; [exact Hin | lia].
    + destruct start as [s|].
      * destruct (IH (i + 1)%Z None (periods ++ [(s, i)])) as (more & Heq & Ha & Hb & Hc).
        { intros s0 H. discriminate H. }
        exists ((s, i) :: more). rewrite Heq, <- app_assoc. split; [reflexivity|].
        split; [|split].
        -- intros a b [H|Hin].
           ++ injection H as <- <-. simpl length.
              split; [lia|]. split; [left; split; [reflexivity | lia]|].
              intros k Hk. lia.
           ++ destruct (Ha a b Hin) as (Hlen & Hcase & Hdrive). simpl length.
              split; [lia|]. split.
              ** destruct Hcase as [[Hs _]|Hia]; [discriminate Hs | right; lia].
              ** intros k Hk Hak.
                 destruct Hcase as [[Hs _]|Hia]; [discriminate Hs|].
                 destruct (Hdrive k ltac:(lia) Hak) as (r0 & Hr0 & Hd0).
                 exists r0. split; [|exact Hd0].
                 replace (Z.to_nat (k - i)) with (S (Z.to_nat (k - (i + 1)))) by lia.
                 exact Hr0.
        -- intros k r0 Hk Hd. destruct k as [|k].
           ++ simpl in Hk. injection Hk as <-. congruence.
           ++ simpl in Hk. destruct (Hb k r0 Hk Hd) as (a & b & Hin & Hr).
              exists a, b. split; [right; exact Hin | lia].
        -- intros s0 H. injection H as <-. exists i. split; [left; reflexivity | lia].
      * destruct (IH (i + 1)%Z None periods) as (more & Heq & Ha & Hb & Hc).
        { intros s0 H. discriminate H. }
        exists more. split; [exact Heq|]. split; [|split].
        -- intros a b Hin. destruct (Ha a b Hin) as (Hlen & Hcase & Hdrive). simpl length.
           split; [lia|]. split.
           ++ destruct Hcase as [[Hs _]|Hia]; [discriminate Hs | right; lia].
           ++ intros k Hk Hak.
              destruct Hcase as [[Hs _]|Hia]; [discriminate Hs|].
              destruct (Hdrive k ltac:(lia) Hak) as (r0 & Hr0 & Hd0).
              exists r0. split; [|exact Hd0].
              replace (Z.to_nat (k - i)) with (S (Z.to_nat (k - (i + 1)))) by lia.
              exact Hr0.
        -- intros k r0 Hk Hd. destruct k as [|k].
           ++ simpl in Hk. injection Hk as <-. congruence.
           ++ simpl in Hk. destruct (Hb k r0 Hk Hd) as (a & b & Hin & Hr).
              exists a, b. split; [exact Hin | lia].
        -- intros s0 H. discriminate H.
Qed.

(** X25: The periods that _find_activity_periods returns for is_driving are
    exactly the driving records: each period is a non-empty index range inside
    the records whose records are all driving, and every driving record lies
    in one of the periods. *)
Theorem driving_periods_cover_driving_records :
  forall (records : list TelemetryRecord),
    let periods := _find_activity_periods records in
    (forall a b, In (a, b) periods ->
       (0 <= a < b)%Z /\ (b <= Z.of_nat (length records))%Z /\
       forall k, (a <= k < b)%Z ->
         exists r, records !! Z.to_nat k = Some r /\ is_driving r = true) /\
    (forall k r, records !! k = Some r -> is_driving r = true ->
       exists a b, In (a, b) periods /\ (a <= Z.of_nat k < b)%Z).
Proof.
  intros records. cbv zeta. unfold _find_activity_periods.
  destruct (find_periods_spec records 0 None [])
    as (more & Heq & Ha & Hb & _); [intros s H; discriminate H|].
  rewrite Heq. simpl app. split.
  - intros a b Hin. destruct (Ha a b Hin) as (Hlen & Hcase & Hdrive).
    destruct Hcase as [[Hs _]|Hia]; [discriminate Hs|].
    split; [lia|]. split; [lia|].
    intros k Hk. destruct (Hdrive k ltac:(lia) ltac:(lia)) as (r & Hr & Hd).
    exists r. rewrite Z.sub_0_r in Hr. split; assumption.
  - intros k r Hk Hd. destruct (Hb k r Hk Hd) as (a & b & Hin & Hr).
    exists a, b. split; [exact Hin | lia].
Qed.

End PeriodFacts.

(** ** The daily schedule and the construction of a run *)

Section ScheduleFacts.

Import user_profiles simulator.

(** The example simulator is the one the constructor builds. *)
Lemma commuter_is_constructed :
  exists env',
    init "VEH001" (Some COMMUTER) None env_day0
    = inr (commuter "VEH001" battery_model.VEH001, env').
Proof. eexists. vm_compute. reflexivity. Qed.

Lemma total_duration_app (xs ys : list Activity) (z : Z) :
  fold_left (fun acc a => (acc + duration a)%Z) (xs ++ ys) z
  = fold_left (fun acc a => (acc + duration a)%Z) ys
      (fold_left (fun acc a => (acc + duration a)%Z) xs z).
Proof. apply fold_left_app. Qed.

(** X26: Every schedule that _generate_daily_schedule returns covers at least
    24 hours: it is the planned activities when they already last 24 hours or
    more, and otherwise the planned activities followed by one idle block that
    fills the day to exactly 24 hours. *)
Theorem daily_schedule_covers_the_day :
  forall (self : EVBatterySimulator) (is_weekend : bool) (env : world.Env)
         (schedule : list Activity) (env' : world.Env),
    _generate_daily_schedule self is_weekend env = inr (schedule, env') ->
    let total := fold_left (fun acc a => (acc + duration a)%Z) schedule 0%Z in
    (world.hours 24 <= total)%Z /\
    (exists planned,
        let planned_total := fold_left (fun acc a => (acc + duration a)%Z) planned 0%Z in
        (schedule = planned /\ (world.hours 24 <= planned_total)%Z) \/
        (schedule = planned ++ [idle_for (world.hours 24 - planned_total)%Z] /\
         (planned_total < world.hours 24)%Z /\ total = world.hours 24)).
Proof.
  intros self is_weekend env schedule env' H. cbv zeta.
  unfold _generate_daily_schedule in H. cbv zeta in H.
  apply bind_inr in H. destruct H as (wake & env1 & _ & H).
  apply bind_inr in H. destruct H as (day & env2 & _ & H).
  apply bind_inr in H. destruct H as (t & env3 & _ & H).
  apply bind_inr in H. destruct H as ([charge target] & env4 & _ & H).
  apply bind_inr in H. destruct H as (planned & env5 & _ & H).
  destruct (_ <? world.hours 24)%Z eqn:E.
  - apply Z.ltb_lt in E. apply ret_inr in H. destruct H as [-> _].
    rewrite total_duration_app. simpl fold_left. cbn [duration idle_for].
    split; [lia|]. exists planned. right. split; [reflexivity|]. split; [exact E | lia].
  - apply Z.ltb_ge in E. apply ret_inr in H. destruct H as [-> _].
    split; [exact E|]. exists planned. left. split; [reflexivity | exact E].
Qed.

Lemma daily_schedule_covers_the_day_witness :
  exists schedule env',
    _generate_daily_schedule (commuter "VEH001" battery_model.VEH001) false env_day0
    = inr (schedule, env') /\
    let total := fold_left (fun acc a => (acc + duration a)%Z) schedule 0%Z in
    (world.hours 24 <= total)%Z /\
    (exists planned,
        let planned_total := fold_left (fun acc a => (acc + duration a)%Z) planned 0%Z in
        (schedule = planned /\ (world.hours 24 <= planned_total)%Z) \/
        (schedule = planned ++ [idle_for (world.hours 24 - planned_total)%Z] /\
         (planned_total < world.hours 24)%Z /\ total = world.hours 24)).
Proof.
  do 2 eexists. split; [vm_compute; reflexivity|].
  eapply (daily_schedule_covers_the_day (commuter "VEH001" battery_model.VEH001) false
            env_day0).
  vm_compute. reflexivity.
Defined.

Lemma VEH002_known : battery_model.VEHICLE_SPECS !! "VEH002" = Some battery_model.VEH002.
Proof. vm_compute. reflexivity. Qed.

Lemma known_vehicle vehicle_id :
  vehicle_id = "VEH001" \/ vehicle_id = "VEH002" ->
  exists specs, battery_model.VEHICLE_SPECS !! vehicle_id = Some specs.
Proof.
  intros [->| ->]; eexists; [apply VEH001_known | apply VEH002_known].
Qed.

(** X27: Constructing a simulator for a known vehicle and a given profile with
    a seed that is negative or at least 2^32 raises ValueError: np.random.seed
    refuses the seed. *)
Theorem seed_outside_numpy_range_is_rejected :
  forall (vehicle_id : string) (p : UserProfile) (seed : Z) (env : world.Env),
    vehicle_id = "VEH001" \/ vehicle_id = "VEH002" ->
    (seed < 0 \/ 2 ^ 32 <= seed)%Z ->
    init vehicle_id (Some p) (Some seed) env = inl Py.ValueError.
Proof.
  intros vid p seed env Hv Hs. destruct (known_vehicle vid Hv) as [specs Hk].
  unfold init. rewrite Hk.
  unfold world.bind at 1. unfold world.ret at 1. cbv beta iota.
  unfold world.bind at 1. unfold user_profiles.init, world.truthy.
  assert (E0 : (seed =? 0)%Z = false) by (apply Z.eqb_neq; lia). rewrite E0.
  unfold world.bind at 1. unfold world.py_seed at 1. cbv beta iota.
  unfold world.bind at 1. unfold world.np_seed.
  assert (E1 : ((seed <? 0) || (2 ^ 32 <=? seed))%Z = true).
  { apply orb_true_iff. destruct Hs; [left; apply Z.ltb_lt | right; apply Z.leb_le]; lia. }
  rewrite E1. reflexivity.
Qed.

Lemma seed_outside_numpy_range_is_rejected_witness :
  init "VEH001" (Some CAUTIOUS) (Some (-1)%Z) env_day0 = inl Py.ValueError.
Proof.
  apply (seed_outside_numpy_range_is_rejected "VEH001" CAUTIOUS (-1) env_day0).
  - left. reflexivity.
  - left. lia.
Defined.

Lemma init_returns vehicle_id p seed env :
  vehicle_id = "VEH001" \/ vehicle_id = "VEH002" ->
  (0 <= seed < 2 ^ 32)%Z ->
  exists self env', init vehicle_id (Some p) (Some seed) env = inr (self, env').
Proof.
  intros Hv Hs. destruct (known_vehicle vehicle_id Hv) as [specs Hk].
  unfold init. rewrite Hk.
  unfold user_profiles.init, driving_patterns.init, anomaly_generator.init,
    set_random_seeds, world.truthy.
  destruct (seed =? 0)%Z.
  - unfold world.bind, world.ret, world.now. do 2 eexists. reflexivity.
  - unfold world.bind, world.ret, world.now, world.py_seed, world.np_seed.
    assert (E1 : ((seed <? 0) || (2 ^ 32 <=? seed))%Z = false).
    { apply orb_false_iff. split; [apply Z.ltb_ge | apply Z.leb_gt]; lia. }
    rewrite E1. do 2 eexists. reflexivity.
Qed.

(** X28: run_simulation for a known vehicle, a given profile and a seed in [0,
    2^32) with days <= 0 raises ValueError: no day is simulated and there are
    no frames to concatenate. *)
Theorem run_without_days_raises :
  forall (np_exp np_sin : Q -> Q) (np_pi : Q) (vehicle_id : string) (days : Z)
         (p : UserProfile) (include_anomalies : bool) (seed : Z) (env : world.Env),
    vehicle_id = "VEH001" \/ vehicle_id = "VEH002" ->
    (0 <= seed < 2 ^ 32)%Z ->
    (days <= 0)%Z ->
    run_simulation np_exp np_sin np_pi vehicle_id days (Some p) include_anomalies
      (Some seed) env = inl Py.ValueError.
Proof.
  intros np_exp np_sin np_pi vid days p inc seed env Hv Hs Hd.
  destruct (init_returns vid p seed env Hv Hs) as (self & env1 & Hinit).
  unfold run_simulation. unfold world.bind at 1. rewrite Hinit. cbv beta iota.
  unfold world.bind at 1. unfold world.now at 1. cbv beta iota zeta.
  unfold Pylist.range. replace (Z.to_nat days) with 0%nat by lia.
  simpl Pylist.for_each. unfold world.bind, world.ret. reflexivity.
Qed.

Lemma run_without_days_raises_witness :
  run_simulation charging_patterns.exp_taylor sin_taylor pi_approx "VEH002" 0
    (Some ECO_CONSCIOUS) true (Some 42%Z) env_day0 = inl Py.ValueError.
Proof.
  apply (run_without_days_raises charging_patterns.exp_taylor sin_taylor pi_approx
           "VEH002" 0 ECO_CONSCIOUS true 42 env_day0).
  - right. reflexivity.
  - lia.
  - lia.
Defined.

End ScheduleFacts.

(** ** The records of a simulated day *)

Section RecordFacts.

Import user_profiles simulator.

Ltac open_bind H :=
  let a := fresh "a" in
  let env := fresh "env" in
  let Ha := fresh "Ha" in
  apply bind_inr in H; destruct H as (a & env & Ha & H).

(** A fresh record carries the time stamp it is given and cell
    temperatures on either side of its temperature. *)
Lemma create_record_cells self ts env r env' :
  _create_telemetry_record self ts env = inr (r, env') ->
  time r = ts /\ min_cell_temp r <= temperature r <= max_cell_temp r.
Proof.
  unfold _create_telemetry_record. intro H.
  do 4 open_bind H. apply ret_inr in H. destruct H as [-> _].
  cbn [time min_cell_temp temperature max_cell_temp].
  split; [reflexivity|].
  pose proof (Qabs_nonneg a2). lra.
Qed.

Variable date : world.datetime.
Variable dt : Q.

Lemma step_stamped c mark st env st' env' :
  (forall r, time (mark r) = time r /\ temperature (mark r) = temperature r /\
             min_cell_temp (mark r) = min_cell_temp r /\
             max_cell_temp (mark r) = max_cell_temp r) ->
  step dt c mark st env = inr (st', env') ->
  stamped date dt st -> stamped date dt st'.
Proof.
  intros Hmark H [Htime Hrec]. unfold step in H. open_bind H. destruct a as [out b].
  open_bind H. apply ret_inr in H. destruct H as [-> _].
  apply create_record_cells in Ha0. destruct Ha0 as [Ht Hc].
  destruct (Hmark a) as (M1 & M2 & M3 & M4).
  split; cbn [day_time telemetry_records].
  - rewrite length_app. simpl length. lia.
  - intros k r Hk. apply lookup_app_Some in Hk. destruct Hk as [Hk|[Hlen Hk]].
    + apply Hrec, Hk.
    + destruct (k - length (telemetry_records st))%nat eqn:E; [|destruct n; discriminate Hk].
      simpl in Hk. injection Hk as <-.
      rewrite M1, M2, M3, M4, Ht, Htime. split; [|exact Hc].
      f_equal. f_equal. lia.
Qed.

Lemma steps_stamped {A} (current_of : A -> Q)
    (mark : A -> TelemetryRecord -> TelemetryRecord) xs st env st' env' :
  (forall x r, time (mark x r) = time r /\ temperature (mark x r) = temperature r /\
               min_cell_temp (mark x r) = min_cell_temp r /\
               max_cell_temp (mark x r) = max_cell_temp r) ->
  Pylist.for_each xs (fun x => step dt (current_of x) (mark x)) st env = inr (st', env') ->
  stamped date dt st -> stamped date dt st'.
Proof.
  intros Hmark.
  apply (for_each_related (fun a b => stamped date dt a -> stamped date dt b)).
  - intros s H. exact H.
  - intros a b c H1 H2 H. apply H2, H1, H.
  - intros x s e s' e' Hs. apply (step_stamped _ _ _ _ _ _ (Hmark x) Hs).
Qed.

Lemma run_activity_stamped np_exp profile activity st env st' env' :
  run_activity np_exp profile dt activity st env = inr (st', env') ->
  stamped date dt st -> stamped date dt st'.
Proof.
  unfold run_activity. intros H Hst. do 2 open_bind H.
  assert (Hst0 : stamped date dt
            {| sim := set_battery (battery_model.set_ambient_temp a0 (battery (sim st)))
                                  (sim st);
               day_time := day_time st; telemetry_records := telemetry_records st |})
    by exact Hst.
  destruct (type activity).
  - apply (steps_stamped (fun _ => 0) (fun _ r => r) _ _ _ _ _
             ltac:(intros x r; repeat split) H Hst0).
  - open_bind H.
    apply (steps_stamped (fun c => c) (fun c => set_driving (Qabs c * 0.5)) _ _ _ _ _
             ltac:(intros x r; repeat split) H Hst0).
  - open_bind H. destruct a1 as [[currents socs] flag].
    apply (steps_stamped (fun c => c) (fun c => set_is_charging (c >? 0)) _ _ _ _ _
             ltac:(intros x r; repeat split) H Hst0).
Qed.

(** Overlaying values keeps the cell temperatures around the temperature. *)
Lemma splice_cells change values : forall idx i records records',
  (forall v r, min_cell_temp r <= temperature r <= max_cell_temp r ->
               min_cell_temp (change v r) <= temperature (change v r)
               <= max_cell_temp (change v r)) ->
  splice change idx i values records = inr records' ->
  Forall (fun r => min_cell_temp r <= temperature r <= max_cell_temp r) records ->
  Forall (fun r => min_cell_temp r <= temperature r <= max_cell_temp r) records'.
Proof.
  induction values as [|v values IH]; intros idx i records records' Hch H Hall; simpl in H.
  - injection H as <-. exact Hall.
  - destruct (idx + i <? Z.of_nat (length records))%Z.
    + unfold Py.bind in H.
      destruct (Pylist.getitem records (idx + i)) as [e|r] eqn:Hget; [discriminate|].
      destruct (Pylist.setitem records (idx + i) (change v r)) as [e|records1] eqn:Hset;
        [discriminate|].
      apply (IH _ _ _ _ Hch H).
      unfold Pylist.setitem, Pylist.getitem, Py.bind in Hset, Hget.
      destruct (Pylist.position (length records) (idx + i)) as [e|j]; [discriminate|].
      destruct (records !! j) as [r0|] eqn:Hj; [|discriminate].
      injection Hget as ->. injection Hset as <-.
      apply Forall_insert; [exact Hall|]. apply Hch.
      rewrite Forall_lookup in Hall. apply (Hall _ _ Hj).
    + unfold Py.bind, Py.ret in H. apply (IH _ _ _ _ Hch H Hall).
Qed.

Lemma inject_daily_anomalies_cells np_exp self records d env records' events env' :
  _inject_daily_anomalies np_exp self records d env = inr ((records', events), env') ->
  Forall (fun r => min_cell_temp r <= temperature r <= max_cell_temp r) records ->
  Forall (fun r => min_cell_temp r <= temperature r <= max_cell_temp r) records'.
Proof.
  unfold _inject_daily_anomalies. intros H Hall.
  open_bind H. open_bind H. destruct a0 as [records1 anomalies].
  assert (H1 : Forall (fun r => min_cell_temp r <= temperature r <= max_cell_temp r)
                      records1).
  { destruct (a <? 0.05).
    - destruct (_find_activity_periods records).
      + apply ret_inr in Ha0. destruct Ha0 as [Heq _]. injection Heq as -> _. exact Hall.
      + open_bind Ha0. destruct a0 as [pa pb].
        do 5 open_bind Ha0. destruct a4 as [profile event].
        open_bind Ha0. apply ret_inr in Ha0. destruct Ha0 as [Heq _].
        injection Heq as -> _. apply lift_inr in Ha7. destruct Ha7 as [Ha7 _].
        apply (splice_cells set_thermal _ _ _ _ _
                 ltac:(intros v r _; cbn [min_cell_temp temperature max_cell_temp
                                          set_thermal]; lra) Ha7 Hall).
    - apply ret_inr in Ha0. destruct Ha0 as [Heq _]. injection Heq as -> _. exact Hall. }
  open_bind H. destruct (a0 <? 0.10).
  - do 4 open_bind H. open_bind H. destruct a5 as [values event].
    open_bind H. apply ret_inr in H. destruct H as [Heq _].
    injection Heq as -> _. apply lift_inr in Ha7. destruct Ha7 as [Ha7 _].
    apply (splice_cells set_voltage _ _ _ _ _ ltac:(intros v r Hr; exact Hr) Ha7 H1).
  - apply ret_inr in H. destruct H as [Heq _]. injection Heq as -> _. exact H1.
Qed.

(** The records of a simulated day. *)
Lemma simulate_day_records np_exp np_sin np_pi self incl env telemetry events self' env' :
  simulate_day np_exp np_sin np_pi self (Some date) incl dt env
  = inr ((telemetry, events, self'), env') ->
  forall k r, telemetry !! k = Some r ->
    time r = (date + Z.of_nat k * world.float_seconds dt)%Z /\
    min_cell_temp r <= temperature r <= max_cell_temp r.
Proof.
  intro H. unfold simulate_day in H.
  open_bind H. apply ret_inr in Ha. destruct Ha as [-> ->].
  open_bind H. rename a into schedule.
  open_bind H. rename a into st.
  assert (Hst : stamped date dt st).
  { apply (for_each_related (fun a b => stamped date dt a -> stamped date dt b)
             (run_activity np_exp (default_ambient_temp_profile np_sin np_pi) dt)
             ltac:(intros s Hs; exact Hs)
             ltac:(intros a b c H1 H2 Hs; apply H2, H1, Hs)
             ltac:(intros x s e s' e' Hs Hp; apply (run_activity_stamped _ _ _ _ _ _ _ Hs Hp))
             _ _ _ _ _ Ha0).
    split; cbn [day_time telemetry_records]; [simpl; lia|].
    intros k r Hk. destruct k; discriminate Hk. }
  destruct Hst as [_ Hrec].
  open_bind H. destruct a as [records evs].
  apply ret_inr in H. destruct H as [Heq _]. injection Heq as Htel _ _. subst telemetry.
  revert Ha1. destruct (andb incl _); intro Ha1.
  - pose proof (inject_daily_anomalies_times _ _ _ _ _ _ _ _ Ha1) as Htimes.
    assert (Hcells : Forall (fun r => min_cell_temp r <= temperature r <= max_cell_temp r)
                       records).
    { apply (inject_daily_anomalies_cells _ _ _ _ _ _ _ _ Ha1).
      apply Forall_lookup. intros k r Hk. apply (Hrec k r Hk). }
    intros k r Hk. split.
    + assert (Hm : map time records !! k = Some (time r)).
      { change (map time records) with (time <$> records).
        rewrite list_lookup_fmap, Hk. reflexivity. }
      rewrite Htimes in Hm. change (map time (telemetry_records st))
        with (time <$> telemetry_records st) in Hm.
      rewrite list_lookup_fmap in Hm.
      destruct (telemetry_records st !! k) as [r0|] eqn:Hk0; [|discriminate].
      simpl in Hm. injection Hm as <-. apply (Hrec k r0 Hk0).
    + rewrite Forall_lookup in Hcells. apply (Hcells k r Hk).
  - apply ret_inr in Ha1. destruct Ha1 as [Heq _]. injection Heq as -> _. exact Hrec.
Qed.

End RecordFacts.

(** X29: Whenever simulate_day returns for a given date (default ambient
    profile), the k-th telemetry record is stamped date + k *
    timedelta(seconds=dt), with or without anomalies: the time advances by dt
    per record, not by the scheduled duration of the activities. *)
Theorem telemetry_timestamps_are_evenly_spaced :
  forall (np_exp np_sin : Q -> Q) (np_pi : Q) (self : simulator.EVBatterySimulator)
         (date : world.datetime) (include_anomalies : bool) (dt : Q) (env : world.Env)
         (telemetry : list simulator.TelemetryRecord) (events : list simulator.EventRow)
         (self' : simulator.EVBatterySimulator) (env' : world.Env),
    simulator.simulate_day np_exp np_sin np_pi self (Some date) include_anomalies dt env
    = inr ((telemetry, events, self'), env') ->
    forall k r, telemetry !! k = Some r ->
      simulator.time r = (date + Z.of_nat k * world.float_seconds dt)%Z.
Proof.
  intros np_exp np_sin np_pi self date incl dt env telemetry events self' env' H k r Hk.
  apply (simulate_day_records date dt _ _ _ _ _ _ _ _ _ _ H k r Hk).
Qed.

(** X30: Whenever simulate_day returns for a given date (default ambient
    profile), every telemetry record has min_cell_temp <= temperature <=
    max_cell_temp, also after the daily anomalies were injected. *)
Theorem cell_temperatures_bracket_temperature :
  forall (np_exp np_sin : Q -> Q) (np_pi : Q) (self : simulator.EVBatterySimulator)
         (date : world.datetime) (include_anomalies : bool) (dt : Q) (env : world.Env)
         (telemetry : list simulator.TelemetryRecord) (events : list simulator.EventRow)
         (self' : simulator.EVBatterySimulator) (env' : world.Env),
    simulator.simulate_day np_exp np_sin np_pi self (Some date) include_anomalies dt env
    = inr ((telemetry, events, self'), env') ->
    Forall (fun r => simulator.min_cell_temp r <= simulator.temperature r
                     <= simulator.max_cell_temp r) telemetry.
Proof.
  intros np_exp np_sin np_pi self date incl dt env telemetry events self' env' H.
  apply Forall_lookup. intros k r Hk.
  apply (simulate_day_records date dt _ _ _ _ _ _ _ _ _ _ H k r Hk).
Qed.

Lemma telemetry_timestamps_are_evenly_spaced_witness :
  exists telemetry events self' env',
    simulator.simulate_day charging_patterns.exp_taylor simulator.sin_taylor
      simulator.pi_approx (simulator.commuter "VEH001" battery_model.VEH001) (Some 0%Z)
      true 21600 simulator.env_day0
    = inr ((telemetry, events, self'), env') /\
    forall k r, telemetry !! k = Some r ->
      simulator.time r = (0 + Z.of_nat k * world.float_seconds 21600)%Z.
Proof.
  do 4 eexists. split; [vm_compute; reflexivity|].
  eapply (telemetry_timestamps_are_evenly_spaced charging_patterns.exp_taylor
            simulator.sin_taylor simulator.pi_approx
            (simulator.commuter "VEH001" battery_model.VEH001) 0%Z true 21600
            simulator.env_day0).
  vm_compute. reflexivity.
Defined.

Lemma cell_temperatures_bracket_temperature_witness :
  exists telemetry events self' env',
    simulator.simulate_day charging_patterns.exp_taylor simulator.sin_taylor
      simulator.pi_approx (simulator.commuter "VEH002" battery_model.VEH002) (Some 0%Z)
      true 21600 simulator.env_day0
    = inr ((telemetry, events, self'), env') /\
    Forall (fun r => simulator.min_cell_temp r <= simulator.temperature r
                     <= simulator.max_cell_temp r) telemetry.
Proof.
  do 4 eexists. split; [vm_compute; reflexivity|].
  eapply (cell_temperatures_bracket_temperature charging_patterns.exp_taylor
            simulator.sin_taylor simulator.pi_approx
            (simulator.commuter "VEH002" battery_model.VEH002) 0%Z true 21600
            simulator.env_day0).
  vm_compute. reflexivity.
Defined.
